(** * A shallow embedding of the job-board backend

    The development follows the Flask application under [backend/]:
    [models.py] (the three tables), [routes/auth.py], [routes/jobs.py],
    [routes/admin.py], [routes/applications.py] and [utils/email.py].  A request handler becomes a
    function from the database (and the request) to a new database, the
    e-mails handed to the mail client and the HTTP response; the
    [try ... except Exception] wrapper of every handler becomes a small
    exception monad whose failure is answered with status 500 after a
    rollback. *)

From Stdlib Require Import ZArith List String Ascii Bool Lia.
From Stdlib Require Import Sorting.Sorted.
Import ListNotations.

Local Set Warnings "-register-all".

Local Open Scope string_scope.
Local Open Scope list_scope.
Local Open Scope Z_scope.

(* ================================================================= *)
(** ** JSON values and the Python operations the handlers apply to them *)

(** The value [request.get_json()] returns, and the value [jsonify] is
    given.  Numbers are integers; JSON fractions are outside the model.
    An object is kept as its list of bindings, the first binding of a key
    being the one a lookup finds. *)
Inductive json : Type :=
| JNull
| JBool (b : bool)
| JInt (n : Z)
| JStr (s : string)
| JList (xs : list json)
| JObj (kv : list (string * json)).

(** A computation that either returns or raises a Python exception. *)
Inductive outcome (A : Type) : Type :=
| Ret (a : A)
| Raise.
Arguments Ret {A} a.
Arguments Raise {A}.

Definition bind {A B : Type} (m : outcome A) (k : A -> outcome B) : outcome B :=
  match m with
  | Ret a => k a
  | Raise => Raise
  end.

Notation "x <- m ;; k" := (bind m (fun x => k))
  (at level 61, m at next level, right associativity).

(** [bool(v)]: what [if v] and [not v] test. *)
Definition truthy (v : json) : bool :=
  match v with
  | JNull => false
  | JBool b => b
  | JInt n => negb (n =? 0)
  | JStr s => negb (String.eqb s "")
  | JList xs => match xs with [] => false | _ :: _ => true end
  | JObj kv => match kv with [] => false | _ :: _ => true end
  end.

Fixpoint assoc {A : Type} (k : string) (kv : list (string * A)) : option A :=
  match kv with
  | [] => None
  | (k', v) :: kv' => if String.eqb k k' then Some v else assoc k kv'
  end.

(** [data.get(k, default)]; only a dict has the method. *)
Definition dict_get_default (data : json) (k : string) (default : json)
  : outcome json :=
  match data with
  | JObj kv => Ret (match assoc k kv with Some v => v | None => default end)
  | _ => Raise
  end.

(** [data.get(k)] *)
Definition dict_get (data : json) (k : string) : outcome json :=
  dict_get_default data k JNull.

(** [data[k]] for a string key [k]: [KeyError] on a dict without the key,
    [TypeError] on every other value. *)
Definition subscript (data : json) (k : string) : outcome json :=
  match data with
  | JObj kv => match assoc k kv with Some v => Ret v | None => Raise end
  | _ => Raise
  end.

Fixpoint prefixb (p s : string) : bool :=
  match p with
  | EmptyString => true
  | String c p' =>
      match s with
      | EmptyString => false
      | String d s' => Ascii.eqb c d && prefixb p' s'
      end
  end.

(** [p in s] for two strings. *)
Fixpoint infixb (p s : string) : bool :=
  prefixb p s ||
  match s with
  | EmptyString => false
  | String _ s' => infixb p s'
  end.

Definition is_JStr (k : string) (v : json) : bool :=
  match v with
  | JStr s => String.eqb k s
  | _ => false
  end.

(** [k in data] for a string [k]: key membership on a dict, element
    membership on a list, substring test on a string, [TypeError] on
    [None], numbers and booleans. *)
Definition py_in (k : string) (data : json) : outcome bool :=
  match data with
  | JObj kv => Ret (match assoc k kv with Some _ => true | None => false end)
  | JList xs => Ret (existsb (is_JStr k) xs)
  | JStr s => Ret (infixb k s)
  | _ => Raise
  end.

Definition bool_to_Z (b : bool) : Z := if b then 1 else 0.

(** [a == b] on JSON values; [True == 1] as in Python, a dict compared
    key by key. *)
Fixpoint py_eq (a b : json) {struct a} : bool :=
  match a, b with
  | JNull, JNull => true
  | JBool x, JBool y => Bool.eqb x y
  | JBool x, JInt y => bool_to_Z x =? y
  | JInt x, JBool y => x =? bool_to_Z y
  | JInt x, JInt y => x =? y
  | JStr x, JStr y => String.eqb x y
  | JList xs, JList ys =>
      (fix go (xs ys : list json) {struct xs} : bool :=
         match xs, ys with
         | [], [] => true
         | x :: xs', y :: ys' => py_eq x y && go xs' ys'
         | _, _ => false
         end) xs ys
  | JObj xs, JObj ys =>
      (Nat.eqb (List.length xs) (List.length ys)) &&
      (fix go (xs : list (string * json)) {struct xs} : bool :=
         match xs with
         | [] => true
         | (k, v) :: xs' =>
             match assoc k ys with
             | Some w => py_eq v w && go xs'
             | None => false
             end
         end) xs
  | _, _ => false
  end.

Fixpoint string_ltb (a b : string) : bool :=
  match a, b with
  | _, EmptyString => false
  | EmptyString, String _ _ => true
  | String c a', String d b' =>
      (nat_of_ascii c <? nat_of_ascii d)%nat ||
      (Ascii.eqb c d && string_ltb a' b')
  end.

(** [a < b]: numbers (booleans count as 0 and 1), strings and lists are
    ordered; every other pair raises [TypeError]. *)
Fixpoint py_lt (a b : json) {struct a} : outcome bool :=
  match a, b with
  | JInt x, JInt y => Ret (x <? y)
  | JInt x, JBool y => Ret (x <? bool_to_Z y)
  | JBool x, JInt y => Ret (bool_to_Z x <? y)
  | JBool x, JBool y => Ret (bool_to_Z x <? bool_to_Z y)
  | JStr x, JStr y => Ret (string_ltb x y)
  | JList xs, JList ys =>
      (fix go (xs ys : list json) {struct xs} : outcome bool :=
         match xs, ys with
         | [], [] => Ret false
         | [], _ :: _ => Ret true
         | _ :: _, [] => Ret false
         | x :: xs', y :: ys' => if py_eq x y then go xs' ys' else py_lt x y
         end) xs ys
  | _, _ => Raise
  end.

(** Whitespace for [str.strip()] and [int(str)], on ASCII. *)
Definition is_space (c : ascii) : bool :=
  let n := nat_of_ascii c in
  ((9 <=? n) && (n <=? 13) || (28 <=? n) && (n <=? 32))%nat.

Fixpoint lstrip (l : list ascii) : list ascii :=
  match l with
  | [] => []
  | c :: l' => if is_space c then lstrip l' else l
  end.

Definition strip_chars (l : list ascii) : list ascii :=
  rev (lstrip (rev (lstrip l))).

(** [s.strip()] *)
Definition strip (s : string) : string :=
  string_of_list_ascii (strip_chars (list_ascii_of_string s)).

Definition digit_of (c : ascii) : option Z :=
  let n := nat_of_ascii c in
  if ((48 <=? n) && (n <=? 57))%nat then Some (Z.of_nat n - 48) else None.

(** Decimal digits, single underscores allowed between two digits. *)
Fixpoint digits_value (acc : Z) (after_digit : bool) (l : list ascii)
  : option Z :=
  match l with
  | [] => if after_digit then Some acc else None
  | c :: l' =>
      match digit_of c with
      | Some d => digits_value (10 * acc + d) true l'
      | None =>
          if Ascii.eqb c "_" && after_digit
          then match l' with
               | [] => None
               | _ :: _ => digits_value acc false l'
               end
          else None
      end
  end.

(** [int(s)] for a string: surrounding whitespace, an optional sign, then
    decimal digits.  [None] is [ValueError].  Digits outside ASCII are not
    modelled. *)
Definition int_of_string (s : string) : option Z :=
  match strip_chars (list_ascii_of_string s) with
  | [] => None
  | c :: l =>
      if Ascii.eqb c "-" then option_map Z.opp (digits_value 0 false l)
      else if Ascii.eqb c "+" then digits_value 0 false l
      else digits_value 0 false (c :: l)
  end.

(** Decimal rendering, for [str(n)] in an f-string. *)
Fixpoint pos_digits (fuel : nat) (n : Z) (acc : string) : string :=
  match fuel with
  | O => acc
  | S fuel' =>
      let acc' := String (ascii_of_nat (Z.to_nat (48 + n mod 10))) acc in
      if n / 10 =? 0 then acc' else pos_digits fuel' (n / 10) acc'
  end.

Definition string_of_Z (n : Z) : string :=
  if n <? 0
  then String "-" (pos_digits (S (Z.to_nat (Z.log2 (- n)))) (- n) "")
  else pos_digits (S (Z.to_nat (Z.log2 n))) n "".

(* ================================================================= *)
(** ** The query operations the handlers use *)

Definition lower_char (c : ascii) : ascii :=
  let n := nat_of_ascii c in
  if ((65 <=? n) && (n <=? 90))%nat then ascii_of_nat (n + 32) else c.

(** SQL [LIKE]: [%] stands for any run of characters and [_] for any one
    character.  The escape character of the engine is not modelled. *)
Fixpoint like (p t : list ascii) {struct p} : bool :=
  match p with
  | [] => match t with [] => true | _ :: _ => false end
  | c :: p' =>
      if Ascii.eqb c "%" then
        (fix any_run (t : list ascii) {struct t} : bool :=
           like p' t ||
           match t with
           | [] => false
           | _ :: t' => any_run t'
           end) t
      else
        match t with
        | [] => false
        | d :: t' => (Ascii.eqb c "_" || Ascii.eqb c d) && like p' t'
        end
  end.

(** [column.ilike(pattern)], rendered as [lower(column) LIKE lower(pattern)]. *)
Definition ilike (text pattern : string) : bool :=
  like (map lower_char (list_ascii_of_string pattern))
       (map lower_char (list_ascii_of_string text)).

(** The pattern the handlers build: [f'%{s}%']. *)
Definition contains_pattern (s : string) : string := "%" ++ s ++ "%".

(** Modelled from the spec: [Job.skills.contains([search])] is an operator
    of the ORM on a JSON column, outside this repository; the spec reads it
    as exact skill-tag membership. *)
Definition skills_contains (skills : json) (search : string) : bool :=
  match skills with
  | JList xs => existsb (is_JStr search) xs
  | _ => false
  end.

Fixpoint insert_desc {A : Type} (key : A -> Z) (x : A) (l : list A) : list A :=
  match l with
  | [] => [x]
  | y :: l' => if key y <=? key x then x :: l else y :: insert_desc key x l'
  end.

(** [query.order_by(key.desc())]; rows with equal keys stay in storage
    order. *)
Definition order_by_desc {A : Type} (key : A -> Z) (l : list A) : list A :=
  fold_right (insert_desc key) [] l.

(** What [paginate] returns. *)
Record Pagination (A : Type) : Type := mkPagination {
  items : list A;
  total : Z;
  pages : Z;
  has_next : bool;
  has_prev : bool
}.
Arguments mkPagination {A}.
Arguments items {A}.
Arguments total {A}.
Arguments pages {A}.
Arguments has_next {A}.
Arguments has_prev {A}.

Definition clamp_page (page : Z) : Z := Z.max 1 page.
Definition clamp_per_page (per_page : Z) : Z := Z.max 1 per_page.

(** Modelled from the spec: the pagination collaborator,
    [query.paginate(page, per_page, error_out=False)] of the ORM extension,
    is outside this repository.  Given the rows of the query it returns a
    slice plus the total count and the total page count; a page or page
    size below 1 is clamped and never causes an error. *)
Definition paginate {A : Type} (rows : list A) (page per_page : Z)
  : Pagination A :=
  let page' := clamp_page page in
  let per_page' := clamp_per_page per_page in
  let n := Z.of_nat (List.length rows) in
  let pages' := (n + per_page' - 1) / per_page' in
  {| items := firstn (Z.to_nat per_page')
                (skipn (Z.to_nat ((page' - 1) * per_page')) rows);
     total := n;
     pages := pages';
     has_next := page' <? pages';
     has_prev := 1 <? page' |}.

(** [request.args]: the query string, the first value of a key winning. *)
Definition args_t : Type := list (string * string).

(** [int(request.args.get(k, default))] with an integer [default]. *)
Definition int_arg (args : args_t) (k : string) (default : Z) : outcome Z :=
  match assoc k args with
  | None => Ret default
  | Some s => match int_of_string s with Some n => Ret n | None => Raise end
  end.

(** [request.args.get(k, '').strip()] *)
Definition stripped_arg (args : args_t) (k : string) : string :=
  match assoc k args with
  | None => ""
  | Some s => strip s
  end.

(* ================================================================= *)
(** ** models.py *)

Inductive Role : Type := RoleUser | RoleEmployer | RoleAdmin.

Definition Role_to_string (r : Role) : string :=
  match r with
  | RoleUser => "user"
  | RoleEmployer => "employer"
  | RoleAdmin => "admin"
  end.

Definition Role_eqb (a b : Role) : bool :=
  match a, b with
  | RoleUser, RoleUser | RoleEmployer, RoleEmployer | RoleAdmin, RoleAdmin => true
  | _, _ => false
  end.

Inductive JobStatus : Type := Pending | Approved | Rejected.

Definition JobStatus_to_string (s : JobStatus) : string :=
  match s with
  | Pending => "pending"
  | Approved => "approved"
  | Rejected => "rejected"
  end.

Definition JobStatus_eqb (a b : JobStatus) : bool :=
  match a, b with
  | Pending, Pending | Approved, Approved | Rejected, Rejected => true
  | _, _ => false
  end.

Inductive JobType : Type := FullTime | PartTime | Contract | Freelance.

Definition JobType_to_string (t : JobType) : string :=
  match t with
  | FullTime => "full-time"
  | PartTime => "part-time"
  | Contract => "contract"
  | Freelance => "freelance"
  end.

Inductive ExperienceLevel : Type := Entry | Mid | Senior | Lead.

Definition ExperienceLevel_to_string (e : ExperienceLevel) : string :=
  match e with
  | Entry => "entry"
  | Mid => "mid"
  | Senior => "senior"
  | Lead => "lead"
  end.

Inductive ApplicationStatus : Type :=
  AppPending | AppApproved | AppRejected | AppInterview.

Definition ApplicationStatus_to_string (s : ApplicationStatus) : string :=
  match s with
  | AppPending => "pending"
  | AppApproved => "approved"
  | AppRejected => "rejected"
  | AppInterview => "interview"
  end.

(** A timestamp, as seconds on the server clock. *)
Definition datetime : Type := Z.

Module User.
Record t : Type := mk {
  id : Z;
  email : string;
  password_hash : string;
  first_name : string;
  last_name : string;
  role : Role;
  company : option string;
  created_at : datetime;
  updated_at : datetime
}.
End User.

Module Job.
Record t : Type := mk {
  id : Z;
  title : string;
  description : string;
  requirements : string;
  benefits : option string;
  location : string;
  salary_min : option Z;
  salary_max : option Z;
  skills : json;
  type : JobType;
  experience_level : ExperienceLevel;
  remote : option bool;
  status : JobStatus;
  company : string;
  employer_id : Z;
  created_at : datetime;
  updated_at : datetime
}.

Definition set_title (j : t) (v : string) : t :=
  mk (id j) v (description j) (requirements j) (benefits j) (location j)
    (salary_min j) (salary_max j) (skills j) (type j) (experience_level j)
    (remote j) (status j) (company j) (employer_id j) (created_at j)
    (updated_at j).

Definition set_description (j : t) (v : string) : t :=
  mk (id j) (title j) v (requirements j) (benefits j) (location j)
    (salary_min j) (salary_max j) (skills j) (type j) (experience_level j)
    (remote j) (status j) (company j) (employer_id j) (created_at j)
    (updated_at j).

Definition set_requirements (j : t) (v : string) : t :=
  mk (id j) (title j) (description j) v (benefits j) (location j)
    (salary_min j) (salary_max j) (skills j) (type j) (experience_level j)
    (remote j) (status j) (company j) (employer_id j) (created_at j)
    (updated_at j).

Definition set_benefits (j : t) (v : option string) : t :=
  mk (id j) (title j) (description j) (requirements j) v (location j)
    (salary_min j) (salary_max j) (skills j) (type j) (experience_level j)
    (remote j) (status j) (company j) (employer_id j) (created_at j)
    (updated_at j).

Definition set_location (j : t) (v : string) : t :=
  mk (id j) (title j) (description j) (requirements j) (benefits j) v
    (salary_min j) (salary_max j) (skills j) (type j) (experience_level j)
    (remote j) (status j) (company j) (employer_id j) (created_at j)
    (updated_at j).

Definition set_salary_min (j : t) (v : option Z) : t :=
  mk (id j) (title j) (description j) (requirements j) (benefits j)
    (location j) v (salary_max j) (skills j) (type j) (experience_level j)
    (remote j) (status j) (company j) (employer_id j) (created_at j)
    (updated_at j).

Definition set_salary_max (j : t) (v : option Z) : t :=
  mk (id j) (title j) (description j) (requirements j) (benefits j)
    (location j) (salary_min j) v (skills j) (type j) (experience_level j)
    (remote j) (status j) (company j) (employer_id j) (created_at j)
    (updated_at j).

Definition set_skills (j : t) (v : json) : t :=
  mk (id j) (title j) (description j) (requirements j) (benefits j)
    (location j) (salary_min j) (salary_max j) v (type j)
    (experience_level j) (remote j) (status j) (company j) (employer_id j)
    (created_at j) (updated_at j).

Definition set_type (j : t) (v : JobType) : t :=
  mk (id j) (title j) (description j) (requirements j) (benefits j)
    (location j) (salary_min j) (salary_max j) (skills j) v
    (experience_level j) (remote j) (status j) (company j) (employer_id j)
    (created_at j) (updated_at j).

Definition set_experience_level (j : t) (v : ExperienceLevel) : t :=
  mk (id j) (title j) (description j) (requirements j) (benefits j)
    (location j) (salary_min j) (salary_max j) (skills j) (type j) v
    (remote j) (status j) (company j) (employer_id j) (created_at j)
    (updated_at j).

Definition set_remote (j : t) (v : option bool) : t :=
  mk (id j) (title j) (description j) (requirements j) (benefits j)
    (location j) (salary_min j) (salary_max j) (skills j) (type j)
    (experience_level j) v (status j) (company j) (employer_id j)
    (created_at j) (updated_at j).

Definition set_status (j : t) (v : JobStatus) : t :=
  mk (id j) (title j) (description j) (requirements j) (benefits j)
    (location j) (salary_min j) (salary_max j) (skills j) (type j)
    (experience_level j) (remote j) v (company j) (employer_id j)
    (created_at j) (updated_at j).

Definition set_updated_at (j : t) (v : datetime) : t :=
  mk (id j) (title j) (description j) (requirements j) (benefits j)
    (location j) (salary_min j) (salary_max j) (skills j) (type j)
    (experience_level j) (remote j) (status j) (company j) (employer_id j)
    (created_at j) v.
End Job.

Module Application.
Record t : Type := mk {
  id : Z;
  cover_letter : string;
  resume_url : string;
  status : ApplicationStatus;
  user_id : Z;
  job_id : Z;
  created_at : datetime;
  updated_at : datetime
}.
End Application.

(** The three tables and the auto-increment counters of the two tables the
    handlers below insert into. *)
Record DB : Type := mkDB {
  users : list User.t;
  jobs : list Job.t;
  applications : list Application.t;
  next_job_id : Z;
  next_application_id : Z
}.

(** [User.query.get(user_id)] *)
Definition User_get (db : DB) (user_id : Z) : option User.t :=
  find (fun u => User.id u =? user_id) (users db).

(** [Job.query.get(job_id)] *)
Definition Job_get (db : DB) (job_id : Z) : option Job.t :=
  find (fun j => Job.id j =? job_id) (jobs db).

(** [Application.query.filter_by(user_id=..., job_id=...).first()] *)
Definition Application_first (db : DB) (user_id job_id : Z)
  : option Application.t :=
  find (fun a => (Application.user_id a =? user_id) &&
                 (Application.job_id a =? job_id)) (applications db).

(** [job.applications], the relationship of [Job]. *)
Definition Job_applications (db : DB) (j : Job.t) : list Application.t :=
  filter (fun a => Application.job_id a =? Job.id j) (applications db).

(** [User.query.filter_by(email=v).first()]; a value that is not a string
    matches no row. *)
Definition User_by_email (db : DB) (v : json) : option User.t :=
  match v with
  | JStr e => find (fun u => String.eqb (User.email u) e) (users db)
  | _ => None
  end.

(* ================================================================= *)
(** ** The storage layer

    The ORM and the database engine are outside the repository.  A flush
    accepts a value for a column when it is a value of the column's
    declared type in [models.py] ([String(n)] with at most [n] characters,
    [Text], [Integer], [Boolean], the members of an [Enum], [NULL] only
    where the column is nullable) and raises on any other value; the
    conversions a driver may apply between types are not modelled. *)

Definition string_col (n : nat) (v : json) : outcome string :=
  match v with
  | JStr s => if (String.length s <=? n)%nat then Ret s else Raise
  | _ => Raise
  end.

Definition text_col (v : json) : outcome string :=
  match v with
  | JStr s => Ret s
  | _ => Raise
  end.

Definition nullable_text_col (v : json) : outcome (option string) :=
  match v with
  | JNull => Ret None
  | JStr s => Ret (Some s)
  | _ => Raise
  end.

Definition nullable_integer_col (v : json) : outcome (option Z) :=
  match v with
  | JNull => Ret None
  | JInt n => Ret (Some n)
  | _ => Raise
  end.

Definition nullable_boolean_col (v : json) : outcome (option bool) :=
  match v with
  | JNull => Ret None
  | JBool b => Ret (Some b)
  | _ => Raise
  end.

Definition JobType_col (v : json) : outcome JobType :=
  match v with
  | JStr s =>
      if String.eqb s "full-time" then Ret FullTime
      else if String.eqb s "part-time" then Ret PartTime
      else if String.eqb s "contract" then Ret Contract
      else if String.eqb s "freelance" then Ret Freelance
      else Raise
  | _ => Raise
  end.

Definition ExperienceLevel_col (v : json) : outcome ExperienceLevel :=
  match v with
  | JStr s =>
      if String.eqb s "entry" then Ret Entry
      else if String.eqb s "mid" then Ret Mid
      else if String.eqb s "senior" then Ret Senior
      else if String.eqb s "lead" then Ret Lead
      else Raise
  | _ => Raise
  end.

(** On INSERT the ORM leaves out an attribute that is [None], so the
    column default of [models.py] applies. *)
Definition or_default {A : Type} (col : json -> outcome A) (default : A)
  (v : json) : outcome A :=
  match v with
  | JNull => Ret default
  | _ => col v
  end.

Definition not_null {A : Type} (v : option A) : outcome A :=
  match v with
  | Some a => Ret a
  | None => Raise
  end.

(** The unique constraint [unique_user_job_application] of
    [Application.__table_args__]: the INSERT raises when a row with the same
    [(user_id, job_id)] is stored. *)
Definition insert_application (db : DB) (a : Application.t) : outcome DB :=
  match Application_first db (Application.user_id a) (Application.job_id a) with
  | Some _ => Raise
  | None =>
      Ret (mkDB (users db) (jobs db) (applications db ++ [a])
             (next_job_id db) (next_application_id db + 1))
  end.

Definition insert_job (db : DB) (j : Job.t) : DB :=
  mkDB (users db) (jobs db ++ [j]) (applications db)
    (next_job_id db + 1) (next_application_id db).

(** [UPDATE jobs SET ... WHERE id = j.id] *)
Definition update_job_row (db : DB) (j : Job.t) : DB :=
  mkDB (users db)
    (map (fun r => if Job.id r =? Job.id j then j else r) (jobs db))
    (applications db) (next_job_id db) (next_application_id db).

Definition option_eqb {A : Type} (eqb : A -> A -> bool) (a b : option A) : bool :=
  match a, b with
  | Some x, Some y => eqb x y
  | None, None => true
  | _, _ => false
  end.

(** The flush emits an UPDATE, and [onupdate] sets [updated_at], only when
    a column of the row has changed. *)
Definition Job_same_columns (a b : Job.t) : bool :=
  String.eqb (Job.title a) (Job.title b) &&
  String.eqb (Job.description a) (Job.description b) &&
  String.eqb (Job.requirements a) (Job.requirements b) &&
  option_eqb String.eqb (Job.benefits a) (Job.benefits b) &&
  String.eqb (Job.location a) (Job.location b) &&
  option_eqb Z.eqb (Job.salary_min a) (Job.salary_min b) &&
  option_eqb Z.eqb (Job.salary_max a) (Job.salary_max b) &&
  py_eq (Job.skills a) (Job.skills b) &&
  String.eqb (JobType_to_string (Job.type a)) (JobType_to_string (Job.type b)) &&
  String.eqb (ExperienceLevel_to_string (Job.experience_level a))
             (ExperienceLevel_to_string (Job.experience_level b)) &&
  option_eqb Bool.eqb (Job.remote a) (Job.remote b) &&
  JobStatus_eqb (Job.status a) (Job.status b).

Definition touch (now : datetime) (old new : Job.t) : Job.t :=
  if Job_same_columns old new then new else Job.set_updated_at new now.

(* ================================================================= *)
(** ** Responses and e-mails *)

Record Response : Type := mkResponse {
  status_code : Z;
  body : json
}.

(** An e-mail as [send_email] hands it to the mail client.  [send_email]
    catches every error of the client, so sending never raises. *)
Record Email : Type := mkEmail {
  to_email : string;
  subject : string;
  html_body : string
}.

(** What a request leaves behind: the database, the e-mails handed to the
    mail client, and the response. *)
Record Result : Type := mkResult {
  db_after : DB;
  sent : list Email;
  response : Response
}.

(** [return jsonify({'message': msg}), code], nothing written. *)
Definition reply (db : DB) (code : Z) (msg : string) : Result :=
  mkResult db [] (mkResponse code (JObj [("message", JStr msg)])).

(** The [try ... except Exception] of a handler: a raise is rolled back
    and answered with status 500. *)
Definition handle (db : DB) (failure : string) (run : outcome Result) : Result :=
  match run with
  | Ret r => r
  | Raise => reply db 500 failure
  end.

(** [request.get_json()]; [None] stands for a request without a JSON
    body, on which the call (or the first use of its result) raises. *)
Definition get_json (request_json : option json) : outcome json :=
  match request_json with
  | Some v => Ret v
  | None => Raise
  end.

Definition dq : string := String (ascii_of_nat 34) "".

Definition COMPANY_NAME : string := "DevOps Jobs".

(* ================================================================= *)
(** ** The application *)

Section Backend.

(** The collaborators outside the repository: the credential service
    ([werkzeug.security]), whose check may raise (it does on a password
    that is no string), the token issuer ([flask_jwt_extended]),
    [datetime.isoformat] and the [repr] an f-string gives a list or a
    dict. *)
Variable check_password_hash : string -> json -> outcome bool.
Variable create_access_token : Z -> string.
Variable isoformat : datetime -> string.
Variable format_value : json -> string.

(** [f'{v}'] *)
Definition py_str (v : json) : string :=
  match v with
  | JStr s => s
  | JInt n => string_of_Z n
  | JBool true => "True"
  | JBool false => "False"
  | JNull => "None"
  | _ => format_value v
  end.

Definition opt_json {A : Type} (f : A -> json) (o : option A) : json :=
  match o with
  | Some a => f a
  | None => JNull
  end.

(** [User.to_dict] *)
Definition User_to_dict (u : User.t) : json :=
  JObj [("id", JInt (User.id u));
        ("email", JStr (User.email u));
        ("firstName", JStr (User.first_name u));
        ("lastName", JStr (User.last_name u));
        ("role", JStr (Role_to_string (User.role u)));
        ("company", opt_json JStr (User.company u));
        ("createdAt", JStr (isoformat (User.created_at u)));
        ("updatedAt", JStr (isoformat (User.updated_at u)))].

(** [Application.to_dict()], both inclusion flags at their default. *)
Definition Application_to_dict (a : Application.t) : json :=
  JObj [("id", JInt (Application.id a));
        ("coverLetter", JStr (Application.cover_letter a));
        ("resumeUrl", JStr (Application.resume_url a));
        ("status", JStr (ApplicationStatus_to_string (Application.status a)));
        ("userId", JInt (Application.user_id a));
        ("jobId", JInt (Application.job_id a));
        ("createdAt", JStr (isoformat (Application.created_at a)));
        ("updatedAt", JStr (isoformat (Application.updated_at a)))].

(** The entries [Job.to_dict] writes for every job. *)
Definition Job_record (j : Job.t) : list (string * json) :=
  [("id", JInt (Job.id j));
   ("title", JStr (Job.title j));
   ("description", JStr (Job.description j));
   ("requirements", JStr (Job.requirements j));
   ("benefits", opt_json JStr (Job.benefits j));
   ("location", JStr (Job.location j));
   ("salaryMin", opt_json JInt (Job.salary_min j));
   ("salaryMax", opt_json JInt (Job.salary_max j));
   ("skills", Job.skills j);
   ("type", JStr (JobType_to_string (Job.type j)));
   ("experienceLevel", JStr (ExperienceLevel_to_string (Job.experience_level j)));
   ("remote", opt_json JBool (Job.remote j));
   ("status", JStr (JobStatus_to_string (Job.status j)));
   ("company", JStr (Job.company j));
   ("employerId", JInt (Job.employer_id j));
   ("createdAt", JStr (isoformat (Job.created_at j)));
   ("updatedAt", JStr (isoformat (Job.updated_at j)))].

(** [Job.to_dict(include_applications)] *)
Definition Job_to_dict (db : DB) (j : Job.t) (include_applications : bool)
  : json :=
  JObj (Job_record j ++
        if include_applications
        then [("applications",
               JList (map Application_to_dict (Job_applications db j)))]
        else [("applicationCount",
               JInt (Z.of_nat (List.length (Job_applications db j))))]).

(* --------------------------------------------------------------- *)
(** *** utils/email.py *)

(** The paragraph [send_job_approval_email] writes for the reason:
    [f'<p><strong>Reason:</strong> {reason}</p>' if reason else ''] *)
Definition reason_paragraph (reason : json) : string :=
  if truthy reason
  then "<p><strong>Reason:</strong> " ++ py_str reason ++ "</p>"
  else "".

Definition approved_html (first_name job_title : string) : string :=
  "
        <html>
        <body style=" ++ dq ++ "font-family: Arial, sans-serif; line-height: 1.6; color: #333;" ++ dq ++ ">
            <div style=" ++ dq ++ "max-width: 600px; margin: 0 auto; padding: 20px;" ++ dq ++ ">
                <h1 style=" ++ dq ++ "color: #10B981;" ++ dq ++ ">Job Posting Approved!</h1>
                
                <p>Hi " ++ first_name ++ ",</p>
                
                <p>Great news! Your job posting for <strong>" ++ job_title ++ "</strong> has been approved and is now live on our platform.</p>
                
                <p>Your job posting is now visible to all job seekers, and you'll start receiving applications soon.</p>
                
                <p>You can manage your job posting and view applications in your employer dashboard.</p>
                
                <p>Best regards,<br>
                The " ++ COMPANY_NAME ++ " Team</p>
            </div>
        </body>
        </html>
        ".

(** The text of the rejection e-mail before and after the place of the
    reason. *)
Definition rejected_before (first_name job_title : string) : string :=
  "
        <html>
        <body style=" ++ dq ++ "font-family: Arial, sans-serif; line-height: 1.6; color: #333;" ++ dq ++ ">
            <div style=" ++ dq ++ "max-width: 600px; margin: 0 auto; padding: 20px;" ++ dq ++ ">
                <h1 style=" ++ dq ++ "color: #EF4444;" ++ dq ++ ">Job Posting Requires Revision</h1>
                
                <p>Hi " ++ first_name ++ ",</p>
                
                <p>Your job posting for <strong>" ++ job_title ++ "</strong> requires some revisions before it can be published.</p>
                
                ".

Definition rejected_after : string :=
  "
                
                <p>Please review and update your job posting in your employer dashboard. Once you make the necessary changes, it will be reviewed again.</p>
                
                <p>If you have any questions, please don't hesitate to contact our support team.</p>
                
                <p>Best regards,<br>
                The " ++ COMPANY_NAME ++ " Team</p>
            </div>
        </body>
        </html>
        ".

Definition rejected_html (first_name job_title : string) (reason : json)
  : string :=
  "
        <html>
        <body style=" ++ dq ++ "font-family: Arial, sans-serif; line-height: 1.6; color: #333;" ++ dq ++ ">
            <div style=" ++ dq ++ "max-width: 600px; margin: 0 auto; padding: 20px;" ++ dq ++ ">
                <h1 style=" ++ dq ++ "color: #EF4444;" ++ dq ++ ">Job Posting Requires Revision</h1>
                
                <p>Hi " ++ first_name ++ ",</p>
                
                <p>Your job posting for <strong>" ++ job_title ++ "</strong> requires some revisions before it can be published.</p>
                
                " ++ reason_paragraph reason ++ "
                
                <p>Please review and update your job posting in your employer dashboard. Once you make the necessary changes, it will be reviewed again.</p>
                
                <p>If you have any questions, please don't hesitate to contact our support team.</p>
                
                <p>Best regards,<br>
                The " ++ COMPANY_NAME ++ " Team</p>
            </div>
        </body>
        </html>
        ".

(** [send_job_approval_email(email, first_name, job_title, status, reason)];
    [approved] tells whether [status == 'approved']. *)
Definition send_job_approval_email (email first_name job_title : string)
  (approved : bool) (reason : json) : Email :=
  if approved
  then mkEmail email ("Job Approved: " ++ job_title)
         (approved_html first_name job_title)
  else mkEmail email ("Job Posting Update: " ++ job_title)
         (rejected_html first_name job_title reason).

Definition applicant_html (first_name job_title company : string) : string :=
  "
        <html>
        <body style=" ++ dq ++ "font-family: Arial, sans-serif; line-height: 1.6; color: #333;" ++ dq ++ ">
            <div style=" ++ dq ++ "max-width: 600px; margin: 0 auto; padding: 20px;" ++ dq ++ ">
                <h1 style=" ++ dq ++ "color: #3B82F6;" ++ dq ++ ">Application Submitted Successfully!</h1>
                
                <p>Hi " ++ first_name ++ ",</p>
                
                <p>Your application for the <strong>" ++ job_title ++ "</strong> position at <strong>" ++ company ++ "</strong> has been submitted successfully.</p>
                
                <p>What happens next:</p>
                <ul>
                    <li>The employer will review your application</li>
                    <li>You'll receive an email if they're interested in moving forward</li>
                    <li>You can track your application status in your dashboard</li>
                </ul>
                
                <p>Good luck with your application!</p>
                
                <p>Best regards,<br>
                The " ++ COMPANY_NAME ++ " Team</p>
            </div>
        </body>
        </html>
        ".

Definition employer_html (first_name job_title : string)
  (applicant_name : string) : string :=
  "
        <html>
        <body style=" ++ dq ++ "font-family: Arial, sans-serif; line-height: 1.6; color: #333;" ++ dq ++ ">
            <div style=" ++ dq ++ "max-width: 600px; margin: 0 auto; padding: 20px;" ++ dq ++ ">
                <h1 style=" ++ dq ++ "color: #3B82F6;" ++ dq ++ ">New Job Application Received</h1>
                
                <p>Hi " ++ first_name ++ ",</p>
                
                <p>You have received a new application for your <strong>" ++ job_title ++ "</strong> position.</p>
                
                <p><strong>Applicant:</strong> " ++ applicant_name ++ "</p>
                
                <p>You can review the application and the candidate's details in your employer dashboard.</p>
                
                <p>Best regards,<br>
                The " ++ COMPANY_NAME ++ " Team</p>
            </div>
        </body>
        </html>
        ".

(** [send_job_application_email(...)]; [to_applicant] tells whether
    [recipient_type == 'applicant']. *)
Definition send_job_application_email (email first_name job_title company
  : string) (to_applicant : bool) (applicant_name : string) : Email :=
  if to_applicant
  then mkEmail email
         ("Application Submitted: " ++ job_title ++ " at " ++ company)
         (applicant_html first_name job_title company)
  else mkEmail email ("New Application: " ++ job_title)
         (employer_html first_name job_title applicant_name).

(* --------------------------------------------------------------- *)
(** *** routes/auth.py *)

(** [login] *)
Definition login (db : DB) (request_json : option json) : Result :=
  handle db "Login failed"
    (data <- get_json request_json ;;
     email <- dict_get data "email" ;;
     password <- dict_get data "password" ;;
     if negb (truthy email) || negb (truthy password)
     then Ret (reply db 400 "Email and password are required")
     else
       match User_by_email db email with
       | None => Ret (reply db 401 "Invalid email or password")
       | Some user =>
           verified <- check_password_hash (User.password_hash user) password ;;
           if negb verified
           then Ret (reply db 401 "Invalid email or password")
           else
             Ret (mkResult db []
                    (mkResponse 200
                       (JObj [("message", JStr "Login successful");
                              ("token", JStr (create_access_token (User.id user)));
                              ("user", User_to_dict user)])))
       end).

(* --------------------------------------------------------------- *)
(** *** routes/jobs.py *)

(** The [or_] of the four search conditions of [get_jobs]. *)
Definition search_filter (search : string) (j : Job.t) : bool :=
  ilike (Job.title j) (contains_pattern search) ||
  ilike (Job.description j) (contains_pattern search) ||
  ilike (Job.company j) (contains_pattern search) ||
  skills_contains (Job.skills j) search.

Definition location_filter (location : string) (j : Job.t) : bool :=
  ilike (Job.location j) (contains_pattern location).

Definition nonempty (s : string) : bool := negb (String.eqb s "").

(** The query of [get_jobs] as it stands before [paginate]. *)
Definition jobs_query (db : DB) (search location : string) : list Job.t :=
  let query := filter (fun j => JobStatus_eqb (Job.status j) Approved) (jobs db) in
  let query := if nonempty search then filter (search_filter search) query
               else query in
  let query := if nonempty location then filter (location_filter location) query
               else query in
  order_by_desc Job.created_at query.

(** The page-size cap of [get_jobs], and its default. *)
Definition MAX_LIMIT : Z := 50.
Definition DEFAULT_LIMIT : Z := 10.

Definition page_response {A : Type} (name : string) (to_dict : A -> json)
  (page : Z) (paginated : Pagination A) : Response :=
  mkResponse 200
    (JObj [(name, JList (map to_dict (items paginated)));
           ("total", JInt (total paginated));
           ("page", JInt page);
           ("totalPages", JInt (pages paginated));
           ("hasNext", JBool (has_next paginated));
           ("hasPrev", JBool (has_prev paginated))]).

(** [get_jobs] *)
Definition get_jobs (db : DB) (args : args_t) : Result :=
  handle db "Failed to fetch jobs"
    (page <- int_arg args "page" 1 ;;
     limit <- int_arg args "limit" DEFAULT_LIMIT ;;
     let search := stripped_arg args "search" in
     let location := stripped_arg args "location" in
     let limit := Z.min limit MAX_LIMIT in
     let paginated := paginate (jobs_query db search location) page limit in
     Ret (mkResult db []
            (page_response "jobs" (fun j => Job_to_dict db j false)
               page paginated))).

(** The optional identity check of [get_job]: [identity] is what
    [get_jwt_identity()] gives after [verify_jwt_in_request(optional=True)],
    [None] without a token; a token that does not verify raises inside the
    inner [try], whose [except] leaves the flag unset, so it is [None] too. *)
Definition include_applications_for (db : DB) (identity : option Z)
  (job : Job.t) : bool :=
  match identity with
  | Some user_id =>
      if negb (user_id =? 0) then
        match User_get db user_id with
        | Some user =>
            Role_eqb (User.role user) RoleAdmin ||
            (Job.employer_id job =? user_id)
        | None => false
        end
      else false
  | None => false
  end.

(** [get_job] *)
Definition get_job (db : DB) (identity : option Z) (job_id : Z) : Result :=
  handle db "Failed to fetch job"
    (match Job_get db job_id with
     | None => Ret (reply db 404 "Job not found")
     | Some job =>
         let include_applications := include_applications_for db identity job in
         Ret (mkResult db []
                (mkResponse 200 (Job_to_dict db job include_applications)))
     end).

Definition required_fields : list string :=
  ["title"; "description"; "requirements"; "location"; "skills"].

(** The loop over [required_fields]: the first field whose value is
    falsy, if any. *)
Fixpoint first_missing (data : json) (fields : list string)
  : outcome (option string) :=
  match fields with
  | [] => Ret None
  | field :: rest =>
      v <- dict_get data field ;;
      if truthy v then first_missing data rest else Ret (Some field)
  end.

(** [not isinstance(skills, list) or len(skills) == 0] *)
Definition no_skill_list (skills : json) : bool :=
  match skills with
  | JList (_ :: _) => false
  | _ => true
  end.

(** [salary_min and salary_max and salary_max < salary_min] *)
Definition salary_range_rejected (salary_min salary_max : json)
  : outcome bool :=
  if truthy salary_min then
    if truthy salary_max then py_lt salary_max salary_min else Ret false
  else Ret false.

(** [create_job]; [user_id] is the identity [jwt_required] has verified,
    [now] the clock the column defaults read. *)
Definition create_job (db : DB) (now : datetime) (user_id : Z)
  (request_json : option json) : Result :=
  handle db "Failed to create job"
    (match User_get db user_id with
     | None => Ret (reply db 403 "Only employers can create jobs")
     | Some user =>
       if negb (Role_eqb (User.role user) RoleEmployer)
       then Ret (reply db 403 "Only employers can create jobs")
       else
         data <- get_json request_json ;;
         missing <- first_missing data required_fields ;;
         match missing with
         | Some field => Ret (reply db 400 (field ++ " is required"))
         | None =>
           skills <- subscript data "skills" ;;
           if no_skill_list skills
           then Ret (reply db 400 "At least one skill is required")
           else
             salary_min <- dict_get data "salaryMin" ;;
             salary_max <- dict_get data "salaryMax" ;;
             rejected <- salary_range_rejected salary_min salary_max ;;
             if rejected
             then Ret (reply db 400
                         "Maximum salary must be greater than minimum salary")
             else
               title <- bind (subscript data "title") (string_col 200) ;;
               description <- bind (subscript data "description") text_col ;;
               requirements <- bind (subscript data "requirements") text_col ;;
               benefits <- bind (dict_get data "benefits") nullable_text_col ;;
               location <- bind (subscript data "location") (string_col 200) ;;
               salary_min <- nullable_integer_col salary_min ;;
               salary_max <- nullable_integer_col salary_max ;;
               type <- bind (dict_get_default data "type" (JStr "full-time"))
                         (or_default JobType_col FullTime) ;;
               experience_level <-
                 bind (dict_get_default data "experienceLevel" (JStr "mid"))
                   (or_default ExperienceLevel_col Mid) ;;
               remote <- bind (dict_get_default data "remote" (JBool false))
                           (or_default nullable_boolean_col (Some false)) ;;
               company <- not_null (User.company user) ;;
               let job :=
                 Job.mk (next_job_id db) title description requirements
                   benefits location salary_min salary_max skills type
                   experience_level remote Pending company user_id now now in
               let db' := insert_job db job in
               Ret (mkResult db' []
                      (mkResponse 201
                         (JObj [("message",
                                 JStr "Job created successfully and is pending approval");
                                ("job", Job_to_dict db' job false)])))
         end
     end).

Definition lift {A : Type} (col : json -> outcome A) (set : Job.t -> A -> Job.t)
  (j : Job.t) (v : json) : outcome Job.t :=
  a <- col v ;; Ret (set j a).

(** [updatable_fields]: the request key and the column it is written to. *)
Definition updatable_fields : list (string * (Job.t -> json -> outcome Job.t)) :=
  [("title", lift (string_col 200) Job.set_title);
   ("description", lift text_col Job.set_description);
   ("requirements", lift text_col Job.set_requirements);
   ("benefits", lift nullable_text_col Job.set_benefits);
   ("location", lift (string_col 200) Job.set_location);
   ("salaryMin", lift nullable_integer_col Job.set_salary_min);
   ("salaryMax", lift nullable_integer_col Job.set_salary_max);
   ("skills", lift (fun v => Ret v) Job.set_skills);
   ("type", lift JobType_col Job.set_type);
   ("experienceLevel", lift ExperienceLevel_col Job.set_experience_level);
   ("remote", lift nullable_boolean_col Job.set_remote)].

(** The loop [for frontend_field, db_field in updatable_fields.items()]. *)
Fixpoint set_fields (data : json)
  (fields : list (string * (Job.t -> json -> outcome Job.t))) (job : Job.t)
  : outcome Job.t :=
  match fields with
  | [] => Ret job
  | (frontend_field, set) :: rest =>
      present <- py_in frontend_field data ;;
      if present
      then v <- subscript data frontend_field ;;
           job' <- set job v ;;
           set_fields data rest job'
      else set_fields data rest job
  end.

(** [if job.status in ['approved', 'rejected']: job.status = 'pending'] *)
Definition reset_status (job : Job.t) : Job.t :=
  match Job.status job with
  | Approved | Rejected => Job.set_status job Pending
  | Pending => job
  end.

(** [update_job] *)
Definition update_job (db : DB) (now : datetime) (user_id job_id : Z)
  (request_json : option json) : Result :=
  handle db "Failed to update job"
    (match User_get db user_id with
     | None => Ret (reply db 403 "Only employers can update jobs")
     | Some user =>
       if negb (Role_eqb (User.role user) RoleEmployer)
       then Ret (reply db 403 "Only employers can update jobs")
       else
         match Job_get db job_id with
         | None => Ret (reply db 404 "Job not found")
         | Some job =>
           if negb (Job.employer_id job =? user_id)
           then Ret (reply db 403 "You can only update your own jobs")
           else
             data <- get_json request_json ;;
             edited <- set_fields data updatable_fields job ;;
             let job' := touch now job (reset_status edited) in
             let db' := update_job_row db job' in
             Ret (mkResult db' []
                    (mkResponse 200
                       (JObj [("message", JStr "Job updated successfully");
                              ("job", Job_to_dict db' job' false)])))
         end
     end).

(** The two notifications of [apply_to_job]. *)
Definition application_emails (db : DB) (user : User.t) (job : Job.t)
  : list Email :=
  send_job_application_email (User.email user) (User.first_name user)
    (Job.title job) (Job.company job) true "" ::
  match User_get db (Job.employer_id job) with
  | Some employer =>
      [send_job_application_email (User.email employer)
         (User.first_name employer) (Job.title job) (Job.company job) false
         (User.first_name user ++ " " ++ User.last_name user)]
  | None => []
  end.

(** [apply_to_job] *)
Definition apply_to_job (db : DB) (now : datetime) (user_id job_id : Z)
  (request_json : option json) : Result :=
  handle db "Failed to submit application"
    (match User_get db user_id with
     | None => Ret (reply db 403 "Only job seekers can apply to jobs")
     | Some user =>
       if negb (Role_eqb (User.role user) RoleUser)
       then Ret (reply db 403 "Only job seekers can apply to jobs")
       else
         match Job_get db job_id with
         | None => Ret (reply db 404 "Job not found")
         | Some job =>
           if negb (JobStatus_eqb (Job.status job) Approved)
           then Ret (reply db 400 "This job is not available for applications")
           else
             match Application_first db user_id job_id with
             | Some _ =>
                 Ret (reply db 400 "You have already applied to this job")
             | None =>
               data <- get_json request_json ;;
               cover_letter <- dict_get data "coverLetter" ;;
               resume <- dict_get data "resume" ;;
               if negb (truthy cover_letter) || negb (truthy resume)
               then Ret (reply db 400 "Cover letter and resume URL are required")
               else
                 cover_letter <- text_col cover_letter ;;
                 resume_url <- string_col 500 resume ;;
                 let application :=
                   Application.mk (next_application_id db) cover_letter
                     resume_url AppPending user_id job_id now now in
                 db' <- insert_application db application ;;
                 Ret (mkResult db' (application_emails db' user job)
                        (mkResponse 201
                           (JObj [("message", JStr "Application submitted successfully");
                                  ("application", Application_to_dict application)])))
             end
         end
     end).

(* --------------------------------------------------------------- *)
(** *** routes/admin.py *)

(** [require_admin]: the error response, or [None] for an admin. *)
Definition require_admin (db : DB) (user_id : Z) : option Result :=
  match User_get db user_id with
  | Some user =>
      if Role_eqb (User.role user) RoleAdmin then None
      else Some (reply db 403 "Admin access required")
  | None => Some (reply db 403 "Admin access required")
  end.

(** The notification of [approve_job] and [reject_job], sent when the
    employer of the job is found. *)
Definition moderation_emails (db : DB) (job : Job.t) (approved : bool)
  (reason : json) : list Email :=
  match User_get db (Job.employer_id job) with
  | Some employer =>
      [send_job_approval_email (User.email employer)
         (User.first_name employer) (Job.title job) approved reason]
  | None => []
  end.

(** [approve_job] *)
Definition approve_job (db : DB) (now : datetime) (user_id job_id : Z)
  : Result :=
  handle db "Failed to approve job"
    (match require_admin db user_id with
     | Some error_response => Ret error_response
     | None =>
         match Job_get db job_id with
         | None => Ret (reply db 404 "Job not found")
         | Some job =>
           if negb (JobStatus_eqb (Job.status job) Pending)
           then Ret (reply db 400 "Job is not pending approval")
           else
             let job' := touch now job (Job.set_status job Approved) in
             let db' := update_job_row db job' in
             Ret (mkResult db' (moderation_emails db' job' true JNull)
                    (mkResponse 200
                       (JObj [("message", JStr "Job approved successfully");
                              ("job", Job_to_dict db' job' false)])))
         end
     end).

(** [reject_job] *)
Definition reject_job (db : DB) (now : datetime) (user_id job_id : Z)
  (request_json : option json) : Result :=
  handle db "Failed to reject job"
    (match require_admin db user_id with
     | Some error_response => Ret error_response
     | None =>
         match Job_get db job_id with
         | None => Ret (reply db 404 "Job not found")
         | Some job =>
           if negb (JobStatus_eqb (Job.status job) Pending)
           then Ret (reply db 400 "Job is not pending approval")
           else
             data <- get_json request_json ;;
             rejection_reason <-
               dict_get_default data "reason" (JStr "No reason provided") ;;
             let job' := touch now job (Job.set_status job Rejected) in
             let db' := update_job_row db job' in
             Ret (mkResult db'
                    (moderation_emails db' job' false rejection_reason)
                    (mkResponse 200
                       (JObj [("message", JStr "Job rejected successfully");
                              ("job", Job_to_dict db' job' false)])))
         end
     end).

(** [get_all_users] *)
Definition get_all_users (db : DB) (user_id : Z) (args : args_t) : Result :=
  handle db "Failed to fetch users"
    (match require_admin db user_id with
     | Some error_response => Ret error_response
     | None =>
         page <- int_arg args "page" 1 ;;
         limit <- int_arg args "limit" 20 ;;
         let limit := Z.min limit 100 in
         let paginated :=
           paginate (order_by_desc User.created_at (users db)) page limit in
         Ret (mkResult db [] (page_response "users" User_to_dict page paginated))
     end).

(* --------------------------------------------------------------- *)
(** *** app.py: the routes *)

(** A request to one of the routes above; a route behind
    [jwt_required()] carries the identity of its token. *)
Inductive request : Type :=
| Login (request_json : option json)
| GetJobs (args : args_t)
| GetJob (identity : option Z) (job_id : Z)
| CreateJob (now : datetime) (user_id : Z) (request_json : option json)
| UpdateJob (now : datetime) (user_id job_id : Z) (request_json : option json)
| ApplyToJob (now : datetime) (user_id job_id : Z) (request_json : option json)
| ApproveJob (now : datetime) (user_id job_id : Z)
| RejectJob (now : datetime) (user_id job_id : Z) (request_json : option json)
| GetAllUsers (user_id : Z) (args : args_t).

Definition serve (db : DB) (rq : request) : Result :=
  match rq with
  | Login request_json => login db request_json
  | GetJobs args => get_jobs db args
  | GetJob identity job_id => get_job db identity job_id
  | CreateJob now user_id request_json =>
      create_job db now user_id request_json
  | UpdateJob now user_id job_id request_json =>
      update_job db now user_id job_id request_json
  | ApplyToJob now user_id job_id request_json =>
      apply_to_job db now user_id job_id request_json
  | ApproveJob now user_id job_id => approve_job db now user_id job_id
  | RejectJob now user_id job_id request_json =>
      reject_job db now user_id job_id request_json
  | GetAllUsers user_id args => get_all_users db user_id args
  end.

(** The database after a sequence of requests, one at a time. *)
Definition run (db : DB) (rqs : list request) : DB :=
  fold_left (fun db rq => db_after (serve db rq)) rqs db.

End Backend.

(* ================================================================= *)
(** ** The remaining routes

    [register] and the profile routes of [routes/auth.py], [delete_job] of
    [routes/jobs.py], [routes/applications.py], and the two reports of
    [routes/admin.py]. *)

(** [User.query.filter_by(email=...)] on the unique column, and the INSERT
    that raises on a second row with the same e-mail. *)
Definition insert_user (db : DB) (u : User.t) : outcome DB :=
  match User_by_email db (JStr (User.email u)) with
  | Some _ => Raise
  | None =>
      Ret (mkDB (users db ++ [u]) (jobs db) (applications db)
             (next_job_id db) (next_application_id db))
  end.

(** [UPDATE users SET ... WHERE id = u.id] *)
Definition update_user_row (db : DB) (u : User.t) : DB :=
  mkDB (map (fun r => if User.id r =? User.id u then u else r) (users db))
    (jobs db) (applications db) (next_job_id db) (next_application_id db).

Definition User_set_first_name (u : User.t) (v : string) : User.t :=
  User.mk (User.id u) (User.email u) (User.password_hash u) v
    (User.last_name u) (User.role u) (User.company u) (User.created_at u)
    (User.updated_at u).

Definition User_set_last_name (u : User.t) (v : string) : User.t :=
  User.mk (User.id u) (User.email u) (User.password_hash u)
    (User.first_name u) v (User.role u) (User.company u) (User.created_at u)
    (User.updated_at u).

Definition User_set_company (u : User.t) (v : option string) : User.t :=
  User.mk (User.id u) (User.email u) (User.password_hash u)
    (User.first_name u) (User.last_name u) (User.role u) v
    (User.created_at u) (User.updated_at u).

Definition User_set_updated_at (u : User.t) (now : datetime) : User.t :=
  User.mk (User.id u) (User.email u) (User.password_hash u)
    (User.first_name u) (User.last_name u) (User.role u) (User.company u)
    (User.created_at u) now.

(** The columns [update_profile] can write. *)
Definition User_same_columns (a b : User.t) : bool :=
  String.eqb (User.first_name a) (User.first_name b) &&
  String.eqb (User.last_name a) (User.last_name b) &&
  option_eqb String.eqb (User.company a) (User.company b).

Definition touch_user (now : datetime) (old new : User.t) : User.t :=
  if User_same_columns old new then new else User_set_updated_at new now.

Definition nullable_string_col (n : nat) (v : json) : outcome (option string) :=
  match v with
  | JNull => Ret None
  | JStr s => if (String.length s <=? n)%nat then Ret (Some s) else Raise
  | _ => Raise
  end.

(** [DELETE FROM jobs WHERE id = job_id], with the cascade of the
    relationship [Job.applications] ([all, delete-orphan]). *)
Definition delete_job_row (db : DB) (job_id : Z) : DB :=
  mkDB (users db)
    (filter (fun j => negb (Job.id j =? job_id)) (jobs db))
    (filter (fun a => negb (Application.job_id a =? job_id)) (applications db))
    (next_job_id db) (next_application_id db).

(** [Application.query.get(application_id)] *)
Definition Application_get (db : DB) (application_id : Z)
  : option Application.t :=
  find (fun a => Application.id a =? application_id) (applications db).

Definition Application_set_status (a : Application.t) (s : ApplicationStatus)
  : Application.t :=
  Application.mk (Application.id a) (Application.cover_letter a)
    (Application.resume_url a) s (Application.user_id a)
    (Application.job_id a) (Application.created_at a)
    (Application.updated_at a).

Definition Application_set_updated_at (a : Application.t) (now : datetime)
  : Application.t :=
  Application.mk (Application.id a) (Application.cover_letter a)
    (Application.resume_url a) (Application.status a) (Application.user_id a)
    (Application.job_id a) (Application.created_at a) now.

Definition ApplicationStatus_eqb (a b : ApplicationStatus) : bool :=
  match a, b with
  | AppPending, AppPending | AppApproved, AppApproved
  | AppRejected, AppRejected | AppInterview, AppInterview => true
  | _, _ => false
  end.

(** [UPDATE applications SET ... WHERE id = a.id] *)
Definition update_application_row (db : DB) (a : Application.t) : DB :=
  mkDB (users db) (jobs db)
    (map (fun r => if Application.id r =? Application.id a then a else r)
       (applications db))
    (next_job_id db) (next_application_id db).

(** [new_status not in ['pending', 'approved', 'rejected', 'interview']]:
    the status a value names, if it is one of the four strings. *)
Definition status_named (v : json) : option ApplicationStatus :=
  match v with
  | JStr s =>
      if String.eqb s "pending" then Some AppPending
      else if String.eqb s "approved" then Some AppApproved
      else if String.eqb s "rejected" then Some AppRejected
      else if String.eqb s "interview" then Some AppInterview
      else None
  | _ => None
  end.

(** [data['role'] not in ['user', 'employer']]: the role a value names, if
    it is one of the two strings. *)
Definition role_named (v : json) : option Role :=
  match v with
  | JStr s =>
      if String.eqb s "user" then Some RoleUser
      else if String.eqb s "employer" then Some RoleEmployer
      else None
  | _ => None
  end.

(** [timedelta(days=30)], in seconds. *)
Definition THIRTY_DAYS : Z := 30 * 86400.

Section Routes.

(** The credential service may refuse a value ([generate_password_hash]
    raises on what is no string). *)
Variable generate_password_hash : json -> outcome string.
Variable check_password_hash : string -> json -> outcome bool.
Variable create_access_token : Z -> string.
Variable isoformat : datetime -> string.
Variable format_value : json -> string.

(** The HTML part of the welcome e-mail. *)
Definition welcome_html (email first_name : string) : string :=
  "
    <html>
    <body style=" ++ dq ++ "font-family: Arial, sans-serif; line-height: 1.6; color: #333;" ++ dq ++ ">
        <div style=" ++ dq ++ "max-width: 600px; margin: 0 auto; padding: 20px;" ++ dq ++ ">
            <h1 style=" ++ dq ++ "color: #3B82F6;" ++ dq ++ ">Welcome to " ++ COMPANY_NAME ++ "!</h1>
            
            <p>Hi " ++ first_name ++ ",</p>
            
            <p>Thank you for joining " ++ COMPANY_NAME ++ "! We're excited to have you as part of our community.</p>
            
            <p>Here's what you can do next:</p>
            <ul>
                <li>Browse our latest DevOps job opportunities</li>
                <li>Complete your profile to attract employers</li>
                <li>Set up job alerts for positions that match your skills</li>
            </ul>
            
            <p>If you have any questions, feel free to reach out to our support team.</p>
            
            <p>Best regards,<br>
            The " ++ COMPANY_NAME ++ " Team</p>
            
            <hr style=" ++ dq ++ "border: none; border-top: 1px solid #eee; margin: 20px 0;" ++ dq ++ ">
            <p style=" ++ dq ++ "font-size: 12px; color: #666;" ++ dq ++ ">
                This email was sent to " ++ email ++ ". If you didn't create an account with us, please ignore this email.
            </p>
        </div>
    </body>
    </html>
    ".

(** The text part [send_welcome_email] passes beside it. *)
Definition welcome_text (first_name : string) : string :=
  "
    Welcome to " ++ COMPANY_NAME ++ "!
    
    Hi " ++ first_name ++ ",
    
    Thank you for joining " ++ COMPANY_NAME ++ "! We're excited to have you as part of our community.
    
    Here's what you can do next:
    - Browse our latest DevOps job opportunities
    - Complete your profile to attract employers
    - Set up job alerts for positions that match your skills
    
    If you have any questions, feel free to reach out to our support team.
    
    Best regards,
    The " ++ COMPANY_NAME ++ " Team
    ".

(** [send_welcome_email(email, first_name)]; [Email] keeps the HTML part,
    the text part is [welcome_text first_name]. *)
Definition send_welcome_email (email first_name : string) : Email :=
  mkEmail email ("Welcome to " ++ COMPANY_NAME ++ "!")
    (welcome_html email first_name).

Definition register_fields : list string :=
  ["email"; "password"; "firstName"; "lastName"; "role"].

(** [register]; [user_id] is the key the auto-increment counter of [users]
    gives the new row. *)
Definition register (db : DB) (now : datetime) (user_id : Z)
  (request_json : option json) : Result :=
  handle db "Registration failed"
    (data <- get_json request_json ;;
     missing <- first_missing data register_fields ;;
     match missing with
     | Some field => Ret (reply db 400 (field ++ " is required"))
     | None =>
       role <- subscript data "role" ;;
       match role_named role with
       | None => Ret (reply db 400 "Invalid role")
       | Some role =>
         email <- subscript data "email" ;;
         match User_by_email db email with
         | Some _ => Ret (reply db 400 "User already exists")
         | None =>
           company <- dict_get data "company" ;;
           if Role_eqb role RoleEmployer && negb (truthy company)
           then Ret (reply db 400 "Company name is required for employers")
           else
             email <- string_col 120 email ;;
             password_hash <-
               bind (subscript data "password") generate_password_hash ;;
             password_hash <- string_col 255 (JStr password_hash) ;;
             first_name <- bind (subscript data "firstName") (string_col 100) ;;
             last_name <- bind (subscript data "lastName") (string_col 100) ;;
             company <- nullable_string_col 200 company ;;
             let user :=
               User.mk user_id email password_hash first_name last_name role
                 company now now in
             db' <- insert_user db user ;;
             Ret (mkResult db'
                    [send_welcome_email (User.email user) (User.first_name user)]
                    (mkResponse 201
                       (JObj [("message", JStr "User created successfully");
                              ("token", JStr (create_access_token (User.id user)));
                              ("user", User_to_dict isoformat user)])))
         end
       end
     end).

(** [get_profile] *)
Definition get_profile (db : DB) (user_id : Z) : Result :=
  handle db "Failed to get profile"
    (match User_get db user_id with
     | None => Ret (reply db 404 "User not found")
     | Some user =>
         Ret (mkResult db []
                (mkResponse 200 (JObj [("user", User_to_dict isoformat user)])))
     end).

(** [update_profile] *)
Definition update_profile (db : DB) (now : datetime) (user_id : Z)
  (request_json : option json) : Result :=
  handle db "Failed to update profile"
    (match User_get db user_id with
     | None => Ret (reply db 404 "User not found")
     | Some user =>
       data <- get_json request_json ;;
       has_first <- py_in "firstName" data ;;
       user1 <-
         (if has_first
          then v <- bind (subscript data "firstName") (string_col 100) ;;
               Ret (User_set_first_name user v)
          else Ret user) ;;
       has_last <- py_in "lastName" data ;;
       user2 <-
         (if has_last
          then v <- bind (subscript data "lastName") (string_col 100) ;;
               Ret (User_set_last_name user1 v)
          else Ret user1) ;;
       has_company <- py_in "company" data ;;
       user3 <-
         (if has_company && Role_eqb (User.role user) RoleEmployer
          then v <- bind (subscript data "company") (nullable_string_col 200) ;;
               Ret (User_set_company user2 v)
          else Ret user2) ;;
       let user' := touch_user now user user3 in
       let db' := update_user_row db user' in
       Ret (mkResult db' []
              (mkResponse 200
                 (JObj [("message", JStr "Profile updated successfully");
                        ("user", User_to_dict isoformat user')])))
     end).

(** [delete_job] *)
Definition delete_job (db : DB) (user_id job_id : Z) : Result :=
  handle db "Failed to delete job"
    (match User_get db user_id with
     | None => Ret (reply db 403 "Only employers can delete jobs")
     | Some user =>
       if negb (Role_eqb (User.role user) RoleEmployer)
       then Ret (reply db 403 "Only employers can delete jobs")
       else
         match Job_get db job_id with
         | None => Ret (reply db 404 "Job not found")
         | Some job =>
           if negb (Job.employer_id job =? user_id)
           then Ret (reply db 403 "You can only delete your own jobs")
           else
             Ret (mkResult (delete_job_row db (Job.id job)) []
                    (mkResponse 200
                       (JObj [("message", JStr "Job deleted successfully")])))
         end
     end).

(** The entries [Application.to_dict] writes for every application. *)
Definition Application_record (a : Application.t) : list (string * json) :=
  [("id", JInt (Application.id a));
   ("coverLetter", JStr (Application.cover_letter a));
   ("resumeUrl", JStr (Application.resume_url a));
   ("status", JStr (ApplicationStatus_to_string (Application.status a)));
   ("userId", JInt (Application.user_id a));
   ("jobId", JInt (Application.job_id a));
   ("createdAt", JStr (isoformat (Application.created_at a)));
   ("updatedAt", JStr (isoformat (Application.updated_at a)))].

(** [Application.to_dict(include_job, include_user)]; [self.job] and
    [self.user] are the rows the two foreign keys name. *)
Definition Application_to_dict_with (db : DB) (a : Application.t)
  (include_job include_user : bool) : json :=
  JObj (Application_record a ++
        (if include_job
         then match Job_get db (Application.job_id a) with
              | Some job => [("job", Job_to_dict isoformat db job false)]
              | None => []
              end
         else []) ++
        (if include_user
         then match User_get db (Application.user_id a) with
              | Some user => [("user", User_to_dict isoformat user)]
              | None => []
              end
         else [])).

(** [get_user_applications] *)
Definition get_user_applications (db : DB) (user_id : Z) : Result :=
  handle db "Failed to fetch applications"
    (match User_get db user_id with
     | None => Ret (reply db 403 "Only job seekers can view their applications")
     | Some user =>
       if negb (Role_eqb (User.role user) RoleUser)
       then Ret (reply db 403 "Only job seekers can view their applications")
       else
         let applications :=
           order_by_desc Application.created_at
             (filter (fun a => Application.user_id a =? user_id)
                (applications db)) in
         Ret (mkResult db []
                (mkResponse 200
                   (JList (map (fun a => Application_to_dict_with db a true false)
                             applications))))
     end).

(** [job.employer_id] on what [Job.query.get] returned: [AttributeError]
    when there is no such job. *)
Definition employer_id_of (job : option Job.t) : outcome Z :=
  match job with
  | Some j => Ret (Job.employer_id j)
  | None => Raise
  end.

(** [get_job_applications] *)
Definition get_job_applications (db : DB) (user_id job_id : Z) : Result :=
  handle db "Failed to fetch applications"
    (match User_get db user_id with
     | None => Ret (reply db 404 "User not found")
     | Some user =>
       match Job_get db job_id with
       | None => Ret (reply db 404 "Job not found")
       | Some job =>
         if Role_eqb (User.role user) RoleEmployer &&
            negb (Job.employer_id job =? user_id)
         then Ret (reply db 403
                     "You can only view applications for your own jobs")
         else if negb (Role_eqb (User.role user) RoleEmployer ||
                       Role_eqb (User.role user) RoleAdmin)
         then Ret (reply db 403 "Insufficient permissions")
         else
           let applications :=
             order_by_desc Application.created_at
               (filter (fun a => Application.job_id a =? job_id)
                  (applications db)) in
           Ret (mkResult db []
                  (mkResponse 200
                     (JList (map (fun a => Application_to_dict_with db a false true)
                               applications))))
       end
     end).

(** [update_application_status] *)
Definition update_application_status (db : DB) (now : datetime)
  (user_id application_id : Z) (request_json : option json) : Result :=
  handle db "Failed to update application status"
    (match User_get db user_id with
     | None => Ret (reply db 404 "User not found")
     | Some user =>
       match Application_get db application_id with
       | None => Ret (reply db 404 "Application not found")
       | Some application =>
         let job := Job_get db (Application.job_id application) in
         foreign <-
           (if Role_eqb (User.role user) RoleEmployer
            then owner <- employer_id_of job ;; Ret (negb (owner =? user_id))
            else Ret false) ;;
         if foreign
         then Ret (reply db 403
                     "You can only update applications for your own jobs")
         else if negb (Role_eqb (User.role user) RoleEmployer ||
                       Role_eqb (User.role user) RoleAdmin)
         then Ret (reply db 403 "Insufficient permissions")
         else
           data <- get_json request_json ;;
           new_status <- dict_get data "status" ;;
           match status_named new_status with
           | None => Ret (reply db 400 "Invalid status")
           | Some status =>
             let changed := Application_set_status application status in
             let application' :=
               if ApplicationStatus_eqb (Application.status application) status
               then changed else Application_set_updated_at changed now in
             let db' := update_application_row db application' in
             Ret (mkResult db' []
                    (mkResponse 200
                       (JObj [("message",
                               JStr "Application status updated successfully");
                              ("application",
                               Application_to_dict_with db' application'
                                 true true)])))
           end
       end
     end).

(** [get_application] *)
Definition get_application (db : DB) (user_id application_id : Z) : Result :=
  handle db "Failed to fetch application"
    (match User_get db user_id with
     | None => Ret (reply db 404 "User not found")
     | Some user =>
       match Application_get db application_id with
       | None => Ret (reply db 404 "Application not found")
       | Some application =>
         let job := Job_get db (Application.job_id application) in
         if Role_eqb (User.role user) RoleUser &&
            negb (Application.user_id application =? user_id)
         then Ret (reply db 403 "You can only view your own applications")
         else
           foreign <-
             (if Role_eqb (User.role user) RoleEmployer
              then owner <- employer_id_of job ;; Ret (negb (owner =? user_id))
              else Ret false) ;;
           if foreign
           then Ret (reply db 403
                       "You can only view applications for your own jobs")
           else
             let include_user :=
               Role_eqb (User.role user) RoleEmployer ||
               Role_eqb (User.role user) RoleAdmin in
             let include_job := Role_eqb (User.role user) RoleUser in
             Ret (mkResult db []
                    (mkResponse 200
                       (Application_to_dict_with db application include_job
                          include_user)))
       end
     end).

(** [get_pending_jobs] *)
Definition get_pending_jobs (db : DB) (user_id : Z) : Result :=
  handle db "Failed to fetch pending jobs"
    (match require_admin db user_id with
     | Some error_response => Ret error_response
     | None =>
       let pending_jobs :=
         order_by_desc Job.created_at
           (filter (fun j => JobStatus_eqb (Job.status j) Pending) (jobs db)) in
       let job_dict (job : Job.t) : json :=
         match Job_to_dict isoformat db job false with
         | JObj kv =>
             match User_get db (Job.employer_id job) with
             | Some employer =>
                 JObj (kv ++ [("employer", User_to_dict isoformat employer)])
             | None => JObj kv
             end
         | other => other
         end in
       Ret (mkResult db [] (mkResponse 200 (JList (map job_dict pending_jobs))))
     end).

Definition count {A : Type} (f : A -> bool) (l : list A) : Z :=
  Z.of_nat (List.length (filter f l)).

(** [query(column, func.count(id)).group_by(column)] as the dict the
    handler makes of it: one entry per value that has rows. *)
Definition counts_by {A K : Type} (values : list K) (name : K -> string)
  (has : K -> A -> bool) (rows : list A) : json :=
  JObj (flat_map (fun k => if 0 <? count (has k) rows
                           then [(name k, JInt (count (has k) rows))]
                           else [])
          values).

(** [get_admin_stats]; [now] is [datetime.utcnow()]. *)
Definition get_admin_stats (db : DB) (now : datetime) (user_id : Z) : Result :=
  handle db "Failed to fetch statistics"
    (match require_admin db user_id with
     | Some error_response => Ret error_response
     | None =>
       let thirty_days_ago := now - THIRTY_DAYS in
       Ret (mkResult db []
              (mkResponse 200
                 (JObj
                    [("totalUsers", JInt (count (fun _ => true) (users db)));
                     ("totalJobs", JInt (count (fun _ => true) (jobs db)));
                     ("totalApplications",
                      JInt (count (fun _ => true) (applications db)));
                     ("pendingJobs",
                      JInt (count (fun j => JobStatus_eqb (Job.status j) Pending)
                              (jobs db)));
                     ("usersByRole",
                      counts_by [RoleUser; RoleEmployer; RoleAdmin]
                        Role_to_string
                        (fun r u => Role_eqb (User.role u) r) (users db));
                     ("jobsByStatus",
                      counts_by [Pending; Approved; Rejected]
                        JobStatus_to_string
                        (fun s j => JobStatus_eqb (Job.status j) s) (jobs db));
                     ("applicationsByStatus",
                      counts_by [AppPending; AppApproved; AppRejected; AppInterview]
                        ApplicationStatus_to_string
                        (fun s a => ApplicationStatus_eqb (Application.status a) s)
                        (applications db));
                     ("recentActivity",
                      JObj
                        [("users",
                          JInt (count (fun u => thirty_days_ago <=? User.created_at u)
                                  (users db)));
                         ("jobs",
                          JInt (count (fun j => thirty_days_ago <=? Job.created_at j)
                                  (jobs db)));
                         ("applications",
                          JInt (count (fun a => thirty_days_ago <=?
                                                Application.created_at a)
                                  (applications db)))])])))
     end).

(** Every route of [app.py]; [Register] carries the key the new row gets. *)
Inductive route : Type :=
| Served (rq : request)
| Register (now : datetime) (user_id : Z) (request_json : option json)
| GetProfile (user_id : Z)
| UpdateProfile (now : datetime) (user_id : Z) (request_json : option json)
| DeleteJob (user_id job_id : Z)
| GetUserApplications (user_id : Z)
| GetJobApplications (user_id job_id : Z)
| UpdateApplicationStatus (now : datetime) (user_id application_id : Z)
    (request_json : option json)
| GetApplication (user_id application_id : Z)
| GetPendingJobs (user_id : Z)
| GetAdminStats (now : datetime) (user_id : Z).

Definition dispatch (db : DB) (rt : route) : Result :=
  match rt with
  | Served rq =>
      serve check_password_hash create_access_token isoformat format_value db rq
  | Register now user_id request_json => register db now user_id request_json
  | GetProfile user_id => get_profile db user_id
  | UpdateProfile now user_id request_json =>
      update_profile db now user_id request_json
  | DeleteJob user_id job_id => delete_job db user_id job_id
  | GetUserApplications user_id => get_user_applications db user_id
  | GetJobApplications user_id job_id => get_job_applications db user_id job_id
  | UpdateApplicationStatus now user_id application_id request_json =>
      update_application_status db now user_id application_id request_json
  | GetApplication user_id application_id =>
      get_application db user_id application_id
  | GetPendingJobs user_id => get_pending_jobs db user_id
  | GetAdminStats now user_id => get_admin_stats db now user_id
  end.

(** The database after a sequence of requests to any of the routes. *)
Definition history (db : DB) (rts : list route) : DB :=
  fold_left (fun db rt => db_after (dispatch db rt)) rts db.

End Routes.

(* ================================================================= *)
(** ** A small instance, used to run the handlers *)

Module Demo.

(** Stand-ins for the collaborators: a digest is the password itself
    behind a prefix, and the check raises on a password that is no string;
    a token is the decimal user id. *)
Definition check_password_hash (digest : string) (password : json)
  : outcome bool :=
  match password with
  | JStr p => Ret (String.eqb digest ("hash:" ++ p))
  | _ => Raise
  end.

Definition create_access_token (user_id : Z) : string :=
  "token-" ++ string_of_Z user_id.

Definition isoformat (t : datetime) : string := string_of_Z t.

Definition format_value (v : json) : string :=
  match v with
  | JInt n => string_of_Z n
  | JBool true => "True"
  | JBool false => "False"
  | JNull => "None"
  | _ => "<value>"
  end.

Definition admin : User.t :=
  User.mk 1 "admin@devopsjobs.com" "hash:admin123" "Admin" "User" RoleAdmin
    None 0 0.

Definition employer : User.t :=
  User.mk 2 "employer@example.com" "hash:password123" "Jane" "Smith"
    RoleEmployer (Some "Tech Corp") 10 10.

Definition seeker : User.t :=
  User.mk 3 "test@example.com" "hash:password123" "John" "Doe" RoleUser
    None 20 20.

Definition job (id : Z) (title : string) (status : JobStatus)
  (created_at : datetime) : Job.t :=
  Job.mk id title "Docker and Kubernetes experience required"
    "Requirements..." None "San Francisco, CA" None None
    (JList [JStr "Docker"; JStr "Kubernetes"]) FullTime Mid (Some false)
    status "Tech Corp" 2 created_at created_at.

(** One job in each moderation state, and no application yet. *)
Definition db : DB :=
  mkDB [admin; employer; seeker]
    [job 1 "Senior DevOps Engineer" Pending 30;
     job 2 "Cloud Engineer" Approved 40;
     job 3 "Site Reliability Engineer" Rejected 50]
    [] 4 1.

Definition application_form : option json :=
  Some (JObj [("coverLetter", JStr "I would like to apply.");
              ("resume", JStr "https://example.com/resume.pdf")]).

Definition job_form (salary_min salary_max : json) : option json :=
  Some (JObj [("title", JStr "DevOps Engineer");
              ("description", JStr "Job description...");
              ("requirements", JStr "Job requirements...");
              ("location", JStr "Remote");
              ("skills", JList [JStr "Docker"; JStr "AWS"]);
              ("salaryMin", salary_min);
              ("salaryMax", salary_max)]).

End Demo.

(** The instance for the remaining routes: the credential service of
    [Demo], and the database after the seeker's application to the approved
    job. *)
Module DemoRoutes.

Definition generate_password_hash (password : json) : outcome string :=
  match password with
  | JStr p => Ret ("hash:" ++ p)%string
  | _ => Raise
  end.

Definition application : Application.t :=
  Application.mk 1 "I would like to apply." "https://example.com/resume.pdf"
    AppPending 3 2 60 60.

Definition db : DB :=
  mkDB (users Demo.db) (jobs Demo.db) [application] 4 2.

Definition registration (email role : string) (company : json) : option json :=
  Some (JObj [("email", JStr email);
              ("password", JStr "password123");
              ("firstName", JStr "Ada");
              ("lastName", JStr "Lovelace");
              ("role", JStr role);
              ("company", company)]).

End DemoRoutes.

(* ================================================================= *)
(** ** Reading a response *)

(** The entry [k] of a JSON object. *)
Definition field (k : string) (v : json) : option json :=
  match v with
  | JObj kv => assoc k kv
  | _ => None
  end.

(** The message of an error response. *)
Definition message_of (r : Response) : option json := field "message" (body r).

(** ** Properties of the stored data *)

(** The key of the unique constraint of [Application]. *)
Definition pair_of (a : Application.t) : Z * Z :=
  (Application.user_id a, Application.job_id a).

(** At most one application per (seeker, job) pair. *)
Definition unique_applications (db : DB) : Prop :=
  NoDup (map pair_of (applications db)).

(** The applications of [user_id] to [job_id]. *)
Definition applications_of (db : DB) (user_id job_id : Z) : list Application.t :=
  filter (fun a => (Application.user_id a =? user_id) &&
                   (Application.job_id a =? job_id)) (applications db).


(** [u] is the employer [j] belongs to. *)
Definition owns (u : User.t) (j : Job.t) : Prop :=
  Job.employer_id j = User.id u.

(** Newest first. *)
Definition newest_first (rows : list Job.t) : Prop :=
  StronglySorted (fun a b => Job.created_at b <= Job.created_at a) rows.

(* ================================================================= *)
(** ** The creation preconditions of an application, as the specification
    lists them *)

Inductive precondition : Type :=
| ActorIsSeeker
| JobIsApproved
| NoExistingApplication
| FormIsComplete.

Definition is_seeker (db : DB) (user_id : Z) : bool :=
  match User_get db user_id with
  | Some user => Role_eqb (User.role user) RoleUser
  | None => false
  end.

Definition job_is_approved (db : DB) (job_id : Z) : bool :=
  match Job_get db job_id with
  | Some job => JobStatus_eqb (Job.status job) Approved
  | None => false
  end.

Definition has_applied (db : DB) (user_id job_id : Z) : bool :=
  match Application_first db user_id job_id with
  | Some _ => true
  | None => false
  end.

(** Cover letter and resume reference both non-empty. *)
Definition form_is_complete (request_json : option json) : bool :=
  match request_json with
  | Some (JObj kv) =>
      match assoc "coverLetter" kv, assoc "resume" kv with
      | Some cover_letter, Some resume => truthy cover_letter && truthy resume
      | _, _ => false
      end
  | _ => false
  end.

(** The first of the four preconditions, in the order of the
    specification, that a request fails. *)
Definition first_failed_precondition (db : DB) (user_id job_id : Z)
  (request_json : option json) : option precondition :=
  if negb (is_seeker db user_id) then Some ActorIsSeeker
  else if negb (job_is_approved db job_id) then Some JobIsApproved
  else if has_applied db user_id job_id then Some NoExistingApplication
  else if negb (form_is_complete request_json) then Some FormIsComplete
  else None.

(** The answers [apply_to_job] has for a failed precondition. *)
Definition rejection (p : precondition) (r : Response) : Prop :=
  match p with
  | ActorIsSeeker =>
      r = mkResponse 403 (JObj [("message", JStr "Only job seekers can apply to jobs")])
  | JobIsApproved =>
      r = mkResponse 404 (JObj [("message", JStr "Job not found")]) \/
      r = mkResponse 400
            (JObj [("message", JStr "This job is not available for applications")])
  | NoExistingApplication =>
      r = mkResponse 400 (JObj [("message", JStr "You have already applied to this job")])
  | FormIsComplete =>
      r = mkResponse 400
            (JObj [("message", JStr "Cover letter and resume URL are required")]) \/
      r = mkResponse 500 (JObj [("message", JStr "Failed to submit application")])
  end.

(** What identifies an account: no route may change it. *)
Definition account (u : User.t) : Z * string * Role :=
  (User.id u, User.email u, User.role u).

(** The columns of a job no edit may change. *)
Definition job_origin (j : Job.t) : Z * string * Z * datetime :=
  (Job.id j, Job.company j, Job.employer_id j, Job.created_at j).

(** Primary keys of [jobs] and [applications] are distinct and below the
    counter that numbers the next row. *)
Definition keys_ok (db : DB) : Prop :=
  NoDup (map Job.id (jobs db)) /\
  Forall (fun j => Job.id j < next_job_id db) (jobs db) /\
  NoDup (map Application.id (applications db)) /\
  Forall (fun a => Application.id a < next_application_id db) (applications db).

(** Every application names a stored job and a stored user. *)
Definition references_ok (db : DB) : Prop :=
  Forall (fun a => Job_get db (Application.job_id a) <> None /\
                   User_get db (Application.user_id a) <> None)
    (applications db).

(** Newest first, for applications. *)
Definition newest_application_first (rows : list Application.t) : Prop :=
  StronglySorted
    (fun a b => Application.created_at b <= Application.created_at a) rows.

(** The sum of the counts of a report by value. *)
Definition sum_counts (v : json) : Z :=
  match v with
  | JObj kv =>
      fold_right (fun e acc => match snd e with JInt n => n + acc | _ => acc end)
        0 kv
  | _ => 0
  end.

(** The columns of an application no route may change. *)
Definition application_origin (a : Application.t)
  : Z * string * string * Z * Z * datetime :=
  (Application.id a, Application.cover_letter a, Application.resume_url a,
   Application.user_id a, Application.job_id a, Application.created_at a).

(** The ways a request changes the database. *)
Inductive change (db : DB) : DB -> Prop :=
| change_none : change db db
| change_users users' :
    incl (map User.id (users db)) (map User.id users') ->
    change db (mkDB users' (jobs db) (applications db) (next_job_id db)
                 (next_application_id db))
| change_job_inserted j :
    Job.id j = next_job_id db -> change db (insert_job db j)
| change_job_updated j j' :
    Job_get db (Job.id j') = Some j ->
    job_origin j' = job_origin j ->
    change db (update_job_row db j')
| change_job_deleted job_id : change db (delete_job_row db job_id)
| change_application_inserted a db' :
    insert_application db a = Ret db' ->
    Application.id a = next_application_id db ->
    Job_get db (Application.job_id a) <> None ->
    User_get db (Application.user_id a) <> None ->
    change db db'
| change_application_updated a a' :
    Application_get db (Application.id a') = Some a ->
    application_origin a' = application_origin a ->
    change db (update_application_row db a').


(** A result that has written nothing and sent nothing. *)
Definition unchanged (db : DB) (r : Result) : Prop :=
  db_after r = db /\ sent r = [].

(* ================================================================= *)
(** ** Lemmas on the query operations *)

(** Case analysis on the innermost test a handler is stuck on. *)
Ltac break_in H :=
  match type of H with
  | context [match ?x with _ => _ end] =>
      lazymatch x with
      | context [match _ with _ => _ end] => fail
      | _ => destruct x eqn:?
      end
  end.

Ltac break_goal :=
  match goal with
  | |- context [match ?x with _ => _ end] =>
      lazymatch x with
      | context [match _ with _ => _ end] => fail
      | _ => destruct x eqn:?
      end
  end.

Lemma find_app_none {A : Type} (f : A -> bool) (l : list A) (x : A) :
  find f l = None -> f x = true -> find f (l ++ [x]) = Some x.
Proof.
  induction l as [|y l IH]; simpl; intros Hn Hx.
  - now rewrite Hx.
  - destruct (f y); [discriminate|auto].
Qed.

Lemma find_none_filter {A : Type} (f : A -> bool) (l : list A) :
  find f l = None -> filter f l = [].
Proof.
  induction l as [|y l IH]; simpl; intros Hn; [reflexivity|].
  destruct (f y); [discriminate|auto].
Qed.

Lemma NoDup_snoc {A : Type} (l : list A) (x : A) :
  NoDup l -> ~ In x l -> NoDup (l ++ [x]).
Proof.
  intros Hnd Hx. induction Hnd as [|y l Hy Hnd IH]; simpl.
  - constructor; [intros []|constructor].
  - constructor.
    + rewrite in_app_iff. simpl. intros [H|[H|[]]]; [tauto|].
      subst. apply Hx. now left.
    + apply IH. intros H. apply Hx. now right.
Qed.

Lemma find_none_forall {A : Type} (f : A -> bool) (l : list A) :
  find f l = None -> forall x, In x l -> f x = false.
Proof.
  intros Hn x Hx. destruct (f x) eqn:E; [|reflexivity].
  now rewrite (find_none f l Hn x Hx) in E.
Qed.

Lemma Role_eqb_eq (a b : Role) : Role_eqb a b = true <-> a = b.
Proof. destruct a, b; simpl; split; congruence. Qed.

Lemma JobStatus_eqb_eq (a b : JobStatus) : JobStatus_eqb a b = true <-> a = b.
Proof. destruct a, b; simpl; split; congruence. Qed.

Lemma JobStatus_eqb_neq (a b : JobStatus) : JobStatus_eqb a b = false <-> a <> b.
Proof. destruct a, b; simpl; split; congruence. Qed.

Lemma Role_eqb_neq (a b : Role) : Role_eqb a b = false <-> a <> b.
Proof. destruct a, b; simpl; split; congruence. Qed.

(** *** Sorting and slicing *)

Lemma In_insert_desc {A : Type} (key : A -> Z) (x y : A) (l : list A) :
  In y (insert_desc key x l) <-> y = x \/ In y l.
Proof.
  induction l as [|z l IH]; simpl.
  - intuition auto.
  - destruct (key z <=? key x); simpl; [intuition auto|].
    rewrite IH. intuition auto.
Qed.

Lemma In_order_by_desc {A : Type} (key : A -> Z) (y : A) (l : list A) :
  In y (order_by_desc key l) <-> In y l.
Proof.
  unfold order_by_desc. induction l as [|x l IH]; simpl; [tauto|].
  rewrite In_insert_desc, IH. intuition auto.
Qed.

Lemma insert_desc_sorted {A : Type} (key : A -> Z) (x : A) (l : list A) :
  StronglySorted (fun a b => key b <= key a) l ->
  StronglySorted (fun a b => key b <= key a) (insert_desc key x l).
Proof.
  induction 1 as [|z l Hs IH Hz]; simpl.
  - constructor; constructor.
  - destruct (key z <=? key x) eqn:E.
    + apply Z.leb_le in E. constructor.
      * constructor; assumption.
      * constructor; [exact E|].
        rewrite Forall_forall in *. intros b Hb.
        specialize (Hz b Hb). simpl in Hz. lia.
    + apply Z.leb_gt in E. constructor; [exact IH|].
      rewrite Forall_forall in *. intros b Hb.
      apply In_insert_desc in Hb. destruct Hb as [->|Hb]; [lia|auto].
Qed.

Lemma order_by_desc_sorted {A : Type} (key : A -> Z) (l : list A) :
  StronglySorted (fun a b => key b <= key a) (order_by_desc key l).
Proof.
  unfold order_by_desc. induction l as [|x l IH]; simpl.
  - constructor.
  - now apply insert_desc_sorted.
Qed.

Lemma In_skipn {A : Type} (x : A) (n : nat) :
  forall l, In x (skipn n l) -> In x l.
Proof.
  induction n as [|n IH]; intros l H; [exact H|].
  destruct l as [|y l]; [exact H|]. right. now apply IH.
Qed.

Lemma In_firstn {A : Type} (x : A) (n : nat) :
  forall l, In x (firstn n l) -> In x l.
Proof.
  induction n as [|n IH]; intros l H; [destruct H|].
  destruct l as [|y l]; [exact H|].
  destruct H as [H|H]; [now left|right; now apply IH].
Qed.

Lemma StronglySorted_skipn {A : Type} (R : A -> A -> Prop) (n : nat) :
  forall l, StronglySorted R l -> StronglySorted R (skipn n l).
Proof.
  induction n as [|n IH]; intros l Hs; [exact Hs|].
  destruct l as [|x l]; [constructor|]. simpl.
  apply IH. now inversion Hs.
Qed.

Lemma StronglySorted_firstn {A : Type} (R : A -> A -> Prop) (n : nat) :
  forall l, StronglySorted R l -> StronglySorted R (firstn n l).
Proof.
  induction n as [|n IH]; intros l Hs; [constructor|].
  destruct l as [|x l]; [constructor|]. simpl.
  inversion Hs as [|? ? Hl Hx]; subst. constructor; [now apply IH|].
  rewrite Forall_forall in *. intros b Hb. apply Hx.
  eapply In_firstn; exact Hb.
Qed.

(** A page is a run of consecutive rows of the query. *)
Lemma In_paginate {A : Type} (rows : list A) (page per_page : Z) (x : A) :
  In x (items (paginate rows page per_page)) -> In x rows.
Proof.
  unfold paginate. simpl. intros H.
  eapply In_skipn, In_firstn, H.
Qed.

Lemma paginate_sorted {A : Type} (R : A -> A -> Prop) (rows : list A)
  (page per_page : Z) :
  StronglySorted R rows ->
  StronglySorted R (items (paginate rows page per_page)).
Proof.
  intros H. unfold paginate. simpl.
  now apply StronglySorted_firstn, StronglySorted_skipn.
Qed.

Lemma paginate_length {A : Type} (rows : list A) (page per_page : Z) :
  (List.length (items (paginate rows page per_page))
   <= Z.to_nat (clamp_per_page per_page))%nat.
Proof. unfold paginate. simpl. apply firstn_le_length. Qed.

(** *** Rows of the [jobs] table *)

Lemma Job_get_id db job_id job :
  Job_get db job_id = Some job -> Job.id job = job_id.
Proof.
  unfold Job_get. intros H. apply find_some in H. now apply Z.eqb_eq.
Qed.

Lemma Job_get_In db job_id job :
  Job_get db job_id = Some job -> In job (jobs db).
Proof. unfold Job_get. intros H. now apply find_some in H. Qed.

(** After the UPDATE the row is read back as written. *)
Lemma Job_get_update_job_row db job_id old new :
  Job_get db job_id = Some old -> Job.id new = job_id ->
  Job_get (update_job_row db new) job_id = Some new.
Proof.
  unfold Job_get, update_job_row. simpl. intros H Hid. subst job_id.
  induction (jobs db) as [|r l IH]; simpl in *; [discriminate|].
  destruct (Job.id r =? Job.id new) eqn:E.
  - simpl. now rewrite Z.eqb_refl.
  - simpl. rewrite E. now apply IH.
Qed.


Lemma touch_status now old new : Job.status (touch now old new) = Job.status new.
Proof. unfold touch. now destruct (Job_same_columns old new). Qed.

Lemma touch_id now old new : Job.id (touch now old new) = Job.id new.
Proof. unfold touch. now destruct (Job_same_columns old new). Qed.



Lemma string_append_assoc (a b c : string) :
  ((a ++ b) ++ c = a ++ (b ++ c))%string.
Proof. induction a as [|x a IH]; simpl; [reflexivity|now rewrite IH]. Qed.

Section Properties.

Local Set Default Proof Using "Type".

Variable check_password_hash : string -> json -> outcome bool.
Variable create_access_token : Z -> string.
Variable isoformat : datetime -> string.
Variable format_value : json -> string.

(* --------------------------------------------------------------- *)
(** *** apply_to_job *)

(** What a successful application has passed and written. *)
Lemma apply_to_job_created db now user_id job_id request_json :
  status_code (response (apply_to_job isoformat db now user_id job_id request_json)) = 201 ->
  exists user job a,
    User_get db user_id = Some user /\ User.role user = RoleUser /\
    Job_get db job_id = Some job /\ Job.status job = Approved /\
    Application_first db user_id job_id = None /\
    Application.user_id a = user_id /\ Application.job_id a = job_id /\
    db_after (apply_to_job isoformat db now user_id job_id request_json) =
      mkDB (users db) (jobs db) (applications db ++ [a])
        (next_job_id db) (next_application_id db + 1).
Proof.
  unfold apply_to_job, handle, bind, insert_application. intros H.
  repeat (break_in H; simpl in H; try discriminate H).
  simpl in *.
  rewrite Heqo1. simpl.
  do 3 eexists. repeat split; try reflexivity.
  - apply Role_eqb_eq. now destruct (Role_eqb (User.role t) RoleUser).
  - apply JobStatus_eqb_eq.
    now destruct (JobStatus_eqb (Job.status t0) Approved).
Qed.

Lemma apply_to_job_second db now user_id job_id request_json :
  status_code (response (apply_to_job isoformat db now user_id job_id request_json)) = 201 ->
  let db1 := db_after (apply_to_job isoformat db now user_id job_id request_json) in
  List.length (applications_of db1 user_id job_id) = 1%nat /\
  (forall now' request_json',
      apply_to_job isoformat db1 now' user_id job_id request_json' =
      reply db1 400 "You have already applied to this job") /\
  (unique_applications db -> unique_applications db1).
Proof.
  intros H db1.
  destruct (apply_to_job_created _ _ _ _ _ H)
    as (user & job & a & Hu & Hr & Hj & Hs & Hn & Hau & Haj & Hdb).
  fold db1 in Hdb.
  assert (Hmatch : (Application.user_id a =? user_id) &&
                   (Application.job_id a =? job_id) = true).
  { rewrite Hau, Haj, !Z.eqb_refl. reflexivity. }
  assert (Hfirst : Application_first db1 user_id job_id = Some a).
  { unfold Application_first. rewrite Hdb. simpl.
    now apply find_app_none. }
  split; [|split].
  - unfold applications_of. rewrite Hdb. simpl.
    rewrite filter_app, (find_none_filter _ _ Hn). simpl.
    now rewrite Hmatch.
  - intros now' request_json'. unfold apply_to_job, handle.
    replace (User_get db1 user_id) with (Some user)
      by (unfold User_get; rewrite Hdb; simpl; symmetry; exact Hu).
    replace (Job_get db1 job_id) with (Some job)
      by (unfold Job_get; rewrite Hdb; simpl; symmetry; exact Hj).
    rewrite Hr, Hs, Hfirst. reflexivity.
  - unfold unique_applications. rewrite Hdb. simpl.
    rewrite map_app. simpl. intros Hnd.
    apply NoDup_snoc; [exact Hnd|].
    intros Hin. apply in_map_iff in Hin.
    destruct Hin as (b & Hb & Hbin).
    pose proof (find_none_forall _ _ Hn b Hbin) as Hf. simpl in Hf.
    unfold pair_of in Hb. inversion Hb as [[Hb1 Hb2]].
    rewrite Hb1, Hb2, Hau, Haj, !Z.eqb_refl in Hf. discriminate.
Qed.

(** A request that is not answered 201 has written and sent nothing. *)
Lemma apply_to_job_rejected db now user_id job_id request_json :
  status_code (response (apply_to_job isoformat db now user_id job_id request_json)) <> 201 ->
  db_after (apply_to_job isoformat db now user_id job_id request_json) = db /\
  sent (apply_to_job isoformat db now user_id job_id request_json) = [].
Proof.
  unfold apply_to_job, handle, bind.
  repeat (break_goal; simpl); intros H; try (split; reflexivity).
  now contradiction H.
Qed.

Lemma apply_to_job_keeps_unique db now user_id job_id request_json :
  unique_applications db ->
  unique_applications
    (db_after (apply_to_job isoformat db now user_id job_id request_json)).
Proof.
  intros Hu.
  destruct (Z.eq_dec
    (status_code (response (apply_to_job isoformat db now user_id job_id request_json)))
    201) as [E|E].
  - now apply apply_to_job_second.
  - now rewrite (proj1 (apply_to_job_rejected _ _ _ _ _ E)).
Qed.

(* --------------------------------------------------------------- *)
(** *** The other routes leave the applications alone *)

Ltac run_handler :=
  unfold handle;
  repeat (try unfold bind; break_goal; simpl);
  try reflexivity.

Lemma login_reads db request_json :
  db_after (login check_password_hash create_access_token isoformat db request_json) = db.
Proof. unfold login. run_handler. Qed.

Lemma get_jobs_reads db args : db_after (get_jobs isoformat db args) = db.
Proof. unfold get_jobs. run_handler. Qed.

Lemma get_job_reads db identity job_id :
  db_after (get_job isoformat db identity job_id) = db.
Proof. unfold get_job. run_handler. Qed.

Lemma get_all_users_reads db user_id args :
  db_after (get_all_users isoformat db user_id args) = db.
Proof. unfold get_all_users, require_admin. run_handler. Qed.

Lemma create_job_applications db now user_id request_json :
  applications (db_after (create_job isoformat db now user_id request_json))
  = applications db.
Proof. unfold create_job. run_handler. Qed.

Lemma update_job_applications db now user_id job_id request_json :
  applications (db_after (update_job isoformat db now user_id job_id request_json))
  = applications db.
Proof.
  unfold update_job, handle.
  destruct (User_get db user_id) as [user|]; [|reflexivity].
  destruct (negb (Role_eqb (User.role user) RoleEmployer)); [reflexivity|].
  destruct (Job_get db job_id) as [job|]; [|reflexivity].
  destruct (negb (Job.employer_id job =? user_id)); [reflexivity|].
  unfold bind. destruct (get_json request_json) as [data|]; [|reflexivity].
  destruct (set_fields data updatable_fields job); reflexivity.
Qed.

Lemma approve_job_applications db now user_id job_id :
  applications (db_after (approve_job isoformat format_value db now user_id job_id))
  = applications db.
Proof. unfold approve_job, require_admin. run_handler. Qed.

Lemma reject_job_applications db now user_id job_id request_json :
  applications
    (db_after (reject_job isoformat format_value db now user_id job_id request_json))
  = applications db.
Proof. unfold reject_job, require_admin. run_handler. Qed.

Lemma serve_keeps_unique db rq :
  unique_applications db ->
  unique_applications
    (db_after (serve check_password_hash create_access_token isoformat
                 format_value db rq)).
Proof.
  intros Hu. destruct rq; simpl.
  - now rewrite login_reads.
  - now rewrite get_jobs_reads.
  - now rewrite get_job_reads.
  - unfold unique_applications. now rewrite create_job_applications.
  - unfold unique_applications. now rewrite update_job_applications.
  - now apply apply_to_job_keeps_unique.
  - unfold unique_applications. now rewrite approve_job_applications.
  - unfold unique_applications. now rewrite reject_job_applications.
  - now rewrite get_all_users_reads.
Qed.

Lemma run_keeps_unique rqs : forall db,
  unique_applications db ->
  unique_applications
    (run check_password_hash create_access_token isoformat format_value
       db rqs).
Proof.
  induction rqs as [|rq rqs IH]; simpl; intros db Hu; [exact Hu|].
  apply IH. now apply serve_keeps_unique.
Qed.

(** C1: at most one application per (seeker, job) pair.  The pairs of
    the stored applications stay distinct over every sequence of
    requests; and after a successful [apply_to_job] the pair has exactly
    one stored application, and a second call for the same pair, whatever
    its form and whenever it is made, is answered 400 "You have already
      applied to this job", sends nothing and leaves the database as it
    was. *)
Theorem apply_to_job_at_most_once db now user_id job_id request_json :
  (unique_applications db ->
   forall rqs,
     unique_applications
       (run check_password_hash create_access_token isoformat format_value
          db rqs)) /\
  (status_code (response (apply_to_job isoformat db now user_id job_id request_json)) = 201 ->
   let db1 := db_after (apply_to_job isoformat db now user_id job_id request_json) in
   List.length (applications_of db1 user_id job_id) = 1%nat /\
   forall now' request_json',
     apply_to_job isoformat db1 now' user_id job_id request_json' =
     reply db1 400 "You have already applied to this job").
Proof.
  split.
  - intros Hu rqs. now apply run_keeps_unique.
  - intros H db1.
    destruct (apply_to_job_second _ _ _ _ _ H) as (H1 & H2 & _).
    split; assumption.
Qed.

(** C4: [apply_to_job] checks the creation preconditions in the order of
    the specification: seeker role, then an existing approved job, then no
    application yet for the pair, then a complete form.  The first one
    that fails decides the answer, and the request writes and sends
    nothing; when all four hold the answer is 201, or 500 when the storage
    layer refuses the row.  In particular an application to a job that is
    not approved is never answered 201 and stores no application. *)
Theorem apply_to_job_checks_in_order db now user_id job_id request_json :
  let r := apply_to_job isoformat db now user_id job_id request_json in
  match first_failed_precondition db user_id job_id request_json with
  | Some p => rejection p (response r) /\ db_after r = db /\ sent r = []
  | None =>
      status_code (response r) = 201 \/
      r = reply db 500 "Failed to submit application"
  end /\
  (forall job,
      Job_get db job_id = Some job -> Job.status job <> Approved ->
      status_code (response r) <> 201 /\
      applications (db_after r) = applications db).
Proof.
  intros r. split.
  - subst r.
    unfold first_failed_precondition, is_seeker, job_is_approved,
      has_applied, apply_to_job, handle.
    destruct (User_get db user_id) as [user|]; simpl; [|auto].
    destruct (Role_eqb (User.role user) RoleUser); simpl; [|auto].
    destruct (Job_get db job_id) as [job|]; simpl; [|auto].
    destruct (JobStatus_eqb (Job.status job) Approved); simpl; [|auto].
    destruct (Application_first db user_id job_id) eqn:Hfirst; simpl; [auto|].
    unfold form_is_complete, insert_application.
    destruct request_json as [data|]; simpl; [|auto].
    destruct data as [| | | | |kv]; simpl; auto.
    unfold dict_get, dict_get_default, bind.
    destruct (assoc "coverLetter" kv) as [cover_letter|];
      destruct (assoc "resume" kv) as [resume|]; simpl;
      try destruct (truthy cover_letter); simpl;
      try destruct (truthy resume); simpl; auto.
    rewrite Hfirst.
    destruct (text_col cover_letter); simpl; auto.
    destruct (string_col 500 resume); simpl; auto.
  - intros job Hj Hs. subst r.
    assert (E : status_code (response
                  (apply_to_job isoformat db now user_id job_id request_json))
                <> 201).
    { intros E. destruct (apply_to_job_created _ _ _ _ _ E)
        as (user & job' & a & _ & _ & Hj' & Hs' & _).
      congruence. }
    split; [exact E|].
    now rewrite (proj1 (apply_to_job_rejected _ _ _ _ _ E)).
Qed.

(* --------------------------------------------------------------- *)
(** *** approve_job and reject_job *)

Lemma approve_job_pending db now user_id job_id job :
  require_admin db user_id = None ->
  Job_get db job_id = Some job -> Job.status job = Pending ->
  let r := approve_job isoformat format_value db now user_id job_id in
  status_code (response r) = 200 /\
  exists job', Job_get (db_after r) job_id = Some job' /\
               Job.status job' = Approved.
Proof.
  intros Ha Hj Hs. unfold approve_job, handle. rewrite Ha, Hj, Hs. simpl.
  split; [reflexivity|]. eexists. split.
  - eapply Job_get_update_job_row; [exact Hj|].
    rewrite touch_id. simpl. now apply Job_get_id in Hj.
  - now rewrite touch_status.
Qed.

Lemma reject_job_pending db now user_id job_id job kv :
  require_admin db user_id = None ->
  Job_get db job_id = Some job -> Job.status job = Pending ->
  let r := reject_job isoformat format_value db now user_id job_id
             (Some (JObj kv)) in
  status_code (response r) = 200 /\
  exists job', Job_get (db_after r) job_id = Some job' /\
               Job.status job' = Rejected.
Proof.
  intros Ha Hj Hs. unfold reject_job, handle. rewrite Ha, Hj, Hs. simpl.
  split; [reflexivity|]. eexists. split.
  - eapply Job_get_update_job_row; [exact Hj|].
    rewrite touch_id. simpl. now apply Job_get_id in Hj.
  - now rewrite touch_status.
Qed.

(** A rejection whose request carries no JSON object reaches
    [data.get('reason', ...)] with nothing to call it on: the handler's
    [except] answers 500 and the job stays pending. *)
Remark reject_job_without_form db now user_id job_id job :
  require_admin db user_id = None ->
  Job_get db job_id = Some job -> Job.status job = Pending ->
  reject_job isoformat format_value db now user_id job_id None =
  reply db 500 "Failed to reject job".
Proof.
  intros Ha Hj Hs. unfold reject_job, handle. now rewrite Ha, Hj, Hs.
Qed.

(** C2, as the code has it: moderation acts on pending jobs only, and a
    rejection needs a JSON object.  For an admin and a job that is not
    [pending], [approve_job] and [reject_job] both answer 400 "Job is not
    pending approval" (the InvalidTransition error) and write nothing, so
    the job keeps its status; on a pending job [approve_job] answers 200
    and stores status [approved]; [reject_job] on a pending job answers 200
    and stores status [rejected] when the request carries a JSON object
    (with or without a reason), and answers 500 "Failed to reject job",
    leaving the job pending, when it carries none. *)
Theorem moderation_only_from_pending db now user_id job_id job :
  require_admin db user_id = None ->
  Job_get db job_id = Some job ->
  (Job.status job <> Pending ->
   approve_job isoformat format_value db now user_id job_id =
     reply db 400 "Job is not pending approval" /\
   (forall request_json,
      reject_job isoformat format_value db now user_id job_id request_json =
        reply db 400 "Job is not pending approval") /\
   Job_get (db_after (reply db 400 "Job is not pending approval")) job_id
     = Some job) /\
  (Job.status job = Pending ->
   (let r := approve_job isoformat format_value db now user_id job_id in
    status_code (response r) = 200 /\
    exists job', Job_get (db_after r) job_id = Some job' /\
                 Job.status job' = Approved) /\
   (forall kv,
      let r := reject_job isoformat format_value db now user_id job_id
                 (Some (JObj kv)) in
      status_code (response r) = 200 /\
      exists job', Job_get (db_after r) job_id = Some job' /\
                   Job.status job' = Rejected) /\
   (forall request_json,
      (forall kv, request_json <> Some (JObj kv)) ->
      let r := reject_job isoformat format_value db now user_id job_id
                 request_json in
      r = reply db 500 "Failed to reject job" /\
      Job_get (db_after r) job_id = Some job)).
Proof.
  intros Ha Hj. split.
  - intros Hs. apply JobStatus_eqb_neq in Hs.
    unfold approve_job, reject_job, handle. rewrite Ha, Hj, Hs. simpl.
    repeat split; auto.
  - intros Hs. split; [|split].
    + eapply approve_job_pending; eassumption.
    + intros kv. eapply reject_job_pending; eassumption.
    + intros request_json Hno r.
      assert (E : r = reply db 500 "Failed to reject job").
      { subst r. unfold reject_job, handle. rewrite Ha, Hj, Hs. simpl.
        destruct request_json as [[| | | | |kv]|]; try reflexivity.
        now contradiction (Hno kv). }
      rewrite E. split; [reflexivity|exact Hj].
Qed.

(* --------------------------------------------------------------- *)
(** *** get_jobs *)

Lemma jobs_query_rows db search location j :
  In j (jobs_query db search location) ->
  In j (jobs db) /\ Job.status j = Approved /\
  (nonempty search = true -> search_filter search j = true) /\
  (nonempty location = true -> location_filter location j = true).
Proof.
  clear check_password_hash.
  unfold jobs_query. rewrite In_order_by_desc.
  destruct (nonempty search), (nonempty location);
    repeat rewrite filter_In; rewrite JobStatus_eqb_eq;
    intuition congruence.
Qed.

(** What stands behind the "jobs" entry of a response of [get_jobs]. *)
Lemma get_jobs_listing db args l :
  field "jobs" (body (response (get_jobs isoformat db args))) = Some (JList l) ->
  exists page limit,
    int_arg args "page" 1 = Ret page /\
    int_arg args "limit" DEFAULT_LIMIT = Ret limit /\
    l = map (fun j => Job_to_dict isoformat db j false)
          (items (paginate
                    (jobs_query db (stripped_arg args "search")
                       (stripped_arg args "location"))
                    page (Z.min limit MAX_LIMIT))).
Proof.
  unfold get_jobs, handle, bind.
  destruct (int_arg args "page" 1) as [page|]; [|discriminate].
  destruct (int_arg args "limit" DEFAULT_LIMIT) as [limit|]; [|discriminate].
  simpl. intros H. exists page, limit. repeat split. congruence.
Qed.


Lemma Job_to_dict_status db j b :
  field "status" (Job_to_dict isoformat db j b)
  = Some (JStr (JobStatus_to_string (Job.status j))).
Proof. reflexivity. Qed.


(* --------------------------------------------------------------- *)
(** *** create_job and update_job *)

(** What a successful creation has written. *)
Lemma create_job_created db now user_id request_json :
  let r := create_job isoformat db now user_id request_json in
  status_code (response r) = 201 ->
  exists job,
    db_after r = insert_job db job /\
    Job.status job = Pending /\ Job.employer_id job = user_id /\
    Job.id job = next_job_id db /\
    field "job" (body (response r))
    = Some (Job_to_dict isoformat (db_after r) job false).
Proof.
  unfold create_job, handle. intros H.
  repeat (try unfold bind in *; break_in H; simpl in *; try discriminate H).
  eexists. repeat split.
Qed.

(** No column the loop of [update_job] writes is the key or the status. *)
Lemma set_fields_keeps (P : Job.t -> Prop) data fields :
  Forall (fun f => forall j v j', snd f j v = Ret j' -> P j -> P j') fields ->
  forall job job', set_fields data fields job = Ret job' -> P job -> P job'.
Proof.
  induction 1 as [|[k set] fields Hset _ IH]; simpl; intros job job' H HP.
  - now inversion H; subst.
  - unfold bind in H.
    destruct (py_in k data) as [[|]|]; try discriminate; [|eauto].
    destruct (subscript data k) as [v|]; try discriminate.
    destruct (set job v) as [job1|] eqn:E; try discriminate.
    eapply IH; [exact H|]. eapply Hset; eauto.
Qed.




(** C5: the public listing.  Whatever [get_jobs] lists is a run of rows
    of the [jobs] table that are all [approved], newest first; the page
    size handed to the paginator is the requested [limit] capped at 50,
    and 10 when the request names none, so a page never holds more than
    50 rows and holds exactly that many while rows remain; and when the
    request gives both a search term and a location, every listed job
    passes the search filter and the location filter. *)
Theorem get_jobs_lists_approved_newest_first db args l :
  field "jobs" (body (response (get_jobs isoformat db args))) = Some (JList l) ->
  let search := stripped_arg args "search" in
  let location := stripped_arg args "location" in
  exists page limit rows,
    int_arg args "page" 1 = Ret page /\
    int_arg args "limit" 10 = Ret limit /\
    (assoc "limit" args = None -> limit = 10) /\
    rows = items (paginate (jobs_query db search location) page (Z.min limit 50)) /\
    l = map (fun j => Job_to_dict isoformat db j false) rows /\
    Forall (fun j => In j (jobs db) /\ Job.status j = Approved) rows /\
    newest_first rows /\
    (List.length rows <= 50)%nat /\
    List.length rows =
      Nat.min (Z.to_nat (Z.max 1 (Z.min limit 50)))
        (List.length (jobs_query db search location) -
         Z.to_nat ((Z.max 1 page - 1) * Z.max 1 (Z.min limit 50))) /\
    (search <> "" -> location <> "" ->
     Forall (fun j => search_filter search j = true /\
                      location_filter location j = true) rows).
Proof.
  clear check_password_hash create_access_token.
  intros H search location.
  destruct (get_jobs_listing _ _ _ H) as (page & limit & Hp & Hl & ->).
  exists page, limit. eexists. split; [exact Hp|]. split; [exact Hl|].
  split.
  { unfold int_arg in Hl. intros E. rewrite E in Hl. now inversion Hl. }
  split; [reflexivity|]. split; [reflexivity|].
  fold search location. unfold MAX_LIMIT.
  split; [|split; [|split; [|split]]].
  - apply Forall_forall. intros j Hj.
    apply In_paginate, jobs_query_rows in Hj. tauto.
  - apply paginate_sorted. unfold jobs_query. apply order_by_desc_sorted.
  - etransitivity; [apply paginate_length|]. unfold clamp_per_page. lia.
  - unfold paginate. simpl.
    rewrite length_firstn, length_skipn. reflexivity.
  - intros Hs Hloc. apply Forall_forall. intros j Hj.
    apply In_paginate, jobs_query_rows in Hj.
    destruct Hj as (_ & _ & H1 & H2). unfold nonempty in *.
    split; [apply H1|apply H2]; apply negb_true_iff, String.eqb_neq;
      assumption.
Qed.

(* --------------------------------------------------------------- *)
(** *** Pagination *)

(** C9: a page number or page size out of range is no error.  For every
    integer [page] and [limit] of the query string, also below 1 and
    above the cap, [get_jobs] answers 200 with the slice the clamped
    values select: page [max 1 page] of pages of [max 1 (min limit 50)]
    rows; and [get_all_users], for an admin, does the same with its cap
    of 100. *)
Theorem pagination_clamps_never_fails db args page :
  int_arg args "page" 1 = Ret page ->
  (forall limit,
     int_arg args "limit" 10 = Ret limit ->
     let size := Z.max 1 (Z.min limit 50) in
     let r := get_jobs isoformat db args in
     1 <= size <= 50 /\
     status_code (response r) = 200 /\
     field "jobs" (body (response r)) =
       Some (JList (map (fun j => Job_to_dict isoformat db j false)
                      (firstn (Z.to_nat size)
                         (skipn (Z.to_nat ((Z.max 1 page - 1) * size))
                            (jobs_query db (stripped_arg args "search")
                               (stripped_arg args "location"))))))) /\
  (forall user_id limit,
     require_admin db user_id = None ->
     int_arg args "limit" 20 = Ret limit ->
     let size := Z.max 1 (Z.min limit 100) in
     let r := get_all_users isoformat db user_id args in
     1 <= size <= 100 /\
     status_code (response r) = 200 /\
     field "users" (body (response r)) =
       Some (JList (map (User_to_dict isoformat)
                      (firstn (Z.to_nat size)
                         (skipn (Z.to_nat ((Z.max 1 page - 1) * size))
                            (order_by_desc User.created_at (users db))))))).
Proof.
  intros Hp. split.
  - intros limit Hl size r. split; [subst size; lia|].
    subst r. unfold get_jobs, handle, bind, DEFAULT_LIMIT.
    rewrite Hp, Hl. simpl. split; reflexivity.
  - intros user_id limit Ha Hl size r. split; [subst size; lia|].
    subst r. unfold get_all_users, handle, bind.
    rewrite Ha, Hp, Hl. simpl. split; reflexivity.
Qed.

(* --------------------------------------------------------------- *)
(** *** login *)

(** Where the credential service answers, a failed login does not tell
    which field was wrong: a password the service refuses for a known
    e-mail, and any password for an unknown e-mail, get the same 401
    "Invalid email or password", and nothing is written or sent. *)
Lemma login_same_answer_when_checked db kv1 email1 password1 user kv2 email2
  password2 :
  assoc "email" kv1 = Some email1 -> assoc "password" kv1 = Some password1 ->
  truthy email1 = true -> truthy password1 = true ->
  User_by_email db email1 = Some user ->
  check_password_hash (User.password_hash user) password1 = Ret false ->
  assoc "email" kv2 = Some email2 -> assoc "password" kv2 = Some password2 ->
  truthy email2 = true -> truthy password2 = true ->
  User_by_email db email2 = None ->
  login check_password_hash create_access_token isoformat db (Some (JObj kv1)) =
    reply db 401 "Invalid email or password" /\
  login check_password_hash create_access_token isoformat db (Some (JObj kv2)) =
    reply db 401 "Invalid email or password".
Proof.
  intros He1 Hp1 Te1 Tp1 Hu1 Hc1 He2 Hp2 Te2 Tp2 Hu2.
  unfold login, handle, bind, get_json, dict_get, dict_get_default.
  rewrite He1, Hp1, Te1, Tp1, Hu1, Hc1, He2, Hp2, Te2, Tp2, Hu2.
  split; reflexivity.
Qed.

(** C6, on the code: a login can tell a known e-mail from an unknown one.
    [login] hands the password of the request to the credential service as
    it came; when the service raises on it (as it does on a password that
    is no string), the handler's [except] answers 500 "Login failed" for an
    e-mail that belongs to a user, while the same password with an e-mail
    that belongs to nobody never reaches the service and gets 401 "Invalid
    email or password". *)
Theorem login_distinguishes_when_check_raises db kv1 email1 password user kv2
  email2 :
  assoc "email" kv1 = Some email1 -> assoc "password" kv1 = Some password ->
  assoc "email" kv2 = Some email2 -> assoc "password" kv2 = Some password ->
  truthy email1 = true -> truthy email2 = true -> truthy password = true ->
  User_by_email db email1 = Some user ->
  User_by_email db email2 = None ->
  check_password_hash (User.password_hash user) password = Raise ->
  login check_password_hash create_access_token isoformat db (Some (JObj kv1)) =
    reply db 500 "Login failed" /\
  login check_password_hash create_access_token isoformat db (Some (JObj kv2)) =
    reply db 401 "Invalid email or password".
Proof.
  intros He1 Hp1 He2 Hp2 Te1 Te2 Tp Hu1 Hu2 Hc.
  unfold login, handle, bind, get_json, dict_get, dict_get_default.
  rewrite He1, Hp1, He2, Hp2, Te1, Te2, Tp, Hu1, Hu2, Hc.
  split; reflexivity.
Qed.

(* --------------------------------------------------------------- *)
(** *** The notification of a rejection *)

Lemma User_get_update_job_row db job user_id :
  User_get (update_job_row db job) user_id = User_get db user_id.
Proof. reflexivity. Qed.

(** The rejection e-mail is its fixed text around the paragraph of the
    reason. *)
Lemma rejected_html_split first_name job_title reason :
  rejected_html format_value first_name job_title reason =
  (rejected_before first_name job_title ++
   reason_paragraph format_value reason ++ rejected_after)%string.
Proof.
  unfold rejected_html, rejected_before, rejected_after.
  repeat rewrite string_append_assoc. reflexivity.
Qed.

(** C7, as the code has it: the notification of a rejection names a reason
    unless the form gives an empty one.  For an admin rejecting a pending
    job whose employer is found, exactly one e-mail goes to the employer;
    its text is the same for every form but for one place, which holds the
    paragraph "Reason:" with the reason of the form when that reason is
    truthy (a non-empty string, or a non-zero number, [True], a non-empty
    list or object, each written as Python's [str] writes it), the
    paragraph "Reason: No reason provided" when the form names no reason,
    and nothing when the form gives a reason that is falsy (an empty
    string, [null], 0, [false], an empty list or object). *)
Theorem rejection_notice_reason db now user_id job_id job employer :
  require_admin db user_id = None ->
  Job_get db job_id = Some job -> Job.status job = Pending ->
  User_get db (Job.employer_id job) = Some employer ->
  exists before after : string,
    forall kv,
      sent (reject_job isoformat format_value db now user_id job_id
              (Some (JObj kv)))
      = [mkEmail (User.email employer)
           ("Job Posting Update: " ++ Job.title job)
           (before ++
            match assoc "reason" kv with
            | None => "<p><strong>Reason:</strong> No reason provided</p>"
            | Some v =>
                if truthy v
                then "<p><strong>Reason:</strong> " ++
                     py_str format_value v ++ "</p>"
                else ""
            end ++ after)].
Proof.
  intros Ha Hj Hs He.
  exists (rejected_before (User.first_name employer) (Job.title job)),
    rejected_after.
  intros kv. unfold reject_job, handle. rewrite Ha, Hj, Hs. simpl.
  unfold moderation_emails. rewrite User_get_update_job_row.
  replace (Job.employer_id (touch now job (Job.set_status job Rejected)))
    with (Job.employer_id job)
    by (unfold touch; now destruct (Job_same_columns _ _)).
  replace (Job.title (touch now job (Job.set_status job Rejected)))
    with (Job.title job)
    by (unfold touch; now destruct (Job_same_columns _ _)).
  rewrite He. unfold send_job_approval_email.
  rewrite rejected_html_split. unfold reason_paragraph.
  destruct (assoc "reason" kv) as [v|]; reflexivity.
Qed.

(* --------------------------------------------------------------- *)
(** *** The salary check of create_job *)

(** The range check on two integers fires only when neither is 0. *)
Lemma salary_range_rejected_integers (salary_min salary_max : Z) :
  salary_range_rejected (JInt salary_min) (JInt salary_max) =
  Ret (negb (salary_min =? 0) && negb (salary_max =? 0) &&
       (salary_max <? salary_min)).
Proof.
  unfold salary_range_rejected. simpl.
  destruct (salary_min =? 0), (salary_max =? 0); reflexivity.
Qed.

(* --------------------------------------------------------------- *)
(** *** get_job *)

Lemma User_get_id db user_id user :
  User_get db user_id = Some user -> User.id user = user_id.
Proof.
  unfold User_get. intros H. apply find_some in H. now apply Z.eqb_eq.
Qed.

Lemma User_get_In db user_id user :
  User_get db user_id = Some user -> In user (users db).
Proof. unfold User_get. intros H. now apply find_some in H. Qed.



End Properties.

(* ================================================================= *)
(** ** The theorems at work on the small instance *)

(** The seeker applies to the approved job, and applies again. *)
Lemma apply_to_job_at_most_once_witness :
  unique_applications Demo.db /\
  status_code
    (response (apply_to_job Demo.isoformat Demo.db 100 3 2 Demo.application_form))
  = 201 /\
  apply_to_job Demo.isoformat
    (db_after (apply_to_job Demo.isoformat Demo.db 100 3 2 Demo.application_form))
    101 3 2 None
  = reply
      (db_after (apply_to_job Demo.isoformat Demo.db 100 3 2 Demo.application_form))
      400 "You have already applied to this job".
Proof.
  assert (U : unique_applications Demo.db) by constructor.
  assert (S : status_code
                (response (apply_to_job Demo.isoformat Demo.db 100 3 2
                             Demo.application_form)) = 201) by reflexivity.
  destruct (apply_to_job_at_most_once Demo.check_password_hash
              Demo.create_access_token Demo.isoformat Demo.format_value
              Demo.db 100 3 2 Demo.application_form) as [_ H].
  split; [exact U|]. split; [exact S|]. exact (proj2 (H S) 101 None).
Defined.

(** The seeker applies to the pending job. *)
Lemma apply_to_job_checks_in_order_witness :
  first_failed_precondition Demo.db 3 1 Demo.application_form
  = Some JobIsApproved /\
  status_code
    (response (apply_to_job Demo.isoformat Demo.db 100 3 1 Demo.application_form))
  <> 201 /\
  applications
    (db_after (apply_to_job Demo.isoformat Demo.db 100 3 1 Demo.application_form))
  = applications Demo.db.
Proof.
  split; [reflexivity|].
  apply (proj2 (apply_to_job_checks_in_order Demo.isoformat Demo.db 100 3 1
                  Demo.application_form)
           (Demo.job 1 "Senior DevOps Engineer" Pending 30));
    [reflexivity|discriminate].
Defined.

(** The admin approves the approved job, and rejects the pending one with
    an empty form and with none. *)
Lemma moderation_only_from_pending_witness :
  approve_job Demo.isoformat Demo.format_value Demo.db 100 1 2
  = reply Demo.db 400 "Job is not pending approval" /\
  status_code
    (response (reject_job Demo.isoformat Demo.format_value Demo.db 100 1 1
                 (Some (JObj []))))
  = 200 /\
  reject_job Demo.isoformat Demo.format_value Demo.db 100 1 1 None
  = reply Demo.db 500 "Failed to reject job".
Proof.
  split; [|split].
  - apply (proj1 (moderation_only_from_pending Demo.isoformat Demo.format_value
                    Demo.db 100 1 2 (Demo.job 2 "Cloud Engineer" Approved 40)
                    eq_refl eq_refl));
      discriminate.
  - apply (proj1 (proj2 (proj2 (moderation_only_from_pending Demo.isoformat
                                  Demo.format_value Demo.db 100 1 1
                                  (Demo.job 1 "Senior DevOps Engineer" Pending 30)
                                  eq_refl eq_refl)
                           eq_refl))
             []).
  - apply (proj2 (proj2 (proj2 (moderation_only_from_pending Demo.isoformat
                                  Demo.format_value Demo.db 100 1 1
                                  (Demo.job 1 "Senior DevOps Engineer" Pending 30)
                                  eq_refl eq_refl)
                           eq_refl))
             None).
    discriminate.
Defined.


(** The listing of the instance, without parameters. *)
Lemma get_jobs_lists_approved_newest_first_witness :
  exists page limit rows,
    int_arg [] "page" 1 = Ret page /\
    int_arg [] "limit" 10 = Ret limit /\
    (assoc "limit" ([] : args_t) = None -> limit = 10) /\
    rows = items (paginate (jobs_query Demo.db "" "") page (Z.min limit 50)) /\
    [Job_to_dict Demo.isoformat Demo.db (Demo.job 2 "Cloud Engineer" Approved 40)
       false]
    = map (fun j => Job_to_dict Demo.isoformat Demo.db j false) rows /\
    Forall (fun j => In j (jobs Demo.db) /\ Job.status j = Approved) rows /\
    newest_first rows /\
    (List.length rows <= 50)%nat /\
    List.length rows =
      Nat.min (Z.to_nat (Z.max 1 (Z.min limit 50)))
        (List.length (jobs_query Demo.db "" "") -
         Z.to_nat ((Z.max 1 page - 1) * Z.max 1 (Z.min limit 50))) /\
    ("" <> "" -> "" <> "" ->
     Forall (fun j => search_filter "" j = true /\
                      location_filter "" j = true) rows).
Proof.
  exact (get_jobs_lists_approved_newest_first Demo.isoformat Demo.db [] _ eq_refl).
Defined.

(** Page -3 with page size 0, and page size 500 for the admin. *)
Lemma pagination_clamps_never_fails_witness :
  status_code
    (response (get_jobs Demo.isoformat Demo.db [("page", "-3"); ("limit", "0")]))
  = 200 /\
  status_code
    (response (get_all_users Demo.isoformat Demo.db 1
                 [("page", "-3"); ("limit", "500")]))
  = 200.
Proof.
  destruct (pagination_clamps_never_fails Demo.isoformat Demo.db
              [("page", "-3"); ("limit", "0")] (-3) eq_refl) as [H1 _].
  destruct (pagination_clamps_never_fails Demo.isoformat Demo.db
              [("page", "-3"); ("limit", "500")] (-3) eq_refl) as [_ H2].
  split.
  - exact (proj1 (proj2 (H1 0 eq_refl))).
  - exact (proj1 (proj2 (H2 1 500 eq_refl eq_refl))).
Defined.

(** The password 123 for a known address, and for an unknown one. *)
Lemma login_distinguishes_when_check_raises_witness :
  login Demo.check_password_hash Demo.create_access_token Demo.isoformat Demo.db
    (Some (JObj [("email", JStr "test@example.com"); ("password", JInt 123)]))
  = reply Demo.db 500 "Login failed" /\
  login Demo.check_password_hash Demo.create_access_token Demo.isoformat Demo.db
    (Some (JObj [("email", JStr "nonexistent@example.com");
                 ("password", JInt 123)]))
  = reply Demo.db 401 "Invalid email or password".
Proof.
  apply (login_distinguishes_when_check_raises Demo.check_password_hash
           Demo.create_access_token Demo.isoformat Demo.db _
           (JStr "test@example.com") (JInt 123) Demo.seeker _
           (JStr "nonexistent@example.com"));
    reflexivity.
Defined.

(** C2, as the claim states it, fails: the admin rejects the pending job
    with a request that carries no JSON object; the answer is 500 and the
    job is still pending. *)
Lemma reject_without_form_stays_pending :
  status_code
    (response (reject_job Demo.isoformat Demo.format_value Demo.db 100 1 1 None))
  = 500 /\
  Job_get
    (db_after (reject_job Demo.isoformat Demo.format_value Demo.db 100 1 1 None))
    1
  = Some (Demo.job 1 "Senior DevOps Engineer" Pending 30).
Proof. split; reflexivity. Qed.

(** The admin rejects the pending job of the instance. *)
Lemma rejection_notice_reason_witness :
  exists before after : string,
    forall kv,
      sent (reject_job Demo.isoformat Demo.format_value Demo.db 100 1 1
              (Some (JObj kv)))
      = [mkEmail "employer@example.com"
           "Job Posting Update: Senior DevOps Engineer"
           (before ++
            match assoc "reason" kv with
            | None => "<p><strong>Reason:</strong> No reason provided</p>"
            | Some v =>
                if truthy v
                then "<p><strong>Reason:</strong> " ++
                     py_str Demo.format_value v ++ "</p>"
                else ""
            end ++ after)].
Proof.
  exact (rejection_notice_reason Demo.isoformat Demo.format_value Demo.db 100
           1 1 (Demo.job 1 "Senior DevOps Engineer" Pending 30) Demo.employer
           eq_refl eq_refl eq_refl eq_refl).
Defined.

(** C7, as the claim states it, fails: the admin rejects the pending job
    with a form that names no reason, and the e-mail to the employer still
    has the paragraph "Reason:", with the text "No reason provided". *)
Lemma rejection_without_reason_writes_one :
  exists e,
    sent (reject_job Demo.isoformat Demo.format_value Demo.db 100 1 1
            (Some (JObj [])))
    = [e] /\
    assoc "reason" ([] : list (string * json)) = None /\
    infixb "<p><strong>Reason:</strong> No reason provided</p>" (html_body e)
    = true.
Proof. eexists. repeat split. Qed.

(** C8, on the code: an employer posts a job with minimum salary 5 and
    maximum salary 0.  Both bounds are present and the maximum is below the
    minimum, yet [create_job] answers 201 and stores the row: the test
    [salary_min and salary_max and ...] takes the 0 for an absent bound. *)
Lemma create_job_accepts_zero_maximum :
  let r := create_job Demo.isoformat Demo.db 100 2
             (Demo.job_form (JInt 5) (JInt 0)) in
  status_code (response r) = 201 /\
  exists job,
    jobs (db_after r) = jobs Demo.db ++ [job] /\
    Job.salary_min job = Some 5 /\ Job.salary_max job = Some 0.
Proof. split; [reflexivity|]. eexists. repeat split. Qed.


(* ================================================================= *)
(** ** Properties of the remaining routes *)

(** *** Column values *)

Lemma string_col_inv n v s : string_col n v = Ret s -> v = JStr s.
Proof.
  unfold string_col. destruct v; try discriminate.
  destruct (_ <=? _)%nat; [|discriminate]. now inversion 1.
Qed.

Lemma nullable_string_col_truthy n v o :
  truthy v = true -> nullable_string_col n v = Ret o ->
  exists c, o = Some c /\ c <> "".
Proof.
  unfold nullable_string_col. destruct v; try discriminate.
  simpl. intros Ht. destruct (_ <=? _)%nat; [|discriminate].
  inversion 1. exists s. split; [reflexivity|].
  apply String.eqb_neq. now apply negb_true_iff.
Qed.

Lemma find_all_false {A : Type} (f : A -> bool) (l : list A) :
  (forall x, In x l -> f x = false) -> find f l = None.
Proof.
  induction l as [|y l IH]; simpl; intros H; [reflexivity|].
  rewrite (H y (or_introl eq_refl)). apply IH. intros x Hx. apply H. now right.
Qed.

Section MoreProperties.

Local Set Default Proof Using "Type".

Variable generate_password_hash : json -> outcome string.
Variable check_password_hash : string -> json -> outcome bool.
Variable create_access_token : Z -> string.
Variable isoformat : datetime -> string.
Variable format_value : json -> string.

(* --------------------------------------------------------------- *)
(** *** register *)

Lemma register_created db now user_id request_json :
  let r := register generate_password_hash create_access_token isoformat
             db now user_id request_json in
  status_code (response r) = 201 ->
  exists data user rolev pw,
    request_json = Some data /\
    subscript data "role" = Ret rolev /\
    role_named rolev = Some (User.role user) /\
    subscript data "email" = Ret (JStr (User.email user)) /\
    User_by_email db (JStr (User.email user)) = None /\
    subscript data "password" = Ret pw /\
    generate_password_hash pw = Ret (User.password_hash user) /\
    User.id user = user_id /\
    (User.role user = RoleEmployer ->
     exists c, User.company user = Some c /\ c <> "") /\
    r = mkResult
          (mkDB (users db ++ [user]) (jobs db) (applications db)
             (next_job_id db) (next_application_id db))
          [send_welcome_email (User.email user) (User.first_name user)]
          (mkResponse 201
             (JObj [("message", JStr "User created successfully");
                    ("token", JStr (create_access_token user_id));
                    ("user", User_to_dict isoformat user)])).
Proof.
  unfold register, handle, insert_user. intros H.
  repeat (try unfold bind in *; break_in H; simpl in *; try discriminate H).
  match goal with
  | E : string_col 120 ?v = Ret ?s |- _ =>
      pose proof (string_col_inv _ _ _ E); subst v
  end.
  eexists _, (User.mk _ _ _ _ _ _ _ _ _), _, _. simpl.
  repeat split; try eassumption; try reflexivity.
  - destruct request_json; [now inversion Heqo|discriminate].
  - intros ->. simpl in *.
    match goal with
    | E : negb (truthy ?v) = false, C : nullable_string_col 200 ?v = Ret _ |- _ =>
        apply negb_false_iff in E;
        destruct (nullable_string_col_truthy _ _ _ E C) as (c & -> & Hc)
    end.
    now exists c.
Qed.

Lemma subscript_dict_get data k v : subscript data k = Ret v -> dict_get data k = Ret v.
Proof.
  unfold subscript, dict_get, dict_get_default. destruct data; try discriminate.
  destruct (assoc k kv); [now inversion 1|discriminate].
Qed.

Lemma role_named_inv v role :
  role_named v = Some role -> v = JStr (Role_to_string role) /\ role <> RoleAdmin.
Proof.
  unfold role_named. destruct v; try discriminate.
  destruct (String.eqb s "user") eqn:E1.
  - apply String.eqb_eq in E1. inversion 1. subst. now split.
  - destruct (String.eqb s "employer") eqn:E2; [|discriminate].
    apply String.eqb_eq in E2. inversion 1. subst. now split.
Qed.

(** What a request that is not answered 201 leaves behind. *)
Lemma register_rejected db now user_id request_json :
  let r := register generate_password_hash create_access_token isoformat
             db now user_id request_json in
  status_code (response r) <> 201 -> db_after r = db /\ sent r = [].
Proof.
  unfold register, handle, insert_user.
  repeat (try unfold bind; break_goal; simpl); intros H;
    try (split; reflexivity).
  now contradiction H.
Qed.

(** X1: a registration with the e-mail of a stored user is refused.  When
    the five required fields are given, the role is one of the two that
    can register and the e-mail belongs to a stored user, [register] answers
    400 "User already exists", stores no row and sends no welcome e-mail. *)
Theorem register_rejects_known_email db now user_id kv rolev role email user :
  first_missing (JObj kv) register_fields = Ret None ->
  assoc "role" kv = Some rolev -> role_named rolev = Some role ->
  assoc "email" kv = Some email -> User_by_email db email = Some user ->
  register generate_password_hash create_access_token isoformat db now user_id
    (Some (JObj kv))
  = reply db 400 "User already exists".
Proof.
  intros Hm Hr Hn He Hu. unfold register, handle, get_json.
  unfold bind at 1. unfold bind at 1. rewrite Hm.
  unfold bind, subscript. now rewrite Hr, Hn, He, Hu.
Qed.

(** X2: nobody registers as an admin.  A registration answered 201 has
    appended exactly one user, with the key it was given and the role the
    request names, which is [user] or [employer] and never [admin]; an
    employer so registered has a non-empty company; jobs and applications
    are untouched.  Every other answer leaves the database as it was and
    sends nothing. *)
Theorem register_never_admin db now user_id request_json :
  let r := register generate_password_hash create_access_token isoformat
             db now user_id request_json in
  (status_code (response r) = 201 ->
   exists data user,
     request_json = Some data /\
     subscript data "role" = Ret (JStr (Role_to_string (User.role user))) /\
     User.role user <> RoleAdmin /\
     User.id user = user_id /\
     (User.role user = RoleEmployer ->
      exists c, User.company user = Some c /\ c <> "") /\
     users (db_after r) = users db ++ [user] /\
     jobs (db_after r) = jobs db /\
     applications (db_after r) = applications db /\
     sent r = [send_welcome_email (User.email user) (User.first_name user)]) /\
  (status_code (response r) <> 201 -> db_after r = db /\ sent r = []).
Proof.
  intros r. split.
  - intros H.
    destruct (register_created _ _ _ _ H)
      as (data & user & rolev & pw & Hd & Hr & Hn & _ & _ & _ & _ & Hid & Hc & Hres).
    fold r in Hres. rewrite Hres. simpl.
    destruct (role_named_inv _ _ Hn) as [-> Hna].
    exists data, user. repeat split; auto.
  - apply register_rejected.
Qed.

(** X3: who has registered can log in.  After a registration answered
    201, a login with the e-mail and the password of the registration is
    answered 200 with the token of the new user's key and writes nothing,
    provided the credential service verifies the password against the
    digest it made of it. *)
Theorem register_then_login db now user_id kv email password kv' :
  let r := register generate_password_hash create_access_token isoformat
             db now user_id (Some (JObj kv)) in
  status_code (response r) = 201 ->
  assoc "email" kv = Some email -> assoc "password" kv = Some password ->
  (forall digest, generate_password_hash password = Ret digest ->
                  check_password_hash digest password = Ret true) ->
  assoc "email" kv' = Some email -> assoc "password" kv' = Some password ->
  exists user,
    In user (users (db_after r)) /\ User.id user = user_id /\
    login check_password_hash create_access_token isoformat (db_after r)
      (Some (JObj kv'))
    = mkResult (db_after r) []
        (mkResponse 200
           (JObj [("message", JStr "Login successful");
                  ("token", JStr (create_access_token user_id));
                  ("user", User_to_dict isoformat user)])).
Proof.
  intros r H He Hp Hcheck He' Hp'.
  destruct (register_created _ _ _ _ H)
    as (data & user & rolev & pw & Hd & _ & _ & Hse & Hnone & Hsp & Hgen
        & Hid & _ & Hres).
  fold r in Hres. inversion Hd; subst data. clear Hd.
  pose proof (subscript_dict_get _ _ _ Hse) as Hge.
  pose proof (subscript_dict_get _ _ _ Hsp) as Hgp.
  simpl in Hse, Hsp. rewrite He in Hse. rewrite Hp in Hsp.
  inversion Hse; subst email. inversion Hsp; subst pw. clear Hse Hsp.
  assert (Htruthy : truthy (JStr (User.email user)) = true /\
                    truthy password = true).
  { unfold r, register, handle, get_json in H. unfold bind at 1 in H.
    unfold bind at 1 in H. simpl in H. unfold bind in H.
    unfold dict_get, dict_get_default in H. rewrite He, Hp in H.
    destruct (truthy (JStr (User.email user))); [|discriminate H].
    destruct (truthy password); [|discriminate H]. now split. }
  destruct Htruthy as [Te Tp].
  exists user. rewrite Hres. simpl. split; [|split; [exact Hid|]].
  - apply in_or_app. right. now left.
  - unfold login, handle, bind, get_json, dict_get, dict_get_default.
    rewrite He', Hp', Te, Tp.
    assert (Hfind : User_by_email
                      (mkDB (users db ++ [user]) (jobs db) (applications db)
                         (next_job_id db) (next_application_id db))
                      (JStr (User.email user)) = Some user).
    { unfold User_by_email in *. simpl.
      apply find_app_none; [exact Hnone|apply String.eqb_refl]. }
    rewrite Hfind, (Hcheck _ Hgen), Hid. reflexivity.
Qed.

(* --------------------------------------------------------------- *)
(** *** update_profile *)

Lemma same_key_same_row {A : Type} (key : A -> Z) (l : list A) (x y : A) :
  NoDup (map key l) -> In x l -> In y l -> key x = key y -> x = y.
Proof.
  induction l as [|z l IH]; simpl; intros Hnd Hx Hy E; [destruct Hx|].
  inversion Hnd as [|? ? Hz Hnd']; subst.
  destruct Hx as [->|Hx], Hy as [->|Hy]; auto.
  - exfalso. apply Hz. rewrite E. now apply in_map.
  - exfalso. apply Hz. rewrite <- E. now apply in_map.
Qed.

(** Writing a row back under its key changes what [f] reads of the table
    only through that row. *)
Lemma map_replace_row {A B : Type} (key : A -> Z) (f : A -> B) (l : list A)
  (old new : A) :
  NoDup (map key l) -> In old l -> key new = key old -> f new = f old ->
  map f (map (fun r => if key r =? key new then new else r) l) = map f l.
Proof.
  intros Hnd Hold Hk Hf. rewrite map_map. apply map_ext_in. intros r Hr.
  destruct (key r =? key new) eqn:E; [|reflexivity].
  apply Z.eqb_eq in E. rewrite Hk in E.
  now rewrite (same_key_same_row key l r old Hnd Hr Hold E).
Qed.

(** What [update_profile] writes, if anything. *)
Lemma update_profile_result db now user_id request_json :
  let r := update_profile isoformat db now user_id request_json in
  db_after r = db \/
  exists user user',
    User_get db user_id = Some user /\
    db_after r = update_user_row db user' /\
    account user' = account user /\
    User.password_hash user' = User.password_hash user /\
    User.created_at user' = User.created_at user /\
    (User.role user <> RoleEmployer -> User.company user' = User.company user) /\
    status_code (response r) = 200.
Proof.
  unfold update_profile, handle.
  destruct (User_get db user_id) as [user|] eqn:Hu; [|now left].
  repeat (try unfold bind; break_goal; simpl); try (now left);
    right; eexists _, _; (split; [reflexivity|]); (split; [reflexivity|]);
    unfold touch_user;
    match goal with
    | |- context [User_same_columns ?a ?b] => destruct (User_same_columns a b)
    end; simpl; repeat split; try reflexivity;
    try (intros Hrole;
         try match goal with
             | E : _ && Role_eqb (User.role user) RoleEmployer = true |- _ =>
                 apply andb_true_iff in E; destruct E as [_ E];
                 apply Role_eqb_eq in E; contradiction
             end; reflexivity).
Qed.

(** X4: a profile update changes names and company only.  Whatever the
    request, [update_profile] keeps the key, e-mail, role, password digest
    and creation time of every user, touches no row but the caller's, no
    job and no application; and the company of a caller who is not an
    employer stays as it was. *)
Theorem update_profile_keeps_accounts db now user_id request_json :
  NoDup (map User.id (users db)) ->
  let db' := db_after (update_profile isoformat db now user_id request_json) in
  map account (users db') = map account (users db) /\
  map User.password_hash (users db') = map User.password_hash (users db) /\
  map User.created_at (users db') = map User.created_at (users db) /\
  jobs db' = jobs db /\ applications db' = applications db /\
  (forall u, In u (users db) -> User.id u <> user_id -> In u (users db')) /\
  (forall u u',
      User_get db user_id = Some u -> User.role u <> RoleEmployer ->
      User_get db' user_id = Some u' -> User.company u' = User.company u).
Proof.
  intros Hnd db'.
  destruct (update_profile_result db now user_id request_json)
    as [E | (user & user' & Hu & E & Ha & Hp & Hc & Hco & _)];
    fold db' in E; rewrite E.
  - repeat split; auto. intros u u' H1 _ H2. congruence.
  - pose proof (User_get_In _ _ _ Hu) as Hin.
    pose proof (User_get_id _ _ _ Hu) as Hid.
    assert (Hk : User.id user' = User.id user) by (now inversion Ha).
    unfold update_user_row. simpl.
    repeat split.
    + now apply map_replace_row with (old := user).
    + now apply map_replace_row with (old := user).
    + now apply map_replace_row with (old := user).
    + intros u Hu' Hne. apply in_map_iff. exists u. split; [|exact Hu'].
      destruct (User.id u =? User.id user') eqn:Eq; [|reflexivity].
      apply Z.eqb_eq in Eq. congruence.
    + intros u u' H1 Hr H2. rewrite Hu in H1. inversion H1; subst u.
      unfold User_get in H2. simpl in H2. apply find_some in H2.
      destruct H2 as [H2 Hkey]. apply Z.eqb_eq in Hkey.
      apply in_map_iff in H2. destruct H2 as (r0 & Hr0 & _).
      destruct (User.id r0 =? User.id user') eqn:Eq.
      * subst u'. now apply Hco.
      * subst u'. apply Z.eqb_neq in Eq. congruence.
Qed.

(* --------------------------------------------------------------- *)
(** *** delete_job *)

(** What a deletion has passed and written. *)
Lemma delete_job_result db user_id job_id :
  let r := delete_job db user_id job_id in
  (status_code (response r) = 200 /\
   exists user job,
     User_get db user_id = Some user /\ User.role user = RoleEmployer /\
     Job_get db job_id = Some job /\ Job.employer_id job = user_id /\
     db_after r = delete_job_row db job_id) \/
  (status_code (response r) <> 200 /\ db_after r = db).
Proof.
  unfold delete_job, handle.
  destruct (User_get db user_id) as [user|] eqn:Hu;
    [|right; split; [discriminate|reflexivity]].
  destruct (Role_eqb (User.role user) RoleEmployer) eqn:Hr; simpl;
    [|right; split; [discriminate|reflexivity]].
  destruct (Job_get db job_id) as [job|] eqn:Hj;
    [|right; split; [discriminate|reflexivity]].
  destruct (Job.employer_id job =? user_id) eqn:Ho; simpl;
    [|right; split; [discriminate|reflexivity]].
  left. split; [reflexivity|]. exists user, job.
  rewrite (Job_get_id _ _ _ Hj). repeat split.
  - now apply Role_eqb_eq.
  - now apply Z.eqb_eq.
Qed.

(** X5: deleting a job removes it with all its applications and nothing
    else.  After a deletion answered 200 the job is gone, every application
    to it is gone, and every other job, every application to another job
    and every user is stored as before. *)
Theorem delete_job_cascades db user_id job_id :
  let r := delete_job db user_id job_id in
  status_code (response r) = 200 ->
  Job_get (db_after r) job_id = None /\
  (forall j, In j (jobs (db_after r)) <->
             In j (jobs db) /\ Job.id j <> job_id) /\
  (forall a, In a (applications (db_after r)) <->
             In a (applications db) /\ Application.job_id a <> job_id) /\
  users (db_after r) = users db.
Proof.
  intros r H.
  destruct (delete_job_result db user_id job_id)
    as [(_ & _ & _ & _ & _ & _ & _ & E) | (Hne & _)]; [|contradiction].
  fold r in E. rewrite E. unfold delete_job_row, Job_get. simpl.
  split; [|split; [|split]].
  - apply find_all_false. intros j Hj. apply filter_In in Hj.
    destruct Hj as [_ Hj]. now apply negb_true_iff in Hj.
  - intros j. rewrite filter_In, negb_true_iff, Z.eqb_neq. reflexivity.
  - intros a. rewrite filter_In, negb_true_iff, Z.eqb_neq. reflexivity.
  - reflexivity.
Qed.

(** X6: only the employer a job belongs to deletes it.  [delete_job]
    answers 200 only to a caller who is an employer and whose key is the
    job's [employer_id]; every other answer (403 for another role or another
    employer's job, 404 for no such job) leaves the database as it was. *)
Theorem delete_job_owner_only db user_id job_id :
  let r := delete_job db user_id job_id in
  (status_code (response r) = 200 ->
   exists user job,
     User_get db user_id = Some user /\ User.role user = RoleEmployer /\
     Job_get db job_id = Some job /\ owns user job) /\
  (status_code (response r) <> 200 -> db_after r = db) /\
  (forall user job,
      User_get db user_id = Some user -> Job_get db job_id = Some job ->
      User.role user = RoleEmployer -> Job.employer_id job <> user_id ->
      r = reply db 403 "You can only delete your own jobs").
Proof.
  intros r. split; [|split].
  - intros H.
    destruct (delete_job_result db user_id job_id)
      as [(_ & user & job & Hu & Hr & Hj & Ho & _) | (Hne & _)];
      [|contradiction].
    exists user, job. repeat split; auto.
    unfold owns. rewrite Ho. symmetry. now apply User_get_id in Hu.
  - intros H.
    destruct (delete_job_result db user_id job_id)
      as [(H200 & _) | (_ & E)]; [contradiction|exact E].
  - intros user job Hu Hj Hr Hne. subst r. unfold delete_job, handle.
    rewrite Hu, Hj, Hr. simpl.
    apply Z.eqb_neq in Hne. now rewrite Hne.
Qed.

(* --------------------------------------------------------------- *)
(** *** update_job and create_job *)

Lemma updatable_fields_keep_origin (o : Z * string * Z * datetime) :
  Forall (fun f : string * (Job.t -> json -> outcome Job.t) =>
            forall j v j', snd f j v = Ret j' ->
            job_origin j = o -> job_origin j' = o)
    updatable_fields.
Proof.
  unfold updatable_fields.
  repeat (apply Forall_cons;
          [ simpl; unfold lift, bind; intros j v j' H HP; simpl in H;
            try match type of H with
                | context [match ?c with _ => _ end] =>
                    destruct c; try discriminate
                end;
            injection H as <-; exact HP
          | ]).
  apply Forall_nil.
Qed.

Lemma touch_origin now old new : job_origin (touch now old new) = job_origin new.
Proof. unfold touch. now destruct (Job_same_columns old new). Qed.

Lemma reset_status_origin job : job_origin (reset_status job) = job_origin job.
Proof. unfold reset_status. now destruct (Job.status job). Qed.

(** What [update_job] writes, if anything. *)
Lemma update_job_result db now user_id job_id request_json :
  let r := update_job isoformat db now user_id job_id request_json in
  (status_code (response r) <> 200 /\ db_after r = db) \/
  exists user job job',
    User_get db user_id = Some user /\ User.role user = RoleEmployer /\
    Job_get db job_id = Some job /\ Job.employer_id job = user_id /\
    db_after r = update_job_row db job' /\
    job_origin job' = job_origin job /\
    status_code (response r) = 200.
Proof.
  unfold update_job, handle.
  destruct (User_get db user_id) as [user|] eqn:Hu;
    [|left; split; [discriminate|reflexivity]].
  destruct (negb (Role_eqb (User.role user) RoleEmployer)) eqn:Hr;
    [left; split; [discriminate|reflexivity]|].
  destruct (Job_get db job_id) as [job|] eqn:Hj;
    [|left; split; [discriminate|reflexivity]].
  destruct (negb (Job.employer_id job =? user_id)) eqn:Ho;
    [left; split; [discriminate|reflexivity]|].
  unfold bind, get_json.
  destruct request_json as [data|];
    [|left; split; [discriminate|reflexivity]].
  destruct (set_fields data updatable_fields job) as [edited|] eqn:Hset;
    [|left; split; [discriminate|reflexivity]].
  apply negb_false_iff in Hr, Ho.
  right. exists user, job. eexists.
  split; [reflexivity|]. split; [now apply Role_eqb_eq|].
  split; [reflexivity|]. split; [now apply Z.eqb_eq|].
  split; [reflexivity|]. split; [|reflexivity].
  rewrite touch_origin, reset_status_origin.
  exact (set_fields_keeps _ _ _ (updatable_fields_keep_origin (job_origin job))
           _ _ Hset eq_refl).
Qed.

(** X7: an edit is the owner's, and it cannot move a job.  [update_job]
    writes only for a caller who is an employer and owns the job; whatever
    the request, the key, company, owner and creation time of every job are
    as before, no job is added or removed, every job with another key is
    stored unchanged, and users and applications are untouched. *)
Theorem update_job_frame db now user_id job_id request_json :
  NoDup (map Job.id (jobs db)) ->
  let r := update_job isoformat db now user_id job_id request_json in
  (db_after r <> db ->
   exists user job,
     User_get db user_id = Some user /\ User.role user = RoleEmployer /\
     Job_get db job_id = Some job /\ owns user job) /\
  map job_origin (jobs (db_after r)) = map job_origin (jobs db) /\
  (forall j, In j (jobs db) -> Job.id j <> job_id -> In j (jobs (db_after r))) /\
  users (db_after r) = users db /\
  applications (db_after r) = applications db.
Proof.
  intros Hnd r.
  destruct (update_job_result db now user_id job_id request_json)
    as [(_ & E) | (user & job & job' & Hu & Hr & Hj & Ho & E & Hor & _)];
    fold r in E; rewrite E.
  - repeat split; auto. intros H. now contradiction H.
  - assert (Hk : Job.id job' = Job.id job) by (now inversion Hor).
    repeat split.
    + intros _. exists user, job. repeat split; auto.
      unfold owns. rewrite Ho. symmetry. now apply User_get_id in Hu.
    + unfold update_job_row. simpl.
      apply map_replace_row with (old := job); auto.
      now apply Job_get_In in Hj.
    + intros j Hin Hne. unfold update_job_row. simpl.
      apply in_map_iff. exists j. split; [|exact Hin].
      destruct (Job.id j =? Job.id job') eqn:Eq; [|reflexivity].
      apply Z.eqb_eq in Eq. apply Job_get_id in Hj. congruence.
Qed.

(** What a creation that is not answered 201 leaves behind. *)
Lemma create_job_rejected db now user_id request_json :
  let r := create_job isoformat db now user_id request_json in
  status_code (response r) <> 201 -> db_after r = db /\ sent r = [].
Proof.
  unfold create_job, handle.
  repeat (try unfold bind; break_goal; simpl); intros H;
    try (split; reflexivity).
  now contradiction H.
Qed.


(* --------------------------------------------------------------- *)
(** *** The admin's routes *)

(** X9: the admin's routes are the admin's.  For a caller who is not a
    stored user with role [admin], approving, rejecting, listing the
    pending jobs, reading the statistics and listing the users are all
    answered 403 "Admin access required", whatever else the request holds,
    and nothing is written or sent. *)
Theorem admin_routes_require_admin db now user_id job_id request_json args :
  (forall user, User_get db user_id = Some user -> User.role user <> RoleAdmin) ->
  approve_job isoformat format_value db now user_id job_id
    = reply db 403 "Admin access required" /\
  reject_job isoformat format_value db now user_id job_id request_json
    = reply db 403 "Admin access required" /\
  get_pending_jobs isoformat db user_id
    = reply db 403 "Admin access required" /\
  get_admin_stats db now user_id
    = reply db 403 "Admin access required" /\
  get_all_users isoformat db user_id args
    = reply db 403 "Admin access required".
Proof.
  intros H.
  assert (Ha : require_admin db user_id
               = Some (reply db 403 "Admin access required")).
  { unfold require_admin.
    destruct (User_get db user_id) as [user|]; [|reflexivity].
    specialize (H user eq_refl). apply Role_eqb_neq in H. now rewrite H. }
  unfold approve_job, reject_job, get_pending_jobs, get_admin_stats,
    get_all_users, handle.
  rewrite Ha. repeat split.
Qed.

End MoreProperties.

(* ================================================================= *)
(** ** Integrity of the database along every sequence of requests *)

Lemma User_get_some_iff db user_id :
  User_get db user_id <> None <-> In user_id (map User.id (users db)).
Proof.
  unfold User_get. induction (users db) as [|u l IH]; simpl.
  - split; [congruence|tauto].
  - destruct (User.id u =? user_id) eqn:E.
    + apply Z.eqb_eq in E. split; [now left|discriminate].
    + apply Z.eqb_neq in E. rewrite IH. split; [now right|].
      intros [H|H]; [contradiction|exact H].
Qed.

Lemma Job_get_some_iff db job_id :
  Job_get db job_id <> None <-> In job_id (map Job.id (jobs db)).
Proof.
  unfold Job_get. induction (jobs db) as [|u l IH]; simpl.
  - split; [congruence|tauto].
  - destruct (Job.id u =? job_id) eqn:E.
    + apply Z.eqb_eq in E. split; [now left|discriminate].
    + apply Z.eqb_neq in E. rewrite IH. split; [now right|].
      intros [H|H]; [contradiction|exact H].
Qed.

(** Writing a row back under its key keeps the keys of the table. *)
Lemma map_replace_keys {A : Type} (key : A -> Z) (new : A) (l : list A) :
  map key (map (fun r => if key r =? key new then new else r) l) = map key l.
Proof.
  rewrite map_map. apply map_ext. intros r.
  destruct (key r =? key new) eqn:E; [|reflexivity].
  apply Z.eqb_eq in E. now symmetry.
Qed.

(** A DELETE keeps the keys of the rows it leaves distinct. *)
Lemma filter_keeps_distinct {K A : Type} (key : A -> K) (keep : A -> bool) :
  forall rows, NoDup (map key rows) -> NoDup (map key (filter keep rows)).
Proof.
  intros rows. induction rows as [|x l IH]; simpl; intros H; [constructor|].
  inversion H as [|? ? Hx Hl]; subst.
  destruct (keep x); simpl; [|now apply IH].
  constructor; [|now apply IH].
  intros Hin. apply Hx. apply in_map_iff in Hin.
  destruct Hin as (y & Hy & Hin). apply filter_In in Hin.
  apply in_map_iff. exists y. tauto.
Qed.

Lemma Forall_replace {A : Type} (P : A -> Prop) (key : A -> Z) (new : A)
  (l : list A) :
  Forall P l -> P new ->
  Forall P (map (fun r => if key r =? key new then new else r) l).
Proof.
  intros Hl Hn. apply Forall_forall. intros x Hx. apply in_map_iff in Hx.
  destruct Hx as (r & Hr & Hin).
  destruct (key r =? key new); subst x; [exact Hn|].
  now apply (proj1 (Forall_forall P l) Hl).
Qed.

Lemma Forall_filter {A : Type} (P : A -> Prop) (p : A -> bool) (l : list A) :
  Forall P l -> Forall P (filter p l).
Proof.
  intros Hl. apply Forall_forall. intros x Hx. apply filter_In in Hx.
  now apply (proj1 (Forall_forall P l) Hl).
Qed.

Lemma Application_get_In db application_id a :
  Application_get db application_id = Some a -> In a (applications db).
Proof. intros H. now apply find_some in H. Qed.

Lemma Application_get_id db application_id a :
  Application_get db application_id = Some a -> Application.id a = application_id.
Proof. intros H. apply find_some in H. now apply Z.eqb_eq. Qed.

(** A change keeps the keys distinct and below the counters. *)
Lemma change_keeps_keys db db' : change db db' -> keys_ok db -> keys_ok db'.
Proof.
  intros Hc (Hj & Hjn & Ha & Han).
  destruct Hc as [|users'|j Hid|j j' Hget Ho|job_id|a db' Hins Hid Hjob Huser
                  |a a' Hget Ho]; unfold keys_ok; simpl.
  - tauto.
  - tauto.
  - repeat split; auto.
    + rewrite map_app. simpl. apply NoDup_snoc; [exact Hj|].
      intros Hin. apply in_map_iff in Hin. destruct Hin as (x & Hx & Hin).
      pose proof (proj1 (Forall_forall _ _) Hjn x Hin) as Hlt. simpl in Hlt. lia.
    + apply Forall_app. split.
      * eapply Forall_impl; [|exact Hjn]. simpl. intros; lia.
      * constructor; [lia|constructor].
  - rewrite map_replace_keys. repeat split; auto.
    apply Forall_replace; [exact Hjn|].
    apply Job_get_In in Hget as Hin.
    pose proof (proj1 (Forall_forall _ _) Hjn j Hin) as Hlt. simpl in Hlt.
    inversion Ho. lia.
  - repeat split.
    + now apply filter_keeps_distinct.
    + now apply Forall_filter.
    + now apply filter_keeps_distinct.
    + now apply Forall_filter.
  - unfold insert_application in Hins.
    destruct (Application_first db (Application.user_id a) (Application.job_id a));
      [discriminate|].
    inversion Hins; subst db'. simpl. repeat split; auto.
    + rewrite map_app. simpl. apply NoDup_snoc; [exact Ha|].
      intros Hin. apply in_map_iff in Hin. destruct Hin as (x & Hx & Hin).
      pose proof (proj1 (Forall_forall _ _) Han x Hin) as Hlt. simpl in Hlt. lia.
    + apply Forall_app. split.
      * eapply Forall_impl; [|exact Han]. simpl. intros; lia.
      * constructor; [lia|constructor].
  - rewrite map_replace_keys. repeat split; auto.
    apply Forall_replace; [exact Han|].
    apply Application_get_In in Hget as Hin.
    pose proof (proj1 (Forall_forall _ _) Han a Hin) as Hlt. simpl in Hlt.
    apply Application_get_id in Hget. lia.
Qed.


(** A change keeps every application attached to a stored job and user. *)
Lemma change_keeps_references db db' :
  change db db' -> references_ok db -> references_ok db'.
Proof.
  intros Hc Hr. unfold references_ok in *.
  destruct Hc as [|users'|j Hid|j j' Hget Ho|job_id|a db' Hins Hid Hjob Huser
                  |a a' Hget Ho]; simpl.
  - exact Hr.
  - eapply Forall_impl; [|exact Hr]. simpl. intros a [Hj Hu]. split; [exact Hj|].
    apply User_get_some_iff. simpl. apply H. now apply User_get_some_iff.
  - eapply Forall_impl; [|exact Hr]. simpl. intros a [Hj Hu]. split; [|exact Hu].
    apply Job_get_some_iff. simpl. rewrite map_app. apply in_or_app. left.
    now apply Job_get_some_iff.
  - eapply Forall_impl; [|exact Hr]. simpl. intros a [Hj Hu]. split; [|exact Hu].
    apply Job_get_some_iff. simpl. rewrite map_replace_keys.
    now apply Job_get_some_iff.
  - apply Forall_forall. intros a Hin. apply filter_In in Hin.
    destruct Hin as [Hin Hne]. apply negb_true_iff, Z.eqb_neq in Hne.
    destruct (proj1 (Forall_forall _ _) Hr a Hin) as [Hj Hu].
    split; [|exact Hu].
    apply Job_get_some_iff. simpl. apply Job_get_some_iff in Hj.
    apply in_map_iff in Hj. destruct Hj as (j & Hj & Hjin).
    apply in_map_iff. exists j. split; [exact Hj|].
    apply filter_In. split; [exact Hjin|].
    apply negb_true_iff, Z.eqb_neq. congruence.
  - unfold insert_application in Hins.
    destruct (Application_first db (Application.user_id a) (Application.job_id a));
      [discriminate|].
    inversion Hins; subst db'. simpl. apply Forall_app. split.
    + exact Hr.
    + constructor; [|constructor]. now split.
  - apply Forall_replace; [exact Hr|].
    apply Application_get_In in Hget.
    pose proof (proj1 (Forall_forall _ _) Hr a Hget) as Ha. simpl in Ha.
    assert (Hsame : Application.user_id a' = Application.user_id a /\
                    Application.job_id a' = Application.job_id a)
      by (unfold application_origin in Ho; split; congruence).
    destruct Hsame as [-> ->]. exact Ha.
Qed.

(** A change keeps the pairs (seeker, job) of the applications distinct,
    given distinct keys. *)
Lemma change_keeps_unique db db' :
  change db db' -> keys_ok db -> unique_applications db ->
  unique_applications db'.
Proof.
  intros Hc (_ & _ & Hk & _) Hu. unfold unique_applications in *.
  destruct Hc as [|users'|j Hid|j j' Hget Ho|job_id|a db' Hins Hid Hjob Huser
                  |a a' Hget Ho]; simpl; auto.
  - now apply filter_keeps_distinct.
  - unfold insert_application in Hins.
    destruct (Application_first db (Application.user_id a) (Application.job_id a))
      eqn:Hn; [discriminate|].
    inversion Hins; subst db'. simpl. rewrite map_app. simpl.
    apply NoDup_snoc; [exact Hu|].
    intros Hin. apply in_map_iff in Hin. destruct Hin as (b & Hb & Hbin).
    pose proof (find_none_forall _ _ Hn b Hbin) as Hf. simpl in Hf.
    unfold pair_of in Hb. inversion Hb as [[Hb1 Hb2]].
    rewrite Hb1, Hb2, !Z.eqb_refl in Hf. discriminate.
  - rewrite (map_replace_row Application.id pair_of (applications db) a a');
      auto.
    + now apply Application_get_In in Hget.
    + apply Application_get_id in Hget. now symmetry.
    + unfold pair_of, application_origin in *. congruence.
Qed.

Lemma change_counters db db' :
  change db db' ->
  next_job_id db <= next_job_id db' /\
  next_application_id db <= next_application_id db'.
Proof.
  intros Hc.
  destruct Hc as [|users'|j Hid|j j' Hget Ho|job_id|a db' Hins Hid Hjob Huser
                  |a a' Hget Ho]; simpl; try lia.
  unfold insert_application in Hins.
  destruct (Application_first db (Application.user_id a) (Application.job_id a));
    [discriminate|].
  inversion Hins; subst db'. simpl. lia.
Qed.

Lemma change_keeps_origins db db' :
  change db db' ->
  (forall j', In j' (jobs db') -> Job.id j' < next_job_id db ->
              exists j, In j (jobs db) /\ job_origin j = job_origin j') /\
  (forall a', In a' (applications db') ->
              Application.id a' < next_application_id db ->
              exists a, In a (applications db) /\
                        application_origin a = application_origin a').
Proof.
  intros Hc.
  destruct Hc as [|users'|j Hid|j j' Hget Ho|job_id|a db' Hins Hid Hjob Huser
                  |a a' Hget Ho]; simpl; split;
    try (intros x Hx _; exists x; split; [exact Hx|reflexivity]).
  - intros x Hx Hlt. apply in_app_or in Hx. destruct Hx as [Hx|[<-|[]]].
    + exists x. now split.
    + lia.
  - intros x Hx _. apply in_map_iff in Hx. destruct Hx as (r & Hr & Hin).
    destruct (Job.id r =? Job.id j'); subst x.
    + exists j. split; [now apply Job_get_In in Hget|now symmetry].
    + exists r. now split.
  - intros x Hx _. apply filter_In in Hx. exists x. tauto.
  - intros x Hx _. apply filter_In in Hx. exists x. tauto.
  - unfold insert_application in Hins.
    destruct (Application_first db (Application.user_id a) (Application.job_id a));
      [discriminate|].
    inversion Hins; subst db'. simpl. intros x Hx _. exists x. now split.
  - unfold insert_application in Hins.
    destruct (Application_first db (Application.user_id a) (Application.job_id a));
      [discriminate|].
    inversion Hins; subst db'. simpl.
    intros x Hx Hlt. apply in_app_or in Hx. destruct Hx as [Hx|[<-|[]]].
    + exists x. now split.
    + lia.
  - intros x Hx _. apply in_map_iff in Hx. destruct Hx as (r & Hr & Hin).
    destruct (Application.id r =? Application.id a'); subst x.
    + exists a. split; [now apply Application_get_In in Hget|now symmetry].
    + exists r. now split.
Qed.



Lemma Application_get_update_application_row db application_id old new :
  Application_get db application_id = Some old ->
  Application.id new = application_id ->
  Application_get (update_application_row db new) application_id = Some new.
Proof.
  unfold Application_get, update_application_row. simpl. intros H Hid.
  subst application_id.
  induction (applications db) as [|r l IH]; simpl in *; [discriminate|].
  destruct (Application.id r =? Application.id new) eqn:E.
  - simpl. now rewrite Z.eqb_refl.
  - simpl. rewrite E. now apply IH.
Qed.

Lemma count_cons {A : Type} (f : A -> bool) (x : A) (l : list A) :
  count f (x :: l) = (if f x then 1 else 0) + count f l.
Proof.
  unfold count. simpl. destruct (f x); simpl List.length; lia.
Qed.

Lemma count_all {A : Type} (l : list A) :
  count (fun _ => true) l = Z.of_nat (List.length l).
Proof.
  unfold count. f_equal. f_equal. induction l as [|x l IH]; simpl; congruence.
Qed.

(** The counts of a report by value add up to the counts of its values. *)
Lemma sum_counts_by {A K : Type} (values : list K) (name : K -> string)
  (has : K -> A -> bool) (rows : list A) :
  sum_counts (counts_by values name has rows)
  = fold_right (fun k acc => count (has k) rows + acc) 0 values.
Proof.
  unfold counts_by, sum_counts.
  induction values as [|k values IH]; simpl; [reflexivity|].
  destruct (0 <? count (has k) rows) eqn:E; simpl; rewrite IH.
  - reflexivity.
  - apply Z.ltb_ge in E. unfold count in *. lia.
Qed.

Lemma Forall2_map_r {A B : Type} (P : A -> B -> Prop) (f : A -> B) (l : list A) :
  (forall x, In x l -> P x (f x)) -> Forall2 P l (map f l).
Proof.
  induction l as [|x l IH]; simpl; intros H; constructor.
  - apply H. now left.
  - apply IH. intros y Hy. apply H. now right.
Qed.


Section Integrity.

Local Set Default Proof Using "Type".

Variable generate_password_hash : json -> outcome string.
Variable check_password_hash : string -> json -> outcome bool.
Variable create_access_token : Z -> string.
Variable isoformat : datetime -> string.
Variable format_value : json -> string.

(* --------------------------------------------------------------- *)
(** *** What each handler writes *)

Lemma create_job_change db now user_id request_json :
  change db (db_after (create_job isoformat db now user_id request_json)).
Proof.
  destruct (Z.eq_dec
              (status_code
                 (response (create_job isoformat db now user_id request_json)))
              201) as [E|E].
  - destruct (create_job_created isoformat _ _ _ _ E) as (job & -> & _ & _ & Hid & _).
    now constructor.
  - rewrite (proj1 (create_job_rejected isoformat _ _ _ _ E)). constructor.
Qed.

Lemma update_job_change db now user_id job_id request_json :
  change db (db_after (update_job isoformat db now user_id job_id request_json)).
Proof.
  destruct (update_job_result isoformat db now user_id job_id request_json)
    as [(_ & ->) | (user & job & job' & _ & _ & Hj & _ & -> & Ho & _)].
  - constructor.
  - apply change_job_updated with (j := job); [|exact Ho].
    replace (Job.id job') with job_id; [exact Hj|].
    apply Job_get_id in Hj. unfold job_origin in Ho. congruence.
Qed.

Lemma moderation_change db now job_id job status :
  Job_get db job_id = Some job ->
  change db (update_job_row db (touch now job (Job.set_status job status))).
Proof.
  intros Hj. apply change_job_updated with (j := job).
  - rewrite touch_id. simpl. now rewrite (Job_get_id _ _ _ Hj).
  - now rewrite touch_origin.
Qed.

Lemma approve_job_change db now user_id job_id :
  change db (db_after (approve_job isoformat format_value db now user_id job_id)).
Proof.
  unfold approve_job, handle, require_admin.
  destruct (User_get db user_id) as [user|]; [|constructor].
  destruct (Role_eqb (User.role user) RoleAdmin); [|constructor].
  destruct (Job_get db job_id) as [job|] eqn:Hj; [|constructor].
  destruct (negb (JobStatus_eqb (Job.status job) Pending)); [constructor|].
  simpl. eapply moderation_change; exact Hj.
Qed.

Lemma reject_job_change db now user_id job_id request_json :
  change db
    (db_after (reject_job isoformat format_value db now user_id job_id
                 request_json)).
Proof.
  unfold reject_job, handle, require_admin.
  destruct (User_get db user_id) as [user|]; [|constructor].
  destruct (Role_eqb (User.role user) RoleAdmin); [|constructor].
  destruct (Job_get db job_id) as [job|] eqn:Hj; [|constructor].
  destruct (negb (JobStatus_eqb (Job.status job) Pending)); [constructor|].
  unfold bind. destruct (get_json request_json) as [data|]; [|constructor].
  destruct (dict_get_default data "reason" (JStr "No reason provided"));
    [|constructor].
  simpl. eapply moderation_change; exact Hj.
Qed.

Lemma apply_to_job_change db now user_id job_id request_json :
  change db (db_after (apply_to_job isoformat db now user_id job_id request_json)).
Proof.
  unfold apply_to_job, handle.
  destruct (User_get db user_id) as [user|] eqn:Hu; [|constructor].
  destruct (negb (Role_eqb (User.role user) RoleUser)); [constructor|].
  destruct (Job_get db job_id) as [job|] eqn:Hj; [|constructor].
  destruct (negb (JobStatus_eqb (Job.status job) Approved)); [constructor|].
  destruct (Application_first db user_id job_id) eqn:Hn; [constructor|].
  unfold bind. destruct (get_json request_json) as [data|]; [|constructor].
  destruct (dict_get data "coverLetter") as [cover_letter|]; [|constructor].
  destruct (dict_get data "resume") as [resume|]; [|constructor].
  destruct (negb (truthy cover_letter) || negb (truthy resume)); [constructor|].
  destruct (text_col cover_letter) as [c|]; [|constructor].
  destruct (string_col 500 resume) as [u|]; [|constructor].
  destruct (insert_application db
              (Application.mk (next_application_id db) c u AppPending user_id
                 job_id now now)) as [db'|] eqn:Hins; [|constructor].
  simpl. eapply change_application_inserted; [exact Hins|reflexivity| |];
    simpl; congruence.
Qed.

Lemma register_change db now user_id request_json :
  change db
    (db_after (register generate_password_hash create_access_token isoformat
                 db now user_id request_json)).
Proof.
  destruct (Z.eq_dec
              (status_code
                 (response (register generate_password_hash create_access_token
                              isoformat db now user_id request_json)))
              201) as [E|E].
  - destruct (register_created generate_password_hash create_access_token
                isoformat _ _ _ _ E)
      as (data & user & rolev & pw & _ & _ & _ & _ & _ & _ & _ & _ & _ & ->).
    simpl. apply change_users. rewrite map_app. now apply incl_appl, incl_refl.
  - rewrite (proj1 (register_rejected generate_password_hash
                      create_access_token isoformat _ _ _ _ E)).
    constructor.
Qed.

Lemma update_profile_change db now user_id request_json :
  change db (db_after (update_profile isoformat db now user_id request_json)).
Proof.
  destruct (update_profile_result isoformat db now user_id request_json)
    as [-> | (user & user' & _ & -> & _)].
  - constructor.
  - unfold update_user_row. apply change_users.
    rewrite map_replace_keys. apply incl_refl.
Qed.

Lemma delete_job_change db user_id job_id :
  change db (db_after (delete_job db user_id job_id)).
Proof.
  destruct (delete_job_result db user_id job_id)
    as [(_ & _ & _ & _ & _ & _ & _ & ->) | (_ & ->)]; constructor.
Qed.

Lemma status_named_inv v status :
  status_named v = Some status -> v = JStr (ApplicationStatus_to_string status).
Proof.
  unfold status_named. destruct v; try discriminate.
  destruct (String.eqb s "pending") eqn:E1;
    [apply String.eqb_eq in E1; inversion 1; now subst|].
  destruct (String.eqb s "approved") eqn:E2;
    [apply String.eqb_eq in E2; inversion 1; now subst|].
  destruct (String.eqb s "rejected") eqn:E3;
    [apply String.eqb_eq in E3; inversion 1; now subst|].
  destruct (String.eqb s "interview") eqn:E4;
    [apply String.eqb_eq in E4; inversion 1; now subst|discriminate].
Qed.

(** The row [update_application_status] writes back. *)
Lemma status_change_row now a status :
  let a' :=
    if ApplicationStatus_eqb (Application.status a) status
    then Application_set_status a status
    else Application_set_updated_at (Application_set_status a status) now in
  Application.status a' = status /\
  application_origin a' = application_origin a /\
  (Application.updated_at a' = Application.updated_at a \/
   Application.updated_at a' = now /\
   Application.status a' <> Application.status a).
Proof.
  simpl. destruct (ApplicationStatus_eqb (Application.status a) status) eqn:E;
    simpl; repeat split; auto.
  right. split; [reflexivity|]. intros H. rewrite H in E.
  now destruct (Application.status a).
Qed.

(** What [update_application_status] writes, if anything. *)
Lemma update_application_status_result db now user_id application_id
  request_json :
  let r := update_application_status isoformat db now user_id application_id
             request_json in
  (status_code (response r) <> 200 /\ db_after r = db /\ sent r = []) \/
  exists user a a' data,
    User_get db user_id = Some user /\
    Application_get db application_id = Some a /\
    (User.role user = RoleAdmin \/
     User.role user = RoleEmployer /\
     exists job, Job_get db (Application.job_id a) = Some job /\
                 Job.employer_id job = user_id) /\
    request_json = Some data /\
    dict_get data "status"
    = Ret (JStr (ApplicationStatus_to_string (Application.status a'))) /\
    application_origin a' = application_origin a /\
    (Application.updated_at a' = Application.updated_at a \/
     Application.updated_at a' = now /\
     Application.status a' <> Application.status a) /\
    r = mkResult (update_application_row db a') []
          (mkResponse 200
             (JObj [("message", JStr "Application status updated successfully");
                    ("application",
                     Application_to_dict_with isoformat
                       (update_application_row db a') a' true true)])).
Proof.
  unfold update_application_status, handle.
  destruct (User_get db user_id) as [user|] eqn:Hu;
    [|left; split; [discriminate|split; reflexivity]].
  destruct (Application_get db application_id) as [a|] eqn:Ha;
    [|left; split; [discriminate|split; reflexivity]].
  assert (Hperm :
            (if Role_eqb (User.role user) RoleEmployer
             then owner <- employer_id_of (Job_get db (Application.job_id a)) ;;
                  Ret (negb (owner =? user_id))
             else Ret false) = Ret false ->
            negb (Role_eqb (User.role user) RoleEmployer ||
                  Role_eqb (User.role user) RoleAdmin) = false ->
            User.role user = RoleAdmin \/
            User.role user = RoleEmployer /\
            exists job, Job_get db (Application.job_id a) = Some job /\
                        Job.employer_id job = user_id).
  { intros Hf Hr. destruct (Role_eqb (User.role user) RoleEmployer) eqn:Hemp.
    - right. split; [now apply Role_eqb_eq|].
      destruct (Job_get db (Application.job_id a)) as [job|];
        [|discriminate Hf].
      exists job. split; [reflexivity|]. unfold bind in Hf. simpl in Hf.
      inversion Hf as [Hown]. apply negb_false_iff in Hown.
      now apply Z.eqb_eq.
    - left. simpl in Hr. apply negb_false_iff in Hr. now apply Role_eqb_eq. }
  unfold bind at 1.
  destruct (if Role_eqb (User.role user) RoleEmployer
            then owner <- employer_id_of (Job_get db (Application.job_id a)) ;;
                 Ret (negb (owner =? user_id))
            else Ret false) as [foreign|] eqn:Hf;
    [|left; split; [discriminate|split; reflexivity]].
  destruct foreign; [left; split; [discriminate|split; reflexivity]|].
  destruct (negb (Role_eqb (User.role user) RoleEmployer ||
                  Role_eqb (User.role user) RoleAdmin)) eqn:Hr;
    [left; split; [discriminate|split; reflexivity]|].
  unfold bind.
  destruct (get_json request_json) as [data|] eqn:Hd;
    [|left; split; [discriminate|split; reflexivity]].
  destruct (dict_get data "status") as [v|] eqn:Hv;
    [|left; split; [discriminate|split; reflexivity]].
  destruct (status_named v) as [status|] eqn:Hs;
    [|left; split; [discriminate|split; reflexivity]].
  right.
  destruct (status_change_row now a status) as (Hst & Ho & Hup).
  exists user, a,
    (if ApplicationStatus_eqb (Application.status a) status
     then Application_set_status a status
     else Application_set_updated_at (Application_set_status a status) now),
    data.
  split; [reflexivity|]. split; [reflexivity|].
  split; [now apply Hperm|].
  split; [destruct request_json; [now inversion Hd|discriminate Hd]|].
  split; [rewrite Hst; now rewrite <- (status_named_inv _ _ Hs)|].
  split; [exact Ho|]. split; [exact Hup|reflexivity].
Qed.


(* --------------------------------------------------------------- *)
(** *** The routes that only read *)

Ltac read_only :=
  unfold unchanged, handle;
  repeat (try unfold bind; break_goal; simpl);
  split; reflexivity.

Lemma get_profile_unchanged db user_id :
  unchanged db (get_profile isoformat db user_id).
Proof. unfold get_profile. read_only. Qed.

Lemma get_user_applications_unchanged db user_id :
  unchanged db (get_user_applications isoformat db user_id).
Proof. unfold get_user_applications. read_only. Qed.

Lemma get_job_applications_unchanged db user_id job_id :
  unchanged db (get_job_applications isoformat db user_id job_id).
Proof. unfold get_job_applications. read_only. Qed.

Lemma get_application_unchanged db user_id application_id :
  unchanged db (get_application isoformat db user_id application_id).
Proof. unfold get_application. read_only. Qed.

Lemma get_pending_jobs_unchanged db user_id :
  unchanged db (get_pending_jobs isoformat db user_id).
Proof. unfold get_pending_jobs, require_admin. read_only. Qed.

Lemma get_admin_stats_unchanged db now user_id :
  unchanged db (get_admin_stats db now user_id).
Proof. unfold get_admin_stats, require_admin. read_only. Qed.

Lemma login_unchanged db request_json :
  unchanged db
    (login check_password_hash create_access_token isoformat db request_json).
Proof. unfold login. read_only. Qed.

Lemma get_jobs_unchanged db args : unchanged db (get_jobs isoformat db args).
Proof. unfold get_jobs. read_only. Qed.

Lemma get_job_unchanged db identity job_id :
  unchanged db (get_job isoformat db identity job_id).
Proof. unfold get_job. read_only. Qed.

Lemma get_all_users_unchanged db user_id args :
  unchanged db (get_all_users isoformat db user_id args).
Proof. unfold get_all_users, require_admin. read_only. Qed.

(** X14: the routes that answer a GET, and the login, write nothing and send
    nothing, whatever they answer. *)
Theorem reading_routes_write_nothing db now user_id job_id application_id
  identity args request_json :
  unchanged db
    (login check_password_hash create_access_token isoformat db request_json) /\
  unchanged db (get_profile isoformat db user_id) /\
  unchanged db (get_jobs isoformat db args) /\
  unchanged db (get_job isoformat db identity job_id) /\
  unchanged db (get_user_applications isoformat db user_id) /\
  unchanged db (get_job_applications isoformat db user_id job_id) /\
  unchanged db (get_application isoformat db user_id application_id) /\
  unchanged db (get_pending_jobs isoformat db user_id) /\
  unchanged db (get_admin_stats db now user_id) /\
  unchanged db (get_all_users isoformat db user_id args).
Proof.
  repeat split;
    first [ apply login_unchanged | apply get_profile_unchanged
          | apply get_jobs_unchanged | apply get_job_unchanged
          | apply get_user_applications_unchanged
          | apply get_job_applications_unchanged
          | apply get_application_unchanged | apply get_pending_jobs_unchanged
          | apply get_admin_stats_unchanged | apply get_all_users_unchanged ].
Qed.

(* --------------------------------------------------------------- *)
(** *** Every route *)

Lemma update_application_status_change db now user_id application_id
  request_json :
  change db
    (db_after (update_application_status isoformat db now user_id
                 application_id request_json)).
Proof.
  destruct (update_application_status_result db now user_id application_id
              request_json)
    as [(_ & -> & _) | (user & a & a' & data & _ & Ha & _ & _ & _ & Ho & _ & ->)].
  - constructor.
  - simpl. apply change_application_updated with (a := a); [|exact Ho].
    replace (Application.id a') with application_id; [exact Ha|].
    apply Application_get_id in Ha. unfold application_origin in Ho. congruence.
Qed.

Lemma dispatch_change db rt :
  change db
    (db_after (dispatch generate_password_hash check_password_hash
                 create_access_token isoformat format_value db rt)).
Proof.
  destruct rt as [rq| | | | | | | | | |]; simpl.
  - destruct rq; simpl.
    + rewrite (proj1 (login_unchanged _ _)). constructor.
    + rewrite (proj1 (get_jobs_unchanged _ _)). constructor.
    + rewrite (proj1 (get_job_unchanged _ _ _)). constructor.
    + apply create_job_change.
    + apply update_job_change.
    + apply apply_to_job_change.
    + apply approve_job_change.
    + apply reject_job_change.
    + rewrite (proj1 (get_all_users_unchanged _ _ _)). constructor.
  - apply register_change.
  - rewrite (proj1 (get_profile_unchanged _ _)). constructor.
  - apply update_profile_change.
  - apply delete_job_change.
  - rewrite (proj1 (get_user_applications_unchanged _ _)). constructor.
  - rewrite (proj1 (get_job_applications_unchanged _ _ _)). constructor.
  - apply update_application_status_change.
  - rewrite (proj1 (get_application_unchanged _ _ _)). constructor.
  - rewrite (proj1 (get_pending_jobs_unchanged _ _)). constructor.
  - rewrite (proj1 (get_admin_stats_unchanged _ _ _)). constructor.
Qed.

(** X17: integrity of the tables along every history.  From a database whose
    job and application keys are distinct and below the counters, whose
    applications name stored jobs and users, and which holds at most one
    application per (seeker, job) pair, every sequence of requests to any
    of the routes leads to a database with the same three properties. *)
Theorem history_keeps_integrity rts : forall db,
  keys_ok db -> references_ok db -> unique_applications db ->
  let db' := history generate_password_hash check_password_hash
               create_access_token isoformat format_value db rts in
  keys_ok db' /\ references_ok db' /\ unique_applications db'.
Proof.
  induction rts as [|rt rts IH]; simpl; intros db Hk Hr Hu; [tauto|].
  pose proof (dispatch_change db rt) as Hc.
  apply IH.
  - now apply (change_keeps_keys db).
  - now apply (change_keeps_references db).
  - now apply (change_keeps_unique db).
Qed.

(** X18: what a row is made of does not change.  Whatever the requests, a job
    that is stored after them under a key issued before them is a job that
    was stored then, with the same key, company, owner and creation time;
    and an application likewise, with the same key, cover letter, resume,
    applicant, job and creation time. *)
Theorem history_keeps_origins rts : forall db,
  let db' := history generate_password_hash check_password_hash
               create_access_token isoformat format_value db rts in
  (forall j', In j' (jobs db') -> Job.id j' < next_job_id db ->
              exists j, In j (jobs db) /\ job_origin j = job_origin j') /\
  (forall a', In a' (applications db') ->
              Application.id a' < next_application_id db ->
              exists a, In a (applications db) /\
                        application_origin a = application_origin a').
Proof.
  induction rts as [|rt rts IH]; simpl; intros db.
  - split; intros x Hx _; exists x; now split.
  - pose proof (dispatch_change db rt) as Hc.
    destruct (change_counters _ _ Hc) as [Hnj Hna].
    destruct (change_keeps_origins _ _ Hc) as [Hj Ha].
    destruct (IH (db_after (dispatch generate_password_hash check_password_hash
                              create_access_token isoformat format_value db rt)))
      as [IHj IHa].
    split.
    + intros j' Hin Hlt.
      destruct (IHj j' Hin ltac:(lia)) as (j1 & Hin1 & Ho1).
      destruct (Hj j1 Hin1) as (j & Hin0 & Ho0).
      * unfold job_origin in Ho1. assert (Job.id j1 = Job.id j') by congruence.
        lia.
      * exists j. split; [exact Hin0|congruence].
    + intros a' Hin Hlt.
      destruct (IHa a' Hin ltac:(lia)) as (a1 & Hin1 & Ho1).
      destruct (Ha a1 Hin1) as (a & Hin0 & Ho0).
      * unfold application_origin in Ho1.
        assert (Application.id a1 = Application.id a') by congruence.
        lia.
      * exists a. split; [exact Hin0|congruence].
Qed.


(* --------------------------------------------------------------- *)
(** *** routes/applications.py *)

(** X10: who moves an application, and what moves.  [update_application_status]
    answers 200 only to an admin or to the employer who owns the job of
    the application, and only for a request whose [status] is one of the
    four names; the stored application then carries that status.  Whatever
    the request, the key, cover letter, resume, applicant, job and creation
    time of every application are as before, the applications with another
    key are stored unchanged, users and jobs are untouched and no e-mail
    is sent; an answer other than 200 leaves the database as it was. *)
Theorem update_application_status_frame db now user_id application_id
  request_json :
  NoDup (map Application.id (applications db)) ->
  let r := update_application_status isoformat db now user_id application_id
             request_json in
  (status_code (response r) = 200 ->
   exists user a a' data,
     User_get db user_id = Some user /\
     Application_get db application_id = Some a /\
     (User.role user = RoleAdmin \/
      User.role user = RoleEmployer /\
      exists job, Job_get db (Application.job_id a) = Some job /\
                  owns user job) /\
     request_json = Some data /\
     dict_get data "status"
     = Ret (JStr (ApplicationStatus_to_string (Application.status a'))) /\
     Application_get (db_after r) application_id = Some a') /\
  (status_code (response r) <> 200 -> db_after r = db) /\
  map application_origin (applications (db_after r))
  = map application_origin (applications db) /\
  (forall b, In b (applications db) -> Application.id b <> application_id ->
             In b (applications (db_after r))) /\
  users (db_after r) = users db /\ jobs (db_after r) = jobs db /\
  sent r = [].
Proof.
  intros Hnd r.
  destruct (update_application_status_result db now user_id application_id
              request_json)
    as [(Hne & E & Hs) |
        (user & a & a' & data & Hu & Ha & Hp & Hd & Hv & Ho & _ & E)];
    fold r in Hne, E, Hs || fold r in E.
  - rewrite E, Hs. repeat split; auto. intros H. contradiction.
  - assert (Hid : Application.id a' = application_id).
    { apply Application_get_id in Ha. unfold application_origin in Ho.
      congruence. }
    rewrite E. simpl. split; [|split; [|split; [|split; [|split; [|split]]]]];
      try reflexivity.
    + intros _. exists user, a, a', data.
      split; [exact Hu|]. split; [exact Ha|]. split.
      { destruct Hp as [Hp|(Hp & job & Hj & Ho')]; [now left|right].
        split; [exact Hp|]. exists job. split; [exact Hj|].
        unfold owns. rewrite Ho'. symmetry. now apply User_get_id in Hu. }
      split; [exact Hd|]. split; [exact Hv|].
      now apply Application_get_update_application_row with (old := a).
    + intros H. now contradiction H.
    + apply map_replace_row with (old := a); auto.
      * now apply Application_get_In in Ha.
      * apply Application_get_id in Ha. congruence.
    + intros b Hin Hne. apply in_map_iff. exists b. split; [|exact Hin].
      destruct (Application.id b =? Application.id a') eqn:Eq; [|reflexivity].
      apply Z.eqb_eq in Eq. congruence.
Qed.

(** X11: a seeker's own applications.  [get_user_applications] answers a
    seeker with exactly the applications stored under the seeker's key,
    newest first, each with its job; anybody else gets 403. *)
Theorem get_user_applications_lists_own db user_id :
  let r := get_user_applications isoformat db user_id in
  ((forall user, User_get db user_id = Some user -> User.role user <> RoleUser) ->
   r = reply db 403 "Only job seekers can view their applications") /\
  (forall user,
      User_get db user_id = Some user -> User.role user = RoleUser ->
      exists rows,
        response r
        = mkResponse 200
            (JList (map (fun a => Application_to_dict_with isoformat db a true false)
                      rows)) /\
        newest_application_first rows /\
        (forall a, In a rows <->
                   In a (applications db) /\ Application.user_id a = user_id)).
Proof.
  intros r. subst r. unfold get_user_applications, handle. split.
  - intros H. destruct (User_get db user_id) as [user|]; [|reflexivity].
    specialize (H user eq_refl). apply Role_eqb_neq in H. now rewrite H.
  - intros user Hu Hr. rewrite Hu. apply Role_eqb_eq in Hr. rewrite Hr. simpl.
    eexists. split; [reflexivity|]. split.
    + apply order_by_desc_sorted.
    + intros a. rewrite In_order_by_desc, filter_In, Z.eqb_eq. reflexivity.
Qed.

(** X12: who reads the applications to a job.  [get_job_applications] answers
    200 only to an admin or to the employer who owns the job, with exactly
    the applications to the job, newest first, each with its applicant; an
    employer asking for another employer's job and a seeker get 403. *)
Theorem get_job_applications_access db user_id job_id :
  let r := get_job_applications isoformat db user_id job_id in
  (status_code (response r) = 200 ->
   exists user job rows,
     User_get db user_id = Some user /\ Job_get db job_id = Some job /\
     (User.role user = RoleAdmin \/
      User.role user = RoleEmployer /\ owns user job) /\
     body (response r)
     = JList (map (fun a => Application_to_dict_with isoformat db a false true)
                rows) /\
     newest_application_first rows /\
     (forall a, In a rows <->
                In a (applications db) /\ Application.job_id a = job_id)) /\
  (forall user job,
      User_get db user_id = Some user -> Job_get db job_id = Some job ->
      (User.role user = RoleEmployer /\ ~ owns user job ->
       r = reply db 403 "You can only view applications for your own jobs") /\
      (User.role user = RoleUser -> r = reply db 403 "Insufficient permissions")).
Proof.
  intros r. subst r. unfold get_job_applications, handle. split.
  - destruct (User_get db user_id) as [user|] eqn:Hu; [|discriminate].
    destruct (Job_get db job_id) as [job|] eqn:Hj; [|discriminate].
    pose proof (User_get_id _ _ _ Hu) as Hid.
    destruct (Role_eqb (User.role user) RoleEmployer) eqn:He; simpl.
    + destruct (Job.employer_id job =? user_id) eqn:Ho; simpl; [|discriminate].
      intros _. exists user, job. eexists. split; [reflexivity|].
      split; [reflexivity|]. split.
      { right. split; [now apply Role_eqb_eq|].
        unfold owns. apply Z.eqb_eq in Ho. congruence. }
      split; [reflexivity|]. split; [apply order_by_desc_sorted|].
      intros a. rewrite In_order_by_desc, filter_In, Z.eqb_eq. reflexivity.
    + destruct (Role_eqb (User.role user) RoleAdmin) eqn:Ha; simpl;
        [|discriminate].
      intros _. exists user, job. eexists. split; [reflexivity|].
      split; [reflexivity|]. split; [left; now apply Role_eqb_eq|].
      split; [reflexivity|]. split; [apply order_by_desc_sorted|].
      intros a. rewrite In_order_by_desc, filter_In, Z.eqb_eq. reflexivity.
  - intros user job Hu Hj. rewrite Hu, Hj.
    pose proof (User_get_id _ _ _ Hu) as Hid. split.
    + intros [Hr Hno]. rewrite Hr. simpl.
      destruct (Job.employer_id job =? user_id) eqn:Ho; [|reflexivity].
      exfalso. apply Hno. unfold owns. apply Z.eqb_eq in Ho. congruence.
    + intros Hr. rewrite Hr. reflexivity.
Qed.

(** X13: who reads an application.  [get_application] answers 200 only to the
    seeker who made the application, to the employer who owns its job, or
    to an admin; the seeker is shown the job, the other two the applicant. *)
Theorem get_application_access db user_id application_id :
  let r := get_application isoformat db user_id application_id in
  (status_code (response r) = 200 ->
   exists user a,
     User_get db user_id = Some user /\
     Application_get db application_id = Some a /\
     (User.role user = RoleUser /\ Application.user_id a = user_id /\
      body (response r) = Application_to_dict_with isoformat db a true false \/
      User.role user = RoleEmployer /\
      (exists job, Job_get db (Application.job_id a) = Some job /\
                   owns user job) /\
      body (response r) = Application_to_dict_with isoformat db a false true \/
      User.role user = RoleAdmin /\
      body (response r) = Application_to_dict_with isoformat db a false true)) /\
  (forall user a,
      User_get db user_id = Some user ->
      Application_get db application_id = Some a ->
      User.role user = RoleUser -> Application.user_id a <> user_id ->
      r = reply db 403 "You can only view your own applications").
Proof.
  intros r. subst r. unfold get_application, handle. split.
  - destruct (User_get db user_id) as [user|] eqn:Hu; [|discriminate].
    destruct (Application_get db application_id) as [a|] eqn:Ha; [|discriminate].
    pose proof (User_get_id _ _ _ Hu) as Hid.
    destruct (User.role user) eqn:Hr; simpl.
    + destruct (Application.user_id a =? user_id) eqn:Ho; simpl; [|discriminate].
      intros _. exists user, a. split; [reflexivity|]. split; [reflexivity|].
      left. rewrite Hr. apply Z.eqb_eq in Ho. now repeat split.
    + destruct (Job_get db (Application.job_id a)) as [job|] eqn:Hj; simpl;
        [|discriminate].
      unfold bind. simpl.
      destruct (Job.employer_id job =? user_id) eqn:Ho; simpl; [|discriminate].
      intros _. exists user, a. split; [reflexivity|]. split; [reflexivity|].
      right. left. rewrite Hr. split; [reflexivity|]. split; [|reflexivity].
      exists job. split; [exact Hj|].
      unfold owns. apply Z.eqb_eq in Ho. congruence.
    + intros _. exists user, a. split; [reflexivity|]. split; [reflexivity|].
      right. right. rewrite Hr. now split.
  - intros user a Hu Ha Hr Hne. rewrite Hu, Ha, Hr. simpl.
    apply Z.eqb_neq in Hne. now rewrite Hne.
Qed.

(* --------------------------------------------------------------- *)
(** *** The reports of routes/admin.py *)

(** X15: the statistics add up.  For an admin, [get_admin_stats] answers 200
    with the numbers of stored users, jobs and applications as the three
    totals; the counts by role, by job status and by application status
    each add up to the total of their table, and the number of pending
    jobs is the count the report by job status gives for [pending]
    (which has no entry when there is none). *)
Theorem get_admin_stats_totals db now user_id :
  require_admin db user_id = None ->
  exists pending by_role by_status by_application recent,
    response (get_admin_stats db now user_id)
    = mkResponse 200
        (JObj [("totalUsers", JInt (Z.of_nat (List.length (users db))));
               ("totalJobs", JInt (Z.of_nat (List.length (jobs db))));
               ("totalApplications",
                JInt (Z.of_nat (List.length (applications db))));
               ("pendingJobs", JInt pending);
               ("usersByRole", by_role);
               ("jobsByStatus", by_status);
               ("applicationsByStatus", by_application);
               ("recentActivity", recent)]) /\
    sum_counts by_role = Z.of_nat (List.length (users db)) /\
    sum_counts by_status = Z.of_nat (List.length (jobs db)) /\
    sum_counts by_application = Z.of_nat (List.length (applications db)) /\
    field "pending" by_status
    = (if 0 <? pending then Some (JInt pending) else None).
Proof.
  intros Ha. unfold get_admin_stats, handle. rewrite Ha. simpl.
  rewrite !count_all.
  eexists _, _, _, _, _. split; [reflexivity|].
  rewrite !sum_counts_by. simpl fold_right.
  split; [|split; [|split]].
  - induction (users db) as [|u l IH]; [reflexivity|].
    rewrite !count_cons. change (List.length (u :: l)) with (S (List.length l)).
    rewrite Nat2Z.inj_succ.
    destruct (User.role u); cbn [Role_eqb JobStatus_eqb ApplicationStatus_eqb]; lia.
  - induction (jobs db) as [|u l IH]; [reflexivity|].
    rewrite !count_cons. change (List.length (u :: l)) with (S (List.length l)).
    rewrite Nat2Z.inj_succ.
    destruct (Job.status u); cbn [Role_eqb JobStatus_eqb ApplicationStatus_eqb]; lia.
  - induction (applications db) as [|u l IH]; [reflexivity|].
    rewrite !count_cons. change (List.length (u :: l)) with (S (List.length l)).
    rewrite Nat2Z.inj_succ.
    destruct (Application.status u); cbn [Role_eqb JobStatus_eqb ApplicationStatus_eqb]; lia.
  - unfold counts_by. simpl.
    destruct (0 <? count (fun j => JobStatus_eqb (Job.status j) Pending) (jobs db));
      simpl; [reflexivity|].
    destruct (0 <? count (fun j => JobStatus_eqb (Job.status j) Approved) (jobs db));
      simpl;
      destruct (0 <? count (fun j => JobStatus_eqb (Job.status j) Rejected) (jobs db));
      reflexivity.
Qed.

(** X16: the moderation queue.  For an admin, [get_pending_jobs] answers 200
    with one entry for each pending job and for no other, newest first;
    each entry carries the key of its job, the status [pending], and the
    employer of the job when that user is stored. *)
Theorem get_pending_jobs_lists_pending db user_id :
  require_admin db user_id = None ->
  exists rows l,
    response (get_pending_jobs isoformat db user_id) = mkResponse 200 (JList l) /\
    newest_first rows /\
    (forall j, In j rows <-> In j (jobs db) /\ Job.status j = Pending) /\
    Forall2
      (fun j d =>
         field "id" d = Some (JInt (Job.id j)) /\
         field "status" d = Some (JStr "pending") /\
         field "employer" d
         = option_map (User_to_dict isoformat) (User_get db (Job.employer_id j)))
      rows l.
Proof.
  intros Ha. unfold get_pending_jobs, handle. rewrite Ha. simpl.
  eexists _, _. split; [reflexivity|]. split; [apply order_by_desc_sorted|].
  split.
  - intros j. rewrite In_order_by_desc, filter_In, JobStatus_eqb_eq. reflexivity.
  - apply Forall2_map_r. intros j Hj.
    apply In_order_by_desc, filter_In in Hj. destruct Hj as [_ Hs].
    apply JobStatus_eqb_eq in Hs.
    unfold Job_to_dict.
    destruct (User_get db (Job.employer_id j)) as [employer|]; simpl;
      rewrite Hs; repeat split.
Qed.

End Integrity.

(* ================================================================= *)
(** ** The further properties at work on the small instance *)

(** A second registration under the seeker's e-mail. *)
Lemma register_rejects_known_email_witness :
  register DemoRoutes.generate_password_hash Demo.create_access_token
    Demo.isoformat DemoRoutes.db 100 4
    (DemoRoutes.registration "test@example.com" "user" JNull)
  = reply DemoRoutes.db 400 "User already exists".
Proof.
  unfold DemoRoutes.registration.
  apply (register_rejects_known_email DemoRoutes.generate_password_hash
           Demo.create_access_token Demo.isoformat DemoRoutes.db 100 4 _
           (JStr "user") RoleUser (JStr "test@example.com") Demo.seeker);
    reflexivity.
Defined.

(** A new seeker registers and logs in. *)
Lemma register_then_login_witness :
  exists user,
    In user
      (users
         (db_after
            (register DemoRoutes.generate_password_hash
               Demo.create_access_token Demo.isoformat DemoRoutes.db 100 4
               (DemoRoutes.registration "ada@example.com" "user" JNull)))) /\
    User.id user = 4 /\
    status_code
      (response
         (login Demo.check_password_hash Demo.create_access_token
            Demo.isoformat
            (db_after
               (register DemoRoutes.generate_password_hash
                  Demo.create_access_token Demo.isoformat DemoRoutes.db 100 4
                  (DemoRoutes.registration "ada@example.com" "user" JNull)))
            (Some (JObj [("email", JStr "ada@example.com");
                         ("password", JStr "password123")]))))
    = 200.
Proof.
  unfold DemoRoutes.registration.
  destruct (register_then_login DemoRoutes.generate_password_hash
              Demo.check_password_hash Demo.create_access_token Demo.isoformat
              DemoRoutes.db 100 4
              [("email", JStr "ada@example.com");
               ("password", JStr "password123");
               ("firstName", JStr "Ada");
               ("lastName", JStr "Lovelace");
               ("role", JStr "user");
               ("company", JNull)]
              (JStr "ada@example.com") (JStr "password123")
              [("email", JStr "ada@example.com");
               ("password", JStr "password123")])
    as (user & Hin & Hid & Hlogin); try reflexivity.
  - intros digest H. inversion H. reflexivity.
  - exists user. split; [exact Hin|]. split; [exact Hid|].
    now rewrite Hlogin.
Defined.

(** The seeker changes first name and asks for a company. *)
Lemma update_profile_keeps_accounts_witness :
  map account
    (users
       (db_after
          (update_profile Demo.isoformat DemoRoutes.db 100 3
             (Some (JObj [("firstName", JStr "Johnny");
                          ("company", JStr "Acme")])))))
  = map account (users DemoRoutes.db).
Proof.
  refine (proj1 (update_profile_keeps_accounts Demo.isoformat DemoRoutes.db
                   100 3
                   (Some (JObj [("firstName", JStr "Johnny");
                                ("company", JStr "Acme")]))
                   _)).
  repeat (apply NoDup_cons; [simpl; intuition discriminate|]). apply NoDup_nil.
Defined.

(** The employer deletes the job the seeker has applied to. *)
Lemma delete_job_cascades_witness :
  Job_get (db_after (delete_job DemoRoutes.db 2 2)) 2 = None /\
  users (db_after (delete_job DemoRoutes.db 2 2)) = users DemoRoutes.db.
Proof.
  destruct (delete_job_cascades DemoRoutes.db 2 2 eq_refl)
    as (Hgone & _ & _ & Husers).
  split; [exact Hgone|exact Husers].
Defined.

(** The employer retitles the approved job. *)
Lemma update_job_frame_witness :
  map job_origin
    (jobs
       (db_after
          (update_job Demo.isoformat DemoRoutes.db 100 2 2
             (Some (JObj [("title", JStr "Platform Engineer")])))))
  = map job_origin (jobs DemoRoutes.db).
Proof.
  refine (proj1 (proj2 (update_job_frame Demo.isoformat DemoRoutes.db 100 2 2
                          (Some (JObj [("title", JStr "Platform Engineer")]))
                          _))).
  repeat (apply NoDup_cons; [simpl; intuition discriminate|]). apply NoDup_nil.
Defined.

(** The seeker calls the admin's routes. *)
Lemma admin_routes_require_admin_witness :
  approve_job Demo.isoformat Demo.format_value Demo.db 100 3 1
  = reply Demo.db 403 "Admin access required" /\
  get_admin_stats Demo.db 100 3 = reply Demo.db 403 "Admin access required".
Proof.
  destruct (admin_routes_require_admin Demo.isoformat Demo.format_value
              Demo.db 100 3 1 None [])
    as (Ha & _ & _ & Hs & _).
  - intros user H. inversion H. discriminate.
  - split; [exact Ha|exact Hs].
Defined.

(** The employer moves the seeker's application to the interview. *)
Lemma update_application_status_frame_witness :
  map application_origin
    (applications
       (db_after
          (update_application_status Demo.isoformat DemoRoutes.db 100 2 1
             (Some (JObj [("status", JStr "interview")])))))
  = map application_origin (applications DemoRoutes.db).
Proof.
  refine (proj1 (proj2 (proj2 (update_application_status_frame Demo.isoformat
                                 DemoRoutes.db 100 2 1
                                 (Some (JObj [("status", JStr "interview")]))
                                 _)))).
  repeat (apply NoDup_cons; [simpl; intuition discriminate|]). apply NoDup_nil.
Defined.

(** The admin reads the statistics. *)
Lemma get_admin_stats_totals_witness :
  exists by_role,
    field "usersByRole" (body (response (get_admin_stats DemoRoutes.db 100 1)))
    = Some by_role /\
    sum_counts by_role = 3.
Proof.
  destruct (get_admin_stats_totals DemoRoutes.db 100 1 eq_refl)
    as (pending & by_role & by_status & by_application & recent & E & Hr & _).
  exists by_role. rewrite E. split; [reflexivity|exact Hr].
Defined.

(** The admin reads the moderation queue. *)
Lemma get_pending_jobs_lists_pending_witness :
  exists rows l,
    response (get_pending_jobs Demo.isoformat DemoRoutes.db 1)
    = mkResponse 200 (JList l) /\
    newest_first rows /\
    (forall j, In j rows <-> In j (jobs DemoRoutes.db) /\ Job.status j = Pending) /\
    Forall2
      (fun j d =>
         field "id" d = Some (JInt (Job.id j)) /\
         field "status" d = Some (JStr "pending") /\
         field "employer" d
         = option_map (User_to_dict Demo.isoformat)
             (User_get DemoRoutes.db (Job.employer_id j)))
      rows l.
Proof.
  exact (get_pending_jobs_lists_pending Demo.isoformat DemoRoutes.db 1 eq_refl).
Defined.

(** The employer deletes the job the seeker applied to, and the seeker
    applies to it again. *)
Lemma history_keeps_integrity_witness :
  references_ok
    (history DemoRoutes.generate_password_hash Demo.check_password_hash
       Demo.create_access_token Demo.isoformat Demo.format_value DemoRoutes.db
       [DeleteJob 2 2; Served (ApplyToJob 100 3 2 Demo.application_form)]).
Proof.
  refine (proj1 (proj2 (history_keeps_integrity
                          DemoRoutes.generate_password_hash
                          Demo.check_password_hash Demo.create_access_token
                          Demo.isoformat Demo.format_value
                          [DeleteJob 2 2;
                           Served (ApplyToJob 100 3 2 Demo.application_form)]
                          DemoRoutes.db _ _ _))).
  - unfold keys_ok. simpl. split; [|split; [|split]].
    + repeat (apply NoDup_cons; [simpl; intuition discriminate|]).
      apply NoDup_nil.
    + repeat (apply Forall_cons; [simpl; lia|]). apply Forall_nil.
    + repeat (apply NoDup_cons; [simpl; intuition discriminate|]).
      apply NoDup_nil.
    + repeat (apply Forall_cons; [simpl; lia|]). apply Forall_nil.
  - unfold references_ok. simpl.
    apply Forall_cons; [|apply Forall_nil].
    split; intros H; vm_compute in H; discriminate H.
  - unfold unique_applications. simpl.
    apply NoDup_cons; [intros []|apply NoDup_nil].
Defined.
